(** * Proactive task manager: task-state mutation engine, write-ahead log,
      health scanner and velocity report.

    Shallow embedding of [scripts/task_manager_phase1.py] and
    [scripts/task_manager_phase2.py].  Tasks and goals are Python dicts with
    string keys, embedded as finite maps from strings to scalar JSON values.
    File and clock effects are the nodes of a small program monad, so that an
    operation can be run to its end or interrupted after any number of
    effects. *)

From Stdlib Require Import ZArith String Ascii List Floats Uint63 Lia Bool OrderedTypeEx.
From stdpp Require Import gmap strings list fin_maps.

Open Scope string_scope.
Open Scope list_scope.
Open Scope Z_scope.

(** ** Scalar values held in task and goal dictionaries

    JSON null, booleans, integers and strings.  Every field the operations
    read, compare or write is one of these. *)
Inductive value : Type :=
| VNone
| VBool (b : bool)
| VInt (z : Z)
| VStr (s : string).

#[global] Instance value_eq_dec : EqDecision value.
Proof. solve_decision. Defined.

Abbreviation dict := (gmap string value).

(** The store blob [{goals: [...], tasks: [...]}]. *)
Record Store : Type := mkStore {
  goals : list dict;
  tasks : list dict
}.

Definition empty_store : Store := mkStore [] [].

(** ** Python operators on values *)

(** [d.get(k, dflt)] *)
Definition dict_get (d : dict) (k : string) (dflt : value) : value :=
  default dflt (d !! k).

(** Truth value of an object, as [if x:] and [not x] read it. *)
Definition truthy (v : value) : bool :=
  match v with
  | VNone => false
  | VBool b => b
  | VInt z => negb (z =? 0)
  | VStr s => negb (String.eqb s EmptyString)
  end.

(** Numeric reading of a value: [bool] is a subclass of [int]. *)
Definition as_int (v : value) : option Z :=
  match v with
  | VInt z => Some z
  | VBool b => Some (Z.b2z b)
  | _ => None
  end.

(** [a == b] *)
Definition py_eq (a b : value) : bool :=
  match a, b with
  | VNone, VNone => true
  | VStr x, VStr y => String.eqb x y
  | _, _ =>
      match as_int a, as_int b with
      | Some x, Some y => x =? y
      | _, _ => false
      end
  end.

(** [v == "literal"] *)
Definition py_eq_str (v : value) (s : string) : bool := py_eq v (VStr s).

(** Strings are ordered by code point, the first difference deciding. *)
Definition str_gt (a b : string) : bool := String.ltb b a.
Definition str_le (a b : string) : bool := String.leb a b.

(** Outcome of an expression that can raise. *)
Inductive error : Type :=
| TaskNotFound
| GoalNotFound
| InvalidArgument
| NotRecurring
| IncompleteTask (current : value)
| KeyError (key : string)
| TypeError
| AttributeError
| ZeroDivisionError
| JSONDecodeError
| IOError.

Inductive result (A : Type) : Type :=
| Ok (a : A)
| Err (e : error).
Arguments Ok {A} a.
Arguments Err {A} e.

(** [a > b]: numbers with numbers, strings with strings, [TypeError] otherwise. *)
Definition py_gt (a b : value) : result bool :=
  match a, b with
  | VStr x, VStr y => Ok (str_gt x y)
  | _, _ =>
      match as_int a, as_int b with
      | Some x, Some y => Ok (y <? x)
      | _, _ => Err TypeError
      end
  end.

(** [a < b] *)
Definition py_lt (a b : value) : result bool := py_gt b a.

(** [s * n] for a string: [n] copies, none when [n <= 0]. *)
Fixpoint str_repeat (s : string) (n : nat) : string :=
  match n with
  | O => EmptyString
  | S n' => s +:+ str_repeat s n'
  end.

(** [a * n] with an integer literal [n] *)
Definition py_mul_int (a : value) (n : Z) : result value :=
  match a with
  | VStr s => Ok (VStr (str_repeat s (Z.to_nat n)))
  | VNone => Err TypeError
  | _ => match as_int a with
         | Some x => Ok (VInt (x * n))
         | None => Err TypeError
         end
  end.

(** [a + n] with an integer [n] *)
Definition py_add_int (a : value) (n : Z) : result value :=
  match as_int a with
  | Some x => Ok (VInt (x + n))
  | None => Err TypeError
  end.

(** [a / b] (true division): only whether it raises matters to the callers,
    which use the quotient in a message. *)
Definition py_truediv_check (a b : value) : result unit :=
  match as_int a, as_int b with
  | Some _, Some y => if y =? 0 then Err ZeroDivisionError else Ok tt
  | _, _ => Err TypeError
  end.

(** [a += "\n" + notes] on a string field *)
Definition newline : string := String (ascii_of_nat 10) EmptyString.

Definition py_append_note (a : value) (notes : string) : result value :=
  match a with
  | VStr s => Ok (VStr (s +:+ newline +:+ notes))
  | _ => Err TypeError
  end.

(** ** Files and the environment *)

(** One line of a [WAL-<day>.log] file. *)
Record wal_entry : Type := mkWal {
  wal_timestamp : string;
  wal_event_type : string;
  wal_content : dict
}.

(** The world an operation runs in: the store blob, the WAL files by name,
    the snapshot document and the working buffer, the wall clock (microseconds
    since the epoch, one reading per call of [datetime.now]) and the source of
    random identifier tokens. *)
Record World : Type := mkWorld {
  disk : Store;
  wal : gmap string (list wal_entry);
  session : option (dict * dict);
  buffer : list (string * string);
  clock : nat -> Z;
  tick : nat;
  uuid_hex8 : nat -> string;
  drawn : nat
}.

Definition set_disk (s : Store) (w : World) : World :=
  mkWorld s (wal w) (session w) (buffer w) (clock w) (tick w) (uuid_hex8 w) (drawn w).

Definition set_tick (n : nat) (w : World) : World :=
  mkWorld (disk w) (wal w) (session w) (buffer w) (clock w) n (uuid_hex8 w) (drawn w).

Definition set_drawn (n : nat) (w : World) : World :=
  mkWorld (disk w) (wal w) (session w) (buffer w) (clock w) (tick w) (uuid_hex8 w) n.

Definition wal_lines (w : World) (file : string) : list wal_entry :=
  default [] (wal w !! file).

Definition append_wal (file : string) (e : wal_entry) (w : World) : World :=
  mkWorld (disk w) (<[file := wal_lines w file ++ [e]]> (wal w)) (session w)
          (buffer w) (clock w) (tick w) (uuid_hex8 w) (drawn w).

Definition set_session (task goal : dict) (w : World) : World :=
  mkWorld (disk w) (wal w) (Some (task, goal)) (buffer w) (clock w) (tick w)
          (uuid_hex8 w) (drawn w).

Definition append_buffer (event_type details : string) (w : World) : World :=
  mkWorld (disk w) (wal w) (session w) (buffer w ++ [(event_type, details)])
          (clock w) (tick w) (uuid_hex8 w) (drawn w).

(** The formatting functions of the [datetime] library the scripts call. *)
Class Datetime : Type := {
  isoformat : Z -> string;
  strftime_ymd : Z -> string
}.

(** ** Programs: the effects of the scripts, in order *)
Inductive Prog (A : Type) : Type :=
| Ret (a : A)
| Raise (e : error)
| Now (k : Z -> Prog A)
| Uuid4 (k : string -> Prog A)
| LoadData (k : Store -> Prog A)
| SaveData (data : Store) (k : Prog A)
| AppendWal (file : string) (entry : wal_entry) (k : Prog A)
| WriteSession (task goal : dict) (k : Prog A)
| AppendBuffer (event_type details : string) (k : Prog A).
Arguments Ret {A} a.
Arguments Raise {A} e.
Arguments Now {A} k.
Arguments Uuid4 {A} k.
Arguments LoadData {A} k.
Arguments SaveData {A} data k.
Arguments AppendWal {A} file entry k.
Arguments WriteSession {A} task goal k.
Arguments AppendBuffer {A} event_type details k.

Fixpoint bind {A B : Type} (m : Prog A) (f : A -> Prog B) : Prog B :=
  match m with
  | Ret a => f a
  | Raise e => Raise e
  | Now k => Now (fun t => bind (k t) f)
  | Uuid4 k => Uuid4 (fun u => bind (k u) f)
  | LoadData k => LoadData (fun s => bind (k s) f)
  | SaveData d k => SaveData d (bind k f)
  | AppendWal fl e k => AppendWal fl e (bind k f)
  | WriteSession t g k => WriteSession t g (bind k f)
  | AppendBuffer ev dt k => AppendBuffer ev dt (bind k f)
  end.

Notation "'do' x <- m ; k" := (bind m (fun x => k))
  (at level 10, x name, m at level 100, k at level 200, only parsing).
Notation "'do' ' pat <- m ; k" := (bind m (fun x => match x with pat => k end))
  (at level 10, pat pattern, m at level 100, k at level 200, only parsing).
Notation "'exec' m ; k" := (bind m (fun _ => k))
  (at level 10, m at level 100, k at level 200, only parsing).

(** An expression that can raise, inside a program. *)
Definition lift {A : Type} (r : result A) : Prog A :=
  match r with
  | Ok a => Ret a
  | Err e => Raise e
  end.

Definition now : Prog Z := Now Ret.
(** [data = load_data()] where the blob holds a store of the expected shape
    (see [load_data] of each phase below for every other blob). *)
Definition load_store : Prog Store := LoadData Ret.
Definition save_data (data : Store) : Prog unit := SaveData data (Ret tt).

(** Running a program to its end. *)
Fixpoint run {A : Type} (p : Prog A) (w : World) : World * result A :=
  match p with
  | Ret a => (w, Ok a)
  | Raise e => (w, Err e)
  | Now k => run (k (clock w (tick w))) (set_tick (S (tick w)) w)
  | Uuid4 k => run (k (uuid_hex8 w (drawn w))) (set_drawn (S (drawn w)) w)
  | LoadData k => run (k (disk w)) w
  | SaveData d k => run k (set_disk d w)
  | AppendWal fl e k => run k (append_wal fl e w)
  | WriteSession t g k => run k (set_session t g w)
  | AppendBuffer ev dt k => run k (append_buffer ev dt w)
  end.

(** Running at most [n] effects: the world a process leaves behind when it is
    cut off after [n] steps, and the outcome if it got that far. *)
Fixpoint run_upto {A : Type} (n : nat) (p : Prog A) (w : World)
  : World * option (result A) :=
  match p with
  | Ret a => (w, Some (Ok a))
  | Raise e => (w, Some (Err e))
  | _ =>
    match n with
    | O => (w, None)
    | S n' =>
      match p with
      | Ret a => (w, Some (Ok a))
      | Raise e => (w, Some (Err e))
      | Now k => run_upto n' (k (clock w (tick w))) (set_tick (S (tick w)) w)
      | Uuid4 k => run_upto n' (k (uuid_hex8 w (drawn w))) (set_drawn (S (drawn w)) w)
      | LoadData k => run_upto n' (k (disk w)) w
      | SaveData d k => run_upto n' k (set_disk d w)
      | AppendWal fl e k => run_upto n' k (append_wal fl e w)
      | WriteSession t g k => run_upto n' k (set_session t g w)
      | AppendBuffer ev dt k => run_upto n' k (append_buffer ev dt w)
      end
    end
  end.

(** Expressions that can raise, chained. *)
Definition result_bind {A B : Type} (r : result A) (f : A -> result B) : result B :=
  match r with
  | Ok a => f a
  | Err e => Err e
  end.

Notation "'val' x <- r ; k" := (result_bind r (fun x => k))
  (at level 10, x name, r at level 100, k at level 200, only parsing).

(** [d[k]] *)
Definition getitem (d : dict) (k : string) : result value :=
  match d !! k with
  | Some v => Ok v
  | None => Err (KeyError k)
  end.

(** ** Helpers both scripts define alike *)

(** [find_task_by_id]: the first task whose ["id"] equals [task_id].  The
    script returns a reference into [data["tasks"]]; the index stands for it. *)
Fixpoint find_task_from (i : nat) (ts : list dict) (task_id : string)
  : result (option (nat * dict)) :=
  match ts with
  | [] => Ok None
  | task :: rest =>
      val v <- getitem task "id" ;
      if py_eq_str v task_id then Ok (Some (i, task))
      else find_task_from (S i) rest task_id
  end.

Definition find_task_by_id (data : Store) (task_id : string)
  : result (option (nat * dict)) :=
  find_task_from 0 (tasks data) task_id.

(** [find_goal_by_id], and phase 1's [next((g for g in goals if ...), None)]. *)
Fixpoint find_goal_in (gs : list dict) (goal_id : value) : result (option dict) :=
  match gs with
  | [] => Ok None
  | goal :: rest =>
      val v <- getitem goal "id" ;
      if py_eq v goal_id then Ok (Some goal) else find_goal_in rest goal_id
  end.

Definition find_goal_by_id (data : Store) (goal_id : value) : result (option dict) :=
  find_goal_in (goals data) goal_id.

(** Writing through the reference [find_task_by_id] returned. *)
Definition set_task (data : Store) (i : nat) (task : dict) : Store :=
  mkStore (goals data) (<[i := task]> (tasks data)).

(** [task = find_task_by_id(...); if not task: ... sys.exit(1)] *)
Definition require_task (data : Store) (task_id : string) : Prog (nat * dict) :=
  do r <- lift (find_task_by_id data task_id) ;
  match r with
  | Some found => Ret found
  | None => Raise TaskNotFound
  end.

(** [timedelta(days=d)] in microseconds. *)
Definition timedelta_days (d : Z) : Z := d * 86400000000.
Definition timedelta_weeks (n : Z) : Z := timedelta_days (7 * n).

(** ** Numbers of the velocity report *)

(** A JSON number as Python holds it: an [int] or a binary64 [float]. *)
Inductive number : Type :=
| NInt (z : Z)
| NFloat (f : float).

(** [float(n)] of a count (exact below [2^53]). *)
Definition float_of_Z (z : Z) : float :=
  if z <? 0 then PrimFloat.opp (PrimFloat.of_uint63 (Uint63.of_Z (- z)))
  else PrimFloat.of_uint63 (Uint63.of_Z z).

Definition float_of_nat (n : nat) : float := float_of_Z (Z.of_nat n).

(** [x > 0] *)
Definition number_pos (x : number) : bool :=
  match x with
  | NInt z => 0 <? z
  | NFloat f => PrimFloat.ltb PrimFloat.zero f
  end.

(** [n / x] for a count [n] and a positive number [x] (true division). *)
Definition count_div (n : nat) (x : number) : number :=
  match x with
  | NInt z => NFloat (PrimFloat.div (float_of_nat n) (float_of_Z z))
  | NFloat f => NFloat (PrimFloat.div (float_of_nat n) f)
  end.

(** Nearest integer to [num / den] for [den > 0], ties to the even one. *)
Definition round_half_even (num den : Z) : Z :=
  let q := num / den in
  let r := num mod den in
  if 2 * r <? den then q
  else if den <? 2 * r then q + 1
  else if Z.even q then q else q + 1.

(** [round(x, nd)] on a float: the exact binary value is rounded to [nd]
    decimals, ties to even, and the decimal read back as the nearest float
    (CPython's correctly rounded [float.__round__], for magnitudes whose
    scaled value stays below [2^53]). *)
Definition round_float (x : float) (nd : nat) : float :=
  match Prim2SF x with
  | S754_finite s m e =>
      if 0 <=? e then x
      else
        let p := 10 ^ Z.of_nat nd in
        let k := round_half_even (Z.pos m * p) (2 ^ (- e)) in
        let q := PrimFloat.div (float_of_Z k) (float_of_Z p) in
        if s then PrimFloat.opp q else q
  | _ => x
  end.

(** [round(x, nd)]: an [int] is returned as it is. *)
Definition py_round (x : number) (nd : nat) : number :=
  match x with
  | NInt z => NInt z
  | NFloat f => NFloat (round_float f nd)
  end.

(** [s.split("T")[0]] *)
Fixpoint before_T (s : string) : string :=
  match s with
  | EmptyString => EmptyString
  | String c rest =>
      if Ascii.eqb c "T"%char then EmptyString else String c (before_T rest)
  end.

Record velocity_report : Type := mkReport {
  completed_count : nat;
  remaining_count : nat;
  days_tracked : nat;
  velocity_tasks_per_day : number;
  estimated_days_to_completion : number;
  completions_by_day : gmap string nat
}.

(** ** The store blob as a file

    What [json.load] can return, and the states [data/tasks.json] can be in. *)
#[warnings="-register-all"]
Inductive json : Type :=
| JNull
| JBool (b : bool)
| JNum (z : Z)
| JStr (s : string)
| JArr (items : list json)
| JObj (fields : gmap string json).

Inductive file_state : Type :=
| Missing
| Unreadable
| Garbled
| Holds (j : json).

Record Files : Type := mkFiles {
  data_file : file_state;
  backup_file : file_state
}.

Inductive warning : Type :=
| SchemaInvalid
| Corrupted
| ReadError.

(** [{"goals": [], "tasks": []}] *)
Definition empty_blob : json :=
  JObj (<["goals" := JArr []]> (<["tasks" := JArr []]> ∅)).

(** [isinstance(data, dict)] *)
Definition is_mapping (j : json) : bool :=
  match j with
  | JObj _ => true
  | _ => false
  end.

(** ["tasks" in data], for a mapping *)
Definition has_tasks (j : json) : bool :=
  match j with
  | JObj fields => bool_decide (is_Some (fields !! "tasks"))
  | _ => false
  end.

(** A store of the expected shape, as the blob [json.dump] writes. *)
Definition encode_value (v : value) : json :=
  match v with
  | VNone => JNull
  | VBool b => JBool b
  | VInt z => JNum z
  | VStr s => JStr s
  end.

Definition encode_dict (d : dict) : json := JObj (encode_value <$> d).

Definition encode_store (s : Store) : json :=
  JObj (<["goals" := JArr (encode_dict <$> goals s)]>
        (<["tasks" := JArr (encode_dict <$> tasks s)]> ∅)).

(** ** Phase 1: [scripts/task_manager_phase1.py] *)
Module Phase1.

(** [load_data]: the files afterwards, the warning printed if any, and the
    data returned. *)
Definition load_data (fs : Files) : Files * option warning * json :=
  match data_file fs with
  | Missing => (fs, None, empty_blob)
  | Holds data =>
      if negb (is_mapping data) || negb (has_tasks data)
      then (fs, Some SchemaInvalid, empty_blob)
      else (fs, None, data)
  | Garbled => (mkFiles (data_file fs) (data_file fs), Some Corrupted, empty_blob)
  | Unreadable => (fs, Some ReadError, empty_blob)
  end.

Section WithDatetime.
Context `{DT : Datetime}.

(** [datetime.now(timezone.utc).isoformat() + "Z"] *)
Definition now_stamp : Prog value :=
  do t <- now ;
  Ret (VStr (isoformat t +:+ "Z")).

(** [generate_id(prefix)] *)
Definition generate_id (prefix : string) : Prog string :=
  do u <- Uuid4 Ret ;
  Ret (prefix +:+ "_" +:+ u).

(** [mark_progress]: [progress] is [int(args.progress)]. *)
Definition mark_progress (task_id : string) (progress : Z) : Prog dict :=
  do data <- load_store ;
  do '(i, task) <- require_task data task_id ;
  if negb ((0 <=? progress) && (progress <=? 100)) then Raise InvalidArgument
  else
    let task := <["progress" := VInt progress]> task in
    do stamp <- now_stamp ;
    let task := <["updated_at" := stamp]> task in
    do completes <-
      (if progress =? 100
       then do st <- lift (getitem task "status") ; Ret (py_eq_str st "in_progress")
       else Ret false) ;
    do task <-
      (if completes : bool
       then
         let task := <["status" := VStr "completed"]> task in
         do stamp <- now_stamp ;
         Ret (<["completed_at" := stamp]> task)
       else
         do starts <-
           (if 0 <? progress
            then do st <- lift (getitem task "status") ; Ret (py_eq_str st "pending")
            else Ret false) ;
         Ret (if starts : bool then <["status" := VStr "in_progress"]> task else task)) ;
    exec save_data (set_task data i task) ;
    Ret task.

(** [mark_blocked] *)
Definition mark_blocked (task_id reason : string) : Prog dict :=
  do data <- load_store ;
  do '(i, task) <- require_task data task_id ;
  let task := <["status" := VStr "blocked"]> task in
  let task := <["blocked_reason" := VStr reason]> task in
  do stamp <- now_stamp ;
  let task := <["updated_at" := stamp]> task in
  exec save_data (set_task data i task) ;
  Ret task.

(** [unblock_task] *)
Definition unblock_task (task_id : string) : Prog dict :=
  do data <- load_store ;
  do '(i, task) <- require_task data task_id ;
  let task := <["status" := VStr "pending"]> task in
  let task := <["blocked_reason" := VNone]> task in
  do stamp <- now_stamp ;
  let task := <["updated_at" := stamp]> task in
  exec save_data (set_task data i task) ;
  Ret task.

(** [args.priority or "medium"] *)
Definition priority_or_medium (priority : option string) : string :=
  match priority with
  | Some p => if String.eqb p EmptyString then "medium" else p
  | None => "medium"
  end.

(** [create_recurring].  [estimate] is [int(args.estimate)] where
    [--estimate] was given and is not the empty string, so that
    [--estimate 0] is [Some 0]: the test [if args.estimate:] is on the text. *)
Definition create_recurring (goal_id title recurring : string)
           (priority : option string) (estimate : option Z) : Prog dict :=
  do data <- load_store ;
  do goal <- lift (find_goal_by_id data (VStr goal_id)) ;
  match goal with
  | None => Raise GoalNotFound
  | Some _ =>
      do new_id <- generate_id "task" ;
      do next_due_at <- now_stamp ;
      do created_at <- now_stamp ;
      let task : dict :=
        <["id" := VStr new_id]>
        (<["goal_id" := VStr goal_id]>
         (<["title" := VStr title]>
          (<["priority" := VStr (priority_or_medium priority)]>
           (<["status" := VStr "pending"]>
            (<["progress" := VInt 0]>
             (<["recurring" := VStr recurring]>
              (<["next_due_at" := next_due_at]>
               (<["created_at" := created_at]>
                (<["notes" := VStr EmptyString]> ∅))))))))) in
      let task :=
        match estimate with
        | Some minutes => <["estimate_minutes" := VInt minutes]> task
        | None => task
        end in
      exec save_data (mkStore (goals data) (tasks data ++ [task])) ;
      Ret task
  end.

(** The interval added to [now] for the next occurrence. *)
Definition recurring_delta (recurring : value) : Z :=
  if py_eq_str recurring "daily" then timedelta_days 1
  else if py_eq_str recurring "weekly" then timedelta_weeks 1
  else if py_eq_str recurring "monthly" then timedelta_days 30
  else 0.

(** [for key in [...]: next_task.pop(key, None)] *)
Definition clear_completed_fields (next_task : dict) : dict :=
  delete "blocked_reason"
    (delete "retry_count" (delete "last_error" (delete "completed_at" next_task))).

(** [next_recurring]: returns the completed task and its successor. *)
Definition next_recurring (task_id : string) : Prog (dict * dict) :=
  do data <- load_store ;
  do '(i, task) <- require_task data task_id ;
  if py_eq_str (dict_get task "recurring" VNone) "none"
     || negb (bool_decide (is_Some (task !! "recurring")))
  then Raise NotRecurring
  else
    do below <- lift (py_lt (dict_get task "progress" (VInt 0)) (VInt 100)) ;
    if below : bool then Raise (IncompleteTask (dict_get task "progress" (VInt 0)))
    else
      let task := <["status" := VStr "completed"]> task in
      do stamp <- now_stamp ;
      let task := <["completed_at" := stamp]> task in
      let task := <["progress" := VInt 100]> task in
      let next_task := task in
      do new_id <- generate_id "task" ;
      let next_task := <["id" := VStr new_id]> next_task in
      let next_task := <["status" := VStr "pending"]> next_task in
      let next_task := <["progress" := VInt 0]> next_task in
      do created <- now_stamp ;
      let next_task := <["created_at" := created]> next_task in
      let next_task := <["actual_minutes" := VInt 0]> next_task in
      do now_t <- now ;
      do recurring <- lift (getitem task "recurring") ;
      let next_due := now_t + recurring_delta recurring in
      let next_task := <["next_due_at" := VStr (isoformat next_due +:+ "Z")]> next_task in
      let next_task := clear_completed_fields next_task in
      let data := mkStore (goals data) (<[i := task]> (tasks data) ++ [next_task]) in
      exec save_data data ;
      Ret (task, next_task).

(** [t["goal_id"] == goal_id and t["status"] == "completed"] *)
Definition is_completed_of (goal_id : string) (t : dict) : result bool :=
  val g <- getitem t "goal_id" ;
  if py_eq_str g goal_id
  then val st <- getitem t "status" ; Ok (py_eq_str st "completed")
  else Ok false.

(** [t["goal_id"] == goal_id and t["status"] != "completed"] *)
Definition is_remaining_of (goal_id : string) (t : dict) : result bool :=
  val g <- getitem t "goal_id" ;
  if py_eq_str g goal_id
  then val st <- getitem t "status" ; Ok (negb (py_eq_str st "completed"))
  else Ok false.

(** A list comprehension whose condition can raise. *)
Fixpoint select (p : dict -> result bool) (ts : list dict) : result (list dict) :=
  match ts with
  | [] => Ok []
  | t :: rest =>
      val keep <- p t ;
      val kept <- select p rest ;
      Ok (if keep : bool then t :: kept else kept)
  end.

(** The loop filling [by_day], a [defaultdict(int)]. *)
Fixpoint count_by_day (completed : list dict) (by_day : gmap string nat)
  : result (gmap string nat) :=
  match completed with
  | [] => Ok by_day
  | task :: rest =>
      match task !! "completed_at" with
      | None => count_by_day rest by_day
      | Some (VStr s) =>
          let completed_date := before_T s in
          count_by_day rest
            (<[completed_date := S (default O (by_day !! completed_date))]> by_day)
      | Some _ => Err AttributeError
      end
  end.

(** [show_velocity] *)
Definition show_velocity (goal_id : string) : Prog velocity_report :=
  do data <- load_store ;
  do goal <- lift (find_goal_by_id data (VStr goal_id)) ;
  match goal with
  | None => Raise GoalNotFound
  | Some _ =>
      do completed <- lift (select (is_completed_of goal_id) (tasks data)) ;
      do by_day <- lift (count_by_day completed ∅) ;
      do remaining <- lift (select (is_remaining_of goal_id) (tasks data)) ;
      let velocity :=
        if bool_decide (by_day = ∅) then NInt 0
        else NFloat (PrimFloat.div (float_of_nat (length completed))
                                   (float_of_nat (size by_day))) in
      let days_to_completion :=
        if number_pos velocity then count_div (length remaining) velocity
        else NInt 0 in
      Ret (mkReport (length completed) (length remaining) (size by_day)
                    (py_round velocity 2) (py_round days_to_completion 1) by_day)
  end.

End WithDatetime.
End Phase1.

(** The two tasks a rollover leaves: the original once the assignments of
    [next_recurring] have marked it completed, and the successor cloned from
    it, in a world whose clock and identifier source are [w]'s. *)
Section Rollover.
Context `{DT : Datetime}.

Definition completed_original (w : World) (task : dict) : dict :=
  <["progress" := VInt 100]>
    (<["completed_at" := VStr (isoformat (clock w (tick w)) +:+ "Z")]>
       (<["status" := VStr "completed"]> task)).

Definition successor_of (w : World) (recurring : value) (task : dict) : dict :=
  Phase1.clear_completed_fields
    (<["next_due_at" :=
         VStr (isoformat (clock w (S (S (tick w))) + Phase1.recurring_delta recurring) +:+ "Z")]>
       (<["actual_minutes" := VInt 0]>
          (<["created_at" := VStr (isoformat (clock w (S (tick w))) +:+ "Z")]>
             (<["progress" := VInt 0]>
                (<["status" := VStr "pending"]>
                   (<["id" := VStr ("task_" +:+ uuid_hex8 w (drawn w))]>
                      (completed_original w task))))))).

End Rollover.

(** ** Phase 2: [scripts/task_manager_phase2.py] *)

(** Diagnostics of the health check, and the repairs it applies.  The script
    formats each as a sentence naming the task; the constructor is the kind of
    sentence and the arguments are the values it interpolates. *)
Inductive issue : Type :=
| OrphanedRecurring (task_id : value)
| ImpossibleState (task_id progress : value)
| InconsistentCompletion (task_id : value)
| TimeAnomaly (task_id actual estimate : value)
| BadDate (task_id completed_at : value).

Inductive repair : Type :=
| RemovedRecurring (task_id : value)
| SetProgress100 (task_id : value)
| AddedCompletedAt (task_id : value)
| ResetCompletedAt (task_id : value).

Record health_report : Type := mkHealth {
  health_issues : list issue;
  auto_fixes : list repair
}.

(** The working buffer ([None] where the file does not exist) and the daily
    memory files by name, as text.  The world above keeps of a buffer line
    its event and its task; flushing moves the text itself. *)
Record Memory : Type := mkMemory {
  working_buffer : option string;
  daily : gmap string string
}.

(** [s.split(sep)] for a separator of one character. *)
Fixpoint split_on (sep : ascii) (s : string) : list string :=
  match s with
  | EmptyString => [EmptyString]
  | String c rest =>
      if Ascii.eqb c sep then EmptyString :: split_on sep rest
      else match split_on sep rest with
           | first :: others => String c first :: others
           | [] => [String c EmptyString]
           end
  end.

Module Phase2.

(** [load_data]: no check of the shape, and a blob that does not parse
    raises. *)
Definition load_data (fs : Files) : result json :=
  match data_file fs with
  | Missing => Ok empty_blob
  | Holds data => Ok data
  | Garbled => Err JSONDecodeError
  | Unreadable => Err IOError
  end.

Section WithDatetime.
Context `{DT : Datetime}.

(** [datetime.now(timezone.utc).isoformat()] *)
Definition now_iso : Prog string :=
  do t <- now ;
  Ret (isoformat t).

Definition now_stamp : Prog value :=
  do t <- now_iso ;
  Ret (VStr (t +:+ "Z")).

(** [log_to_wal]: one line appended to the log of the current UTC day. *)
Definition log_to_wal (event_type : string) (content : dict) : Prog unit :=
  do timestamp <- now_iso ;
  do today <- now ;
  let wal_file := "WAL-" +:+ strftime_ymd today +:+ ".log" in
  AppendWal wal_file (mkWal timestamp event_type content) (Ret tt).

(** [append_to_buffer]; of the line's text the event type and the task id
    are kept. *)
Definition append_to_buffer (event_type details : string) : Prog unit :=
  do _ <- now_iso ;
  AppendBuffer event_type details (Ret tt).

(** [update_session_state]: the snapshot's text is a template over the task
    and the goal; what can raise while it is built is kept. *)
Definition update_session_state (task goal : dict) : Prog unit :=
  let estimate := dict_get task "estimate_minutes" (VInt 0) in
  let actual := dict_get task "actual_minutes" (VInt 0) in
  do has_estimate <- lift (py_gt estimate (VInt 0)) ;
  exec (if has_estimate : bool then lift (py_truediv_check actual estimate) else Ret tt) ;
  do _ <- now_iso ;
  WriteSession task goal (Ret tt).

(** The tail of every mutation: snapshot when the goal resolves, then the
    buffer line. *)
Definition publish (data : Store) (task : dict) (event_type task_id : string)
  : Prog unit :=
  do goal <- lift (find_goal_by_id data (dict_get task "goal_id" (VStr EmptyString))) ;
  exec (match goal with
        | Some g => update_session_state task g
        | None => Ret tt
        end) ;
  append_to_buffer event_type task_id.

(** [if notes: ...]: a new note is joined to the old ones with a newline. *)
Definition add_notes (task : dict) (notes : string) : result dict :=
  if String.eqb notes EmptyString then Ok task
  else if truthy (dict_get task "notes" VNone)
       then val joined <- py_append_note (dict_get task "notes" VNone) notes ;
            Ok (<["notes" := joined]> task)
       else Ok (<["notes" := VStr notes]> task).

(** The block of [mark_progress] that derives the status from the progress. *)
Definition auto_status (progress : Z) (task : dict) : dict :=
  if (100 <=? progress) && negb (py_eq_str (dict_get task "status" VNone) "completed")
  then <["status" := VStr "in_progress"]> task
  else if (0 <? progress) && py_eq_str (dict_get task "status" VNone) "pending"
       then <["status" := VStr "in_progress"]> task
       else task.

(** [mark_progress] *)
Definition mark_progress (task_id : string) (progress : Z) (notes : string)
  : Prog dict :=
  do data <- load_store ;
  do '(i, task) <- require_task data task_id ;
  let old_progress := dict_get task "progress" (VInt 0) in
  do ts <- now_iso ;
  exec log_to_wal "PROGRESS_CHANGE"
       (<["task_id" := VStr task_id]>
        (<["old_progress" := old_progress]>
         (<["new_progress" := VInt progress]>
          (<["timestamp" := VStr ts]> ∅)))) ;
  let task := <["progress" := VInt progress]> task in
  do stamp <- now_stamp ;
  let task := <["updated_at" := stamp]> task in
  do task <- lift (add_notes task notes) ;
  let task := auto_status progress task in
  exec save_data (set_task data i task) ;
  exec publish data task "PROGRESS" task_id ;
  Ret task.

(** [log_time] *)
Definition log_time (task_id : string) (minutes : Z) (notes : string)
  : Prog dict :=
  do data <- load_store ;
  do '(i, task) <- require_task data task_id ;
  let old_actual := dict_get task "actual_minutes" (VInt 0) in
  do new_actual <- lift (py_add_int old_actual minutes) ;
  do ts <- now_iso ;
  exec log_to_wal "TIME_LOG"
       (<["task_id" := VStr task_id]>
        (<["minutes_logged" := VInt minutes]>
         (<["old_total" := old_actual]>
          (<["new_total" := new_actual]>
           (<["timestamp" := VStr ts]> ∅))))) ;
  let task := <["actual_minutes" := new_actual]> task in
  do stamp <- now_stamp ;
  let task := <["updated_at" := stamp]> task in
  do task <- lift (add_notes task notes) ;
  do starts <-
    (if py_eq_str (dict_get task "status" VNone) "pending"
     then lift (py_gt new_actual (VInt 0))
     else Ret false) ;
  let task := if starts : bool then <["status" := VStr "in_progress"]> task else task in
  exec save_data (set_task data i task) ;
  exec publish data task "TIME_LOG" task_id ;
  let estimate := dict_get task "estimate_minutes" (VInt 0) in
  do has_estimate <- lift (py_gt estimate (VInt 0)) ;
  exec (if has_estimate : bool then lift (py_truediv_check new_actual estimate) else Ret tt) ;
  Ret task.

(** [mark_blocked] *)
Definition mark_blocked (task_id reason : string) : Prog dict :=
  do data <- load_store ;
  do '(i, task) <- require_task data task_id ;
  let old_status := dict_get task "status" (VStr "pending") in
  do ts <- now_iso ;
  exec log_to_wal "STATUS_CHANGE"
       (<["task_id" := VStr task_id]>
        (<["old_status" := old_status]>
         (<["new_status" := VStr "blocked"]>
          (<["reason" := VStr reason]>
           (<["timestamp" := VStr ts]> ∅))))) ;
  let task := <["status" := VStr "blocked"]> task in
  let task := <["blocked_reason" := VStr reason]> task in
  do stamp <- now_stamp ;
  let task := <["updated_at" := stamp]> task in
  exec save_data (set_task data i task) ;
  exec publish data task "BLOCKED" task_id ;
  Ret task.

(** What one iteration of the health check's loop has done so far. *)
Record scan : Type := mkScan {
  scanned : dict;
  found : list issue;
  fixed : list repair
}.

(** Check 1: recurring without a goal. *)
Definition check_orphaned (task_id : value) (s : scan) : scan :=
  let task := scanned s in
  if truthy (dict_get task "recurring" VNone)
     && negb (truthy (dict_get task "goal_id" VNone))
  then mkScan (<["recurring" := VNone]> task)
              (found s ++ [OrphanedRecurring task_id])
              (fixed s ++ [RemovedRecurring task_id])
  else s.

(** Check 2: completed below 100%. *)
Definition check_progress (task_id : value) (s : scan) : result scan :=
  let task := scanned s in
  val bad <-
    (if py_eq_str (dict_get task "status" VNone) "completed"
     then py_lt (dict_get task "progress" (VInt 100)) (VInt 100)
     else Ok false) ;
  Ok (if bad : bool
      then mkScan (<["progress" := VInt 100]> task)
                  (found s ++ [ImpossibleState task_id (dict_get task "progress" VNone)])
                  (fixed s ++ [SetProgress100 task_id])
      else s).

(** Check 3: completed without [completed_at]. *)
Definition check_completed_at (task_id : value) (s : scan) : Prog scan :=
  let task := scanned s in
  if py_eq_str (dict_get task "status" VNone) "completed"
     && negb (truthy (dict_get task "completed_at" VNone))
  then
    do stamp <- now_stamp ;
    Ret (mkScan (<["completed_at" := stamp]> task)
                (found s ++ [InconsistentCompletion task_id])
                (fixed s ++ [AddedCompletedAt task_id]))
  else Ret s.

(** Check 4: more than ten times the estimate; reported, never repaired. *)
Definition check_time (task_id : value) (s : scan) : result scan :=
  let task := scanned s in
  val limit <- py_mul_int (dict_get task "estimate_minutes" (VInt 1)) 10 ;
  val over <- py_gt (dict_get task "actual_minutes" (VInt 0)) limit ;
  if over : bool
  then
    val _ <- py_truediv_check (dict_get task "actual_minutes" (VInt 0))
                              (dict_get task "estimate_minutes" (VInt 1)) ;
    Ok (mkScan task
               (found s ++ [TimeAnomaly task_id (dict_get task "actual_minutes" VNone)
                                         (dict_get task "estimate_minutes" VNone)])
               (fixed s))
  else Ok s.

(** Check 5: completed at a date after the present one. *)
Definition check_future (task_id : value) (s : scan) : Prog scan :=
  let task := scanned s in
  if py_eq_str (dict_get task "status" VNone) "completed"
  then
    let completed_at := dict_get task "completed_at" (VStr EmptyString) in
    do present <- now_iso ;
    do future <- lift (py_gt completed_at (VStr present)) ;
    if future : bool
    then
      do stamp <- now_stamp ;
      Ret (mkScan (<["completed_at" := stamp]> task)
                  (found s ++ [BadDate task_id completed_at])
                  (fixed s ++ [ResetCompletedAt task_id]))
    else Ret s
  else Ret s.

(** The body of the loop, for one task. *)
Definition scan_task (task : dict) : Prog scan :=
  let task_id := dict_get task "id" (VStr "unknown") in
  let s := check_orphaned task_id (mkScan task [] []) in
  do s <- lift (check_progress task_id s) ;
  do s <- check_completed_at task_id s ;
  do s <- lift (check_time task_id s) ;
  check_future task_id s.

(** [for task in data["tasks"]: ...], the tasks repaired in place. *)
Fixpoint scan_tasks (ts : list dict) : Prog (list dict * list issue * list repair) :=
  match ts with
  | [] => Ret ([], [], [])
  | task :: rest =>
      do s <- scan_task task ;
      do '(rest', issues, fixes) <- scan_tasks rest ;
      Ret (scanned s :: rest', found s ++ issues, fixed s ++ fixes)
  end.

(** [health_check] *)
Definition health_check : Prog health_report :=
  do data <- load_store ;
  do '(ts, issues, fixes) <- scan_tasks (tasks data) ;
  exec (match fixes with
        | [] => Ret tt
        | _ :: _ => save_data (mkStore (goals data) ts)
        end) ;
  do stamp <- now_iso ;
  exec log_to_wal "HEALTH_CHECK"
       (<["issues_found" := VInt (Z.of_nat (length issues))]>
        (<["auto_fixes_applied" := VInt (Z.of_nat (length fixes))]>
         (<["timestamp" := VStr stamp]> ∅))) ;
  Ret (mkHealth issues fixes).



(** [flush_working_buffer]: the files afterwards, and [lines_flushed] when
    there was a buffer to flush. *)
Definition flush_working_buffer (now_t : Z) (m : Memory) : Memory * option nat :=
  match working_buffer m with
  | None => (m, None)
  | Some buffer_content =>
      let today := strftime_ymd now_t in
      let daily_file := today +:+ ".md" in
      let section :=
        newline +:+ "## Task Updates" +:+ newline +:+ buffer_content +:+ newline in
      (mkMemory (Some EmptyString)
                (<[daily_file := default EmptyString (daily m !! daily_file) +:+ section]>
                   (daily m)),
       Some (length (split_on (ascii_of_nat 10) buffer_content)))
  end.

End WithDatetime.
End Phase2.

(** ** Phase 2's command line

    What [__main__] does with [sys.argv]: the call it makes, or the exit it
    takes.  [py_int] is [int] on a string, [None] where it raises
    [ValueError]. *)
Inductive invocation : Type :=
| PrintUsage                          (* no command: usage, exit status 1 *)
| UsageOf (command : string)          (* no task id: usage, exit status 1 *)
| CallMarkProgress (task_id : string) (progress : Z) (notes : string)
| CallLogTime (task_id : string) (minutes : Z) (notes : string)
| CallMarkBlocked (task_id reason : string)
| CallHealthCheck
| CallFlushBuffer
| UnknownCommand (command : string)   (* a message, and the script ends normally *)
| ValueErrorRaised.

Section Main.
Variable py_int : string -> option Z.

(** [int(sys.argv[3]) if len(sys.argv) > 3 else 0] *)
Definition int_argument (argv : list string) : option Z :=
  match argv !! 3%nat with
  | Some text => py_int text
  | None => Some 0
  end.

(** [if not task_id: ... sys.exit(1)] *)
Definition with_task_id (command : string) (argv : list string)
           (call : string -> invocation) : invocation :=
  match argv !! 2%nat with
  | Some task_id => if String.eqb task_id EmptyString then UsageOf command else call task_id
  | None => UsageOf command
  end.

Definition main (argv : list string) : invocation :=
  match argv !! 1%nat with
  | None => PrintUsage
  | Some command =>
      if String.eqb command "mark-progress" then
        match int_argument argv with
        | None => ValueErrorRaised
        | Some progress =>
            let notes := default EmptyString (argv !! 4%nat) in
            with_task_id command argv (fun task_id => CallMarkProgress task_id progress notes)
        end
      else if String.eqb command "log-time" then
        match int_argument argv with
        | None => ValueErrorRaised
        | Some minutes =>
            let notes := default EmptyString (argv !! 4%nat) in
            with_task_id command argv (fun task_id => CallLogTime task_id minutes notes)
        end
      else if String.eqb command "mark-blocked" then
        let reason := default "No reason specified" (argv !! 3%nat) in
        with_task_id command argv (fun task_id => CallMarkBlocked task_id reason)
      else if String.eqb command "health-check" then CallHealthCheck
      else if String.eqb command "flush-buffer" then CallFlushBuffer
      else UnknownCommand command
  end.

End Main.

(** ** The [datetime] library at UTC

    [isoformat()] of an aware UTC datetime and [strftime("%Y-%m-%d")], from
    microseconds since 1970-01-01T00:00:00 (proleptic Gregorian calendar,
    years 1 to 9999). *)
Module UTC.

Definition digit (n : Z) : ascii := ascii_of_nat (48 + Z.to_nat (n mod 10)).

(** [n] in decimal, zero-padded to [width] digits. *)
Fixpoint pad (width : nat) (n : Z) (acc : string) : string :=
  match width with
  | O => acc
  | S width' => pad width' (n / 10) (String (digit n) acc)
  end.

(** Year, month and day of a count of days since the epoch. *)
Definition civil_from_days (days : Z) : Z * Z * Z :=
  let z := days + 719468 in
  let era := z / 146097 in
  let doe := z - era * 146097 in
  let yoe := (doe - doe / 1460 + doe / 36524 - doe / 146096) / 365 in
  let doy := doe - (365 * yoe + yoe / 4 - yoe / 100) in
  let mp := (5 * doy + 2) / 153 in
  let d := doy - (153 * mp + 2) / 5 + 1 in
  let m := if mp <? 10 then mp + 3 else mp - 9 in
  let y := yoe + era * 400 + (if m <=? 2 then 1 else 0) in
  (y, m, d).

Definition ymd (us : Z) : string :=
  let '(y, m, d) := civil_from_days (us / 86400000000) in
  pad 4 y ("-" +:+ pad 2 m ("-" +:+ pad 2 d EmptyString)).

Definition iso (us : Z) : string :=
  let day_us := us mod 86400000000 in
  let secs := day_us / 1000000 in
  let micro := day_us mod 1000000 in
  ymd us +:+ "T"
    +:+ pad 2 (secs / 3600) (":" +:+ pad 2 (secs / 60 mod 60)
                               (":" +:+ pad 2 (secs mod 60) EmptyString))
    +:+ (if micro =? 0 then EmptyString else "." +:+ pad 6 micro EmptyString)
    +:+ "+00:00".

#[export] Instance datetime : Datetime := {|
  isoformat := iso;
  strftime_ymd := ymd
|}.

End UTC.

(** ** Dates in order

    Two measures used to compare dates: a number that orders dates as year,
    month, day, and the first day of year [yoe] of a 400-year era, counted
    from the era's start on the first of March. *)
Definition date_key (date : Z * Z * Z) : Z :=
  let '(y, m, d) := date in y * 416 + m * 32 + d.

Definition year_start (yoe : Z) : Z := 365 * yoe + yoe / 4 - yoe / 100.

(** ** The velocity report as the specification words it

    Completed and remaining tasks of a goal, the distinct calendar dates of
    the completions, and the two derived numbers before rounding. *)
Definition completed_of (goal_id : string) (ts : list dict) : list dict :=
  List.filter (fun t => py_eq_str (dict_get t "goal_id" VNone) goal_id
                        && py_eq_str (dict_get t "status" VNone) "completed") ts.

Definition remaining_of (goal_id : string) (ts : list dict) : list dict :=
  List.filter (fun t => py_eq_str (dict_get t "goal_id" VNone) goal_id
                        && negb (py_eq_str (dict_get t "status" VNone) "completed")) ts.

Definition completion_date (t : dict) : option string :=
  match t !! "completed_at" with
  | Some (VStr s) => Some (before_T s)
  | _ => None
  end.

Definition distinct_dates (ts : list dict) : nat :=
  size (list_to_set (omap completion_date ts) : gset string).

Definition spec_velocity (completed days : nat) : number :=
  match days with
  | O => NInt 0
  | S _ => NFloat (PrimFloat.div (float_of_nat completed) (float_of_nat days))
  end.

Definition spec_days (remaining : nat) (velocity : number) : number :=
  if number_pos velocity then count_div remaining velocity else NInt 0.

(** A number rounded to decimals, in the words of the specification.

    [k] is the integer nearest to [num / den] for [den > 0], the even one of
    the two where [num / den] lies halfway between them. *)
Definition nearest_integer (num den k : Z) : Prop :=
  Z.abs (2 * num - 2 * k * den) <= den /\
  (Z.abs (2 * num - 2 * k * den) = den -> Z.even k = true).

(** [r] is the float [x] rounded to [nd] decimals: with [m * 2^e] the exact
    magnitude of [x], [r] is the float nearest to [k / 10^nd], for [k] the
    integer nearest to [m * 2^e * 10^nd], under the sign of [x].  A float
    without a fractional part ([0 <= e]), a zero, an infinity and a nan have
    no decimals to round. *)
Definition rounded_float (nd : nat) (x r : float) : Prop :=
  match Prim2SF x with
  | S754_finite negative m e =>
      if 0 <=? e then r = x
      else
        exists k : Z,
          nearest_integer (Z.pos m * 10 ^ Z.of_nat nd) (2 ^ (- e)) k /\
          let decimal := PrimFloat.div (float_of_Z k) (float_of_Z (10 ^ Z.of_nat nd)) in
          r = if negative then PrimFloat.opp decimal else decimal
  | _ => r = x
  end.

(** An [int] has no decimals to round either. *)
Definition rounded_number (nd : nat) (x r : number) : Prop :=
  match x with
  | NInt z => r = NInt z
  | NFloat f => exists v, r = NFloat v /\ rounded_float nd f v
  end.

(** What [show_velocity] needs of a task so as not to raise: ["goal_id"] is
    read of every task, ["status"] of the tasks of the goal asked for, and
    [completed_at], of the completed tasks of that goal, is a string when it
    is present. *)
Definition velocity_ready (goal_id : string) (t : dict) : Prop :=
  exists g, t !! "goal_id" = Some g /\
    (py_eq_str g goal_id = true ->
     exists st, t !! "status" = Some st /\
       (py_eq_str st "completed" = true ->
        forall v, t !! "completed_at" = Some v -> exists s, v = VStr s)).

(** ** What the later commands leave behind *)

Section Saved.
Context `{DT : Datetime}.

(** The task phase 2's [log_time] saves when no notes are given: the total,
    the stamp of the fourth reading of the clock, and the status moved on
    from pending if the total is positive. *)
Definition time_logged (w : World) (total : Z) (task : dict) : dict :=
  let task := <["updated_at" := VStr (isoformat (clock w (S (S (S (tick w))))) +:+ "Z")]>
                (<["actual_minutes" := VInt total]> task) in
  if py_eq_str (dict_get task "status" VNone) "pending" && (0 <? total)
  then <["status" := VStr "in_progress"]> task
  else task.


End Saved.

(** Newlines in a text. *)
Fixpoint newlines (s : string) : nat :=
  match s with
  | EmptyString => O
  | String c rest => ((if Ascii.eqb c (ascii_of_nat 10) then 1 else 0) + newlines rest)%nat
  end.

(** The repair the health check applies for an issue; a time anomaly has none. *)
Definition repair_of (i : issue) : option repair :=
  match i with
  | OrphanedRecurring task_id => Some (RemovedRecurring task_id)
  | ImpossibleState task_id _ => Some (SetProgress100 task_id)
  | InconsistentCompletion task_id => Some (AddedCompletedAt task_id)
  | TimeAnomaly _ _ _ => None
  | BadDate task_id _ => Some (ResetCompletedAt task_id)
  end.

(** Fields the health check may rewrite. *)
Definition repaired_fields : list string := ["recurring"; "progress"; "completed_at"].

(** What a check keeps: the repairs are those of the issues, and the task
    differs from the one scanned in the three fields at most. *)
Definition scan_ok (t : dict) (s : Phase2.scan) : Prop :=
  Phase2.fixed s = omap repair_of (Phase2.found s) /\
  forall k : string, k ∉ repaired_fields -> Phase2.scanned s !! k = t !! k.

(** ** Tasks the health check leaves alone *)
Section Settled.
Context `{DT : Datetime}.

(** [task.get("status") == "completed"] *)
Definition is_completed (t : dict) : bool :=
  py_eq_str (dict_get t "status" VNone) "completed".

(** A task no check would repair at a later time: it is not an orphan,
    check 4 does not raise on it, and if completed it is at 100% or more and
    stamped with a string no later than a stamp written at some reading [i]
    of the clock, [k0 <= i < k]. *)
Definition settled (w : World) (k0 k : nat) (t : dict) : Prop :=
  truthy (dict_get t "recurring" VNone) && negb (truthy (dict_get t "goal_id" VNone)) = false /\
  (exists s, Phase2.check_time VNone (Phase2.mkScan t [] []) = Ok s) /\
  (is_completed t = true ->
     py_lt (dict_get t "progress" (VInt 100)) (VInt 100) = Ok false /\
     exists c i,
       t !! "completed_at" = Some (VStr c) /\ c <> EmptyString /\
       (k0 <= i < k)%nat /\
       str_le c (isoformat (clock w i) +:+ "Z") = true).

End Settled.

(** ** Write-ahead discipline, as a property of a program

    [logs_first P p]: on every path through [p], no store save is reached
    before a WAL line satisfying [P] has been appended. *)
Inductive logs_first {A : Type} (P : wal_entry -> Prop) : Prog A -> Prop :=
| logs_first_ret (a : A) : logs_first P (Ret a)
| logs_first_raise (e : error) : logs_first P (Raise e)
| logs_first_now (k : Z -> Prog A) :
    (forall t, logs_first P (k t)) -> logs_first P (Now k)
| logs_first_uuid (k : string -> Prog A) :
    (forall u, logs_first P (k u)) -> logs_first P (Uuid4 k)
| logs_first_load (k : Store -> Prog A) :
    (forall s, logs_first P (k s)) -> logs_first P (LoadData k)
| logs_first_session (t g : dict) (k : Prog A) :
    logs_first P k -> logs_first P (WriteSession t g k)
| logs_first_buffer (ev dt : string) (k : Prog A) :
    logs_first P k -> logs_first P (AppendBuffer ev dt k)
| logs_first_wal (file : string) (e : wal_entry) (k : Prog A) :
    P e -> logs_first P (AppendWal file e k).

(** Programs that only read the clock. *)
Inductive clock_only {A : Type} : Prog A -> Prop :=
| clock_only_ret (a : A) : clock_only (Ret a)
| clock_only_raise (e : error) : clock_only (Raise e)
| clock_only_now (k : Z -> Prog A) : (forall t, clock_only (k t)) -> clock_only (Now k).

(** The WAL line an operation on [task_id] is expected to write. *)
Definition logs_event (event_type task_id : string) (e : wal_entry) : Prop :=
  wal_event_type e = event_type /\ wal_content e !! "task_id" = Some (VStr task_id).


Ltac world_simpl :=
  cbn [disk wal session buffer clock tick uuid_hex8 drawn set_disk set_tick
       set_drawn append_wal set_session append_buffer fst snd] in *.

Ltac run_simpl :=
  cbn [bind run lift now load_store save_data
       Phase1.now_stamp Phase1.generate_id
       Phase2.now_iso Phase2.now_stamp Phase2.log_to_wal Phase2.append_to_buffer];
  world_simpl.

Ltac calc :=
  cbn [negb andb orb Z.leb Z.eqb Z.ltb Z.compare Pos.compare Pos.compare_cont
       Pos.eqb py_eq_str py_eq as_int String.eqb Ascii.eqb Bool.eqb default].

(** ** Sample worlds

    A clock that advances one millisecond per reading from
    2023-11-14T22:13:20Z, and small stores, used to run the operations. *)
Module Sample.

Definition clock (n : nat) : Z := 1700000000000000 + 1000 * Z.of_nat n.

Definition uuid (n : nat) : string := "a1b2c3d" +:+ String (UTC.digit (Z.of_nat n)) EmptyString.

Definition world (s : Store) : World := mkWorld s ∅ None [] clock 0 uuid 0.

Definition goal_g1 : dict :=
  list_to_map [("id", VStr "g1"); ("title", VStr "Ship it"); ("priority", VStr "high")].

(** A task [t1] of goal [g1] with the given status and progress. *)
Definition task_t1 (status : string) (progress : Z) : dict :=
  list_to_map [("id", VStr "t1"); ("goal_id", VStr "g1"); ("title", VStr "Write tests");
               ("status", VStr status); ("progress", VInt progress)].

Definition store_t1 (status : string) (progress : Z) : Store :=
  mkStore [goal_g1] [task_t1 status progress].

(** A completed task stamped long before the sample clock starts. *)
Definition task_done (progress : Z) : dict :=
  <["completed_at" := VStr "2020-01-01T00:00:00+00:00Z"]> (task_t1 "completed" progress).

Definition store_done (progress : Z) : Store := mkStore [goal_g1] [task_done progress].

(** A task in progress that recurs as given. *)
Definition task_recurring (recurring : value) (progress : Z) : dict :=
  <["recurring" := recurring]> (task_t1 "in_progress" progress).

Definition store_recurring (recurring : value) (progress : Z) : Store :=
  mkStore [goal_g1] [task_recurring recurring progress].

(** Six tasks of [g1]: four completed on two dates, two remaining. *)
Definition task_numbered (n : Z) (status : string) (completed_at : option string) : dict :=
  let t : dict :=
    list_to_map [("id", VStr ("t" +:+ String (UTC.digit n) EmptyString));
                 ("goal_id", VStr "g1"); ("status", VStr status)] in
  match completed_at with
  | Some stamp => <["completed_at" := VStr stamp]> t
  | None => t
  end.

(** Four tasks to repair: completed at 40%, completed without a date,
    completed at a date to come, and recurring without a goal. *)
Definition store_broken : Store :=
  mkStore [goal_g1]
    [task_done 40;
     task_numbered 2 "completed" None;
     task_numbered 3 "completed" (Some "2999-01-01T00:00:00+00:00Z");
     <["goal_id" := VStr EmptyString]> (task_recurring (VStr "daily") 10)].

Definition store_velocity : Store :=
  mkStore [goal_g1]
    [task_numbered 1 "completed" (Some "2023-11-13T09:00:00+00:00Z");
     task_numbered 2 "completed" (Some "2023-11-13T17:30:00.250000+00:00Z");
     task_numbered 3 "completed" (Some "2023-11-14T08:15:00+00:00Z");
     task_numbered 4 "completed" (Some "2023-11-14T21:00:00+00:00Z");
     task_numbered 5 "in_progress" None;
     task_numbered 6 "pending" None].

(** Five tasks of [g1] completed on three dates and two remaining, beside a
    task of another goal that has no status. *)
Definition store_thirds : Store :=
  mkStore [goal_g1]
    [task_numbered 1 "completed" (Some "2023-11-12T09:00:00+00:00Z");
     task_numbered 2 "completed" (Some "2023-11-13T10:00:00+00:00Z");
     task_numbered 3 "completed" (Some "2023-11-13T11:30:00+00:00Z");
     task_numbered 4 "completed" (Some "2023-11-14T08:15:00+00:00Z");
     task_numbered 5 "completed" (Some "2023-11-14T21:00:00.500000+00:00Z");
     task_numbered 6 "in_progress" None;
     task_numbered 7 "blocked" None;
     list_to_map [("id", VStr "t8"); ("goal_id", VStr "g2")]].

End Sample.

(** * Properties *)

Example iso_epoch : UTC.iso 0 = "1970-01-01T00:00:00+00:00".
Proof. vm_compute. reflexivity. Qed.
Example iso_2023 : UTC.iso 1700000000123456 = "2023-11-14T22:13:20.123456+00:00".
Proof. vm_compute. reflexivity. Qed.
Example iso_leap : UTC.iso 1709210096000000 = "2024-02-29T12:34:56+00:00".
Proof. vm_compute. reflexivity. Qed.
Example ymd_2023 : UTC.ymd 1700000000123456 = "2023-11-14".
Proof. vm_compute. reflexivity. Qed.

(** ** Reading dictionaries *)

Lemma dict_get_insert_eq (d : dict) (k : string) (v dflt : value) :
  dict_get (<[k := v]> d) k dflt = v.
Proof. unfold dict_get. by rewrite lookup_insert_eq. Qed.

Lemma dict_get_insert_ne (d : dict) (k k' : string) (v dflt : value) :
  k <> k' -> dict_get (<[k := v]> d) k' dflt = dict_get d k' dflt.
Proof. intros Hne. unfold dict_get. by rewrite lookup_insert_ne. Qed.

Lemma dict_get_Some (d : dict) (k : string) (dflt v : value) :
  d !! k = Some v -> dict_get d k dflt = v.
Proof. unfold dict_get. by intros ->. Qed.

Lemma dict_get_None (d : dict) (k : string) (dflt : value) :
  d !! k = None -> dict_get d k dflt = dflt.
Proof. unfold dict_get. by intros ->. Qed.

Ltac dict_simpl :=
  repeat first
    [ rewrite dict_get_insert_eq
    | rewrite dict_get_insert_ne by done
    | rewrite lookup_insert_eq
    | rewrite lookup_insert_ne by done ].

(** ** Running programs *)

Lemma run_bind {A B : Type} (m : Prog A) (f : A -> Prog B) (w : World) :
  run (bind m f) w =
  match run m w with
  | (w', Ok a) => run (f a) w'
  | (w', Err e) => (w', Err e)
  end.
Proof.
  revert w. induction m as [a|e|k IH|k IH|k IH|d k IH|fl en k IH|t g k IH|ev dt k IH];
    intros w; cbn [bind run]; auto.
Qed.

Lemma run_lift {A : Type} (r : result A) (w : World) :
  run (lift r) w = (w, r).
Proof. destruct r; reflexivity. Qed.

(** ** Looking a task up *)

Lemma find_task_from_lookup (ts : list dict) (k i : nat) (task_id : string) (task : dict) :
  find_task_from k ts task_id = Ok (Some (i, task)) ->
  (k <= i)%nat /\ ts !! (i - k)%nat = Some task /\
  exists v, task !! "id" = Some v /\ py_eq_str v task_id = true.
Proof.
  revert k. induction ts as [|t rest IH]; intros k; cbn [find_task_from].
  - discriminate.
  - unfold getitem. destruct (t !! "id") as [v|] eqn:Hid; cbn [result_bind]; [|discriminate].
    destruct (py_eq_str v task_id) eqn:Heq.
    + intros [= <- <-]. split; [lia|]. rewrite Nat.sub_diag. split; [reflexivity|]. eauto.
    + intros Hrest. apply IH in Hrest as (Hle & Hlk & Hv).
      split; [lia|]. split; [|exact Hv].
      replace (i - k)%nat with (S (i - S k)) by lia. exact Hlk.
Qed.

Lemma find_task_by_id_lookup (data : Store) (i : nat) (task_id : string) (task : dict) :
  find_task_by_id data task_id = Ok (Some (i, task)) ->
  tasks data !! i = Some task /\
  exists v, task !! "id" = Some v /\ py_eq_str v task_id = true.
Proof.
  unfold find_task_by_id. intros Hf. apply find_task_from_lookup in Hf as (_ & Hlk & Hv).
  rewrite Nat.sub_0_r in Hlk. auto.
Qed.

Lemma set_task_lookup (data : Store) (i : nat) (old task : dict) :
  tasks data !! i = Some old ->
  tasks (set_task data i task) !! i = Some task.
Proof.
  intros Hlk. cbn. apply list_lookup_insert_eq. eapply lookup_lt_Some; eauto.
Qed.

Lemma set_task_other (data : Store) (i j : nat) (task : dict) :
  i <> j -> tasks (set_task data i task) !! j = tasks data !! j.
Proof. intros Hne. cbn. by apply list_lookup_insert_ne. Qed.

(** ** Interrupted runs and the write-ahead log *)

Lemma wal_lines_append_eq (file : string) (e : wal_entry) (w : World) :
  wal_lines (append_wal file e w) file = wal_lines w file ++ [e].
Proof. unfold wal_lines at 1. world_simpl. by rewrite lookup_insert_eq. Qed.

Lemma wal_lines_append_ne (file other : string) (e : wal_entry) (w : World) :
  file <> other -> wal_lines (append_wal file e w) other = wal_lines w other.
Proof. intros Hne. unfold wal_lines. world_simpl. by rewrite lookup_insert_ne. Qed.

(** Whatever a program does, each WAL file only grows. *)
Lemma run_upto_wal_grows {A : Type} (p : Prog A) (n : nat) (w : World) (file : string) :
  exists more, wal_lines (fst (run_upto n p w)) file = wal_lines w file ++ more.
Proof.
  revert n w.
  induction p as [a|e|k IH|k IH|k IH|d k IH|fl en k IH|t g k IH|ev dt k IH];
    intros n w; destruct n as [|n]; cbn [run_upto fst];
    try (exists []; by rewrite app_nil_r).
  - destruct (IH (clock w (tick w)) n (set_tick (S (tick w)) w)) as [more ->]. by exists more.
  - destruct (IH (uuid_hex8 w (drawn w)) n (set_drawn (S (drawn w)) w)) as [more ->]. by exists more.
  - destruct (IH (disk w) n w) as [more ->]. by exists more.
  - destruct (IH n (set_disk d w)) as [more ->]. by exists more.
  - destruct (IH n (append_wal fl en w)) as [more Hmore]. rewrite Hmore.
    destruct (decide (fl = file)) as [->|Hne].
    + rewrite wal_lines_append_eq. exists (en :: more). by rewrite <- app_assoc.
    + rewrite wal_lines_append_ne by done. by exists more.
  - destruct (IH n (set_session t g w)) as [more ->]. by exists more.
  - destruct (IH n (append_buffer ev dt w)) as [more ->]. by exists more.
Qed.

(** A program that logs first, cut off anywhere, has either left the store
    as it was or already appended its WAL line. *)
Theorem logs_first_interrupted {A : Type} (P : wal_entry -> Prop) (p : Prog A) :
  logs_first P p ->
  forall (n : nat) (w : World),
    disk (fst (run_upto n p w)) = disk w \/
    exists file e more,
      P e /\ wal_lines (fst (run_upto n p w)) file = wal_lines w file ++ e :: more.
Proof.
  induction 1 as [a|e|k _ IH|k _ IH|k _ IH|t g k _ IH|ev dt k _ IH|file e k HP];
    intros n w; destruct n as [|n]; cbn [run_upto fst]; auto.
  - exact (IH _ n (set_tick (S (tick w)) w)).
  - exact (IH _ n (set_drawn (S (drawn w)) w)).
  - exact (IH n (set_session t g w)).
  - exact (IH n (append_buffer ev dt w)).
  - right. destruct (run_upto_wal_grows k n (append_wal file e w) file) as [more Hmore].
    exists file, e, more. split; [exact HP|]. rewrite Hmore.
    rewrite wal_lines_append_eq. by rewrite <- app_assoc.
Qed.

Section WalFirst.
Context `{DT : Datetime}.

Lemma mark_progress_logs_first (task_id : string) (progress : Z) (notes : string) :
  logs_first (logs_event "PROGRESS_CHANGE" task_id)
             (Phase2.mark_progress task_id progress notes).
Proof.
  unfold Phase2.mark_progress, load_store, require_task. cbn [bind].
  constructor; intros data.
  destruct (find_task_by_id data task_id) as [[[i task]|]|e]; cbn [bind lift];
    try constructor.
  intros t0. run_simpl. constructor; intros t1. constructor; intros t2.
  constructor. split; [reflexivity|]. cbn [wal_content]. by simplify_map_eq.
Qed.

Lemma log_time_logs_first (task_id : string) (minutes : Z) (notes : string) :
  logs_first (logs_event "TIME_LOG" task_id) (Phase2.log_time task_id minutes notes).
Proof.
  unfold Phase2.log_time, load_store, require_task. cbn [bind].
  constructor; intros data.
  destruct (find_task_by_id data task_id) as [[[i task]|]|e]; cbn [bind lift];
    try constructor.
  destruct (py_add_int _ _) as [new_actual|e]; cbn [bind lift]; try constructor.
  intros t0. run_simpl. constructor; intros t1. constructor; intros t2.
  constructor. split; [reflexivity|]. cbn [wal_content]. by simplify_map_eq.
Qed.

Lemma mark_blocked_logs_first (task_id reason : string) :
  logs_first (logs_event "STATUS_CHANGE" task_id) (Phase2.mark_blocked task_id reason).
Proof.
  unfold Phase2.mark_blocked, load_store, require_task. cbn [bind].
  constructor; intros data.
  destruct (find_task_by_id data task_id) as [[[i task]|]|e]; cbn [bind lift];
    try constructor.
  intros t0. run_simpl. constructor; intros t1. constructor; intros t2.
  constructor. split; [reflexivity|]. cbn [wal_content]. by simplify_map_eq.
Qed.

(** Progress, time and block updates keep the write-ahead discipline: cut
    off after any number of effects, the store is still as it was before the
    operation, or the day's WAL already holds the operation's record. *)
Theorem mutations_log_before_saving (task_id : string) (n : nat) (w : World) :
  (forall progress notes,
     let w' := fst (run_upto n (Phase2.mark_progress task_id progress notes) w) in
     disk w' = disk w \/
     exists file e more, logs_event "PROGRESS_CHANGE" task_id e /\
       wal_lines w' file = wal_lines w file ++ e :: more) /\
  (forall minutes notes,
     let w' := fst (run_upto n (Phase2.log_time task_id minutes notes) w) in
     disk w' = disk w \/
     exists file e more, logs_event "TIME_LOG" task_id e /\
       wal_lines w' file = wal_lines w file ++ e :: more) /\
  (forall reason,
     let w' := fst (run_upto n (Phase2.mark_blocked task_id reason) w) in
     disk w' = disk w \/
     exists file e more, logs_event "STATUS_CHANGE" task_id e /\
       wal_lines w' file = wal_lines w file ++ e :: more).
Proof.
  repeat split; intros; subst w'.
  - apply logs_first_interrupted, mark_progress_logs_first.
  - apply logs_first_interrupted, log_time_logs_first.
  - apply logs_first_interrupted, mark_blocked_logs_first.
Qed.

End WalFirst.

(** C2: the health check saves its repairs before it writes to the WAL.  On a
    store holding a completed task at 40%, the process cut off after three
    effects has overwritten the store (progress 100) while no WAL file holds a
    line; run to its end, the HEALTH_CHECK line is appended after the save. *)
Theorem health_check_saves_before_logging :
  let health_check := Phase2.health_check (DT := UTC.datetime) in
  let w := Sample.world (Sample.store_done 40) in
  let cut := fst (run_upto 3 health_check w) in
  tasks (disk w) = [Sample.task_done 40] /\
  snd (run_upto 3 health_check w) = None /\
  tasks (disk cut) = [Sample.task_done 100] /\
  wal cut = ∅ /\
  wal_lines (fst (run health_check w)) "WAL-2023-11-14.log"
    = [mkWal "2023-11-14T22:13:20.002000+00:00" "HEALTH_CHECK"
         (list_to_map [("issues_found", VInt 1); ("auto_fixes_applied", VInt 1);
                       ("timestamp", VStr "2023-11-14T22:13:20.001000+00:00")])].
Proof.
  cbv zeta. repeat apply conj; reflexivity.
Qed.
(** ** Phase 2's publication tail leaves the store and the WAL alone *)
Section Publish.
Context `{DT : Datetime}.

Lemma update_session_state_keeps (task goal : dict) (w : World) :
  disk (fst (run (Phase2.update_session_state task goal) w)) = disk w /\
  wal (fst (run (Phase2.update_session_state task goal) w)) = wal w.
Proof.
  unfold Phase2.update_session_state.
  destruct (py_gt _ _) as [[|]|e]; run_simpl; auto.
  destruct (py_truediv_check _ _) as [[]|e]; run_simpl; auto.
Qed.

Lemma publish_keeps (data : Store) (task : dict) (ev tid : string) (w : World) :
  disk (fst (run (Phase2.publish data task ev tid) w)) = disk w /\
  wal (fst (run (Phase2.publish data task ev tid) w)) = wal w.
Proof.
  unfold Phase2.publish.
  destruct (find_goal_by_id _ _) as [[g|]|e]; run_simpl; auto.
  rewrite run_bind.
  pose proof (update_session_state_keeps task g w) as [Hd Hw].
  destruct (run (Phase2.update_session_state task g) w) as [w' [[]|e]]; run_simpl; auto.
Qed.

Lemma run_then_publish {A : Type} (data : Store) (task : dict) (ev tid : string)
      (a : A) (w : World) :
  disk (fst (run (exec Phase2.publish data task ev tid ; Ret a) w)) = disk w.
Proof.
  rewrite run_bind. pose proof (publish_keeps data task ev tid w) as [Hd _].
  destruct (run (Phase2.publish data task ev tid) w) as [w' [[]|e]]; run_simpl; auto.
Qed.

(** The store phase 2's [mark_progress] leaves, when the notes can be joined. *)
Lemma phase2_mark_progress_disk (w : World) (task_id notes : string) (progress : Z)
      (i : nat) (task noted : dict) :
  find_task_by_id (disk w) task_id = Ok (Some (i, task)) ->
  Phase2.add_notes
    (<["updated_at" := VStr (isoformat (clock w (S (S (S (tick w))))) +:+ "Z")]>
       (<["progress" := VInt progress]> task)) notes = Ok noted ->
  disk (fst (run (Phase2.mark_progress task_id progress notes) w))
  = set_task (disk w) i (Phase2.auto_status progress noted).
Proof.
  intros Hfind Hnotes.
  unfold Phase2.mark_progress, load_store, require_task.
  run_simpl. rewrite Hfind. run_simpl. rewrite Hnotes. run_simpl.
  by rewrite run_then_publish.
Qed.


End Publish.

(** ** Progress updates *)
Section Progress.
Context `{DT : Datetime}.

(** C1 (amended): setting progress to 100 completes a task that is in
    progress and stamps [completed_at]; on a pending task it stores progress
    100 and moves the status to [in_progress], in both phases. *)
Theorem set_progress_100_transitions
        (w : World) (task_id st : string) (i : nat) (task : dict) :
  find_task_by_id (disk w) task_id = Ok (Some (i, task)) ->
  task !! "status" = Some (VStr st) ->
  st = "in_progress" \/ st = "pending" ->
  exists w1 t1,
    run (Phase1.mark_progress task_id 100) w = (w1, Ok t1) /\
    tasks (disk w1) !! i = Some t1 /\
    t1 !! "progress" = Some (VInt 100) /\
    (st = "in_progress" ->
       t1 !! "status" = Some (VStr "completed") /\
       t1 !! "completed_at" = Some (VStr (isoformat (clock w (S (tick w))) +:+ "Z"))) /\
    (st = "pending" ->
       t1 !! "status" = Some (VStr "in_progress") /\
       exists t2,
         tasks (disk (fst (run (Phase2.mark_progress task_id 100 EmptyString) w))) !! i
           = Some t2 /\
         t2 !! "progress" = Some (VInt 100) /\
         t2 !! "status" = Some (VStr "in_progress")).
Proof.
  intros Hfind Hst Hcases.
  pose proof (find_task_by_id_lookup _ _ _ _ Hfind) as [Hlk _].
  unfold Phase1.mark_progress, load_store, require_task.
  run_simpl. rewrite Hfind. run_simpl. calc. run_simpl.
  unfold getitem. rewrite !lookup_insert_ne by done. rewrite Hst.
  destruct Hcases as [-> | ->]; run_simpl; calc; run_simpl;
    eexists _, _; (split; [reflexivity|]);
    (split; [by eapply set_task_lookup|]).
  - split; [by simplify_map_eq|]. split; [|discriminate].
    intros _. by simplify_map_eq.
  - split; [by simplify_map_eq|]. split; [discriminate|].
    intros _. split; [by simplify_map_eq|].
    erewrite phase2_mark_progress_disk by (eauto; reflexivity).
    eexists. split; [by eapply set_task_lookup|].
    unfold Phase2.auto_status, dict_get.
    rewrite !lookup_insert_ne by done. rewrite Hst.
    calc. split; by simplify_map_eq.
Qed.


(** Phase 1 rejects a progress outside 0..100 before anything is written:
    the world, store included, is exactly as before. *)
Theorem phase1_rejects_out_of_range
        (w : World) (task_id : string) (progress : Z) (i : nat) (task : dict) :
  find_task_by_id (disk w) task_id = Ok (Some (i, task)) ->
  progress < 0 \/ 100 < progress ->
  run (Phase1.mark_progress task_id progress) w = (w, Err InvalidArgument).
Proof.
  intros Hfind Hrange.
  unfold Phase1.mark_progress, load_store, require_task.
  run_simpl. rewrite Hfind. run_simpl.
  replace ((0 <=? progress) && (progress <=? 100)) with false; [reflexivity|].
  symmetry. apply andb_false_iff. rewrite !Z.leb_gt. lia.
Qed.

End Progress.

Lemma phase1_rejects_out_of_range_witness :
  let w := Sample.world (Sample.store_t1 "in_progress" 60) in
  find_task_by_id (disk w) "t1" = Ok (Some (0%nat, Sample.task_t1 "in_progress" 60)) /\
  run (Phase1.mark_progress (DT := UTC.datetime) "t1" 150) w = (w, Err InvalidArgument).
Proof.
  cbv zeta. split; [reflexivity|].
  apply (phase1_rejects_out_of_range (DT := UTC.datetime) _ "t1" 150 0
           (Sample.task_t1 "in_progress" 60)); [reflexivity | lia].
Defined.

(** C1, as stated, fails on a pending task: after [mark_progress t1 100] the
    progress is 100 and the status is [in_progress], not [pending]. *)
Lemma set_progress_100_pending_moves_status :
  exists w1 t1,
    run (Phase1.mark_progress (DT := UTC.datetime) "t1" 100)
        (Sample.world (Sample.store_t1 "pending" 0)) = (w1, Ok t1) /\
    t1 !! "progress" = Some (VInt 100) /\
    t1 !! "status" = Some (VStr "in_progress") /\
    t1 !! "status" <> Some (VStr "pending").
Proof.
  eexists _, _. split; [reflexivity|].
  split; [reflexivity|]. split; [reflexivity|].
  intros H. vm_compute in H. discriminate H.
Qed.

Lemma set_progress_100_transitions_witness :
  let w := Sample.world (Sample.store_t1 "in_progress" 60) in
  find_task_by_id (disk w) "t1" = Ok (Some (0%nat, Sample.task_t1 "in_progress" 60)) /\
  exists w1 t1,
    run (Phase1.mark_progress (DT := UTC.datetime) "t1" 100) w = (w1, Ok t1) /\
    tasks (disk w1) !! 0%nat = Some t1 /\
    t1 !! "progress" = Some (VInt 100) /\
    t1 !! "status" = Some (VStr "completed") /\
    t1 !! "completed_at" = Some (VStr "2023-11-14T22:13:20.001000+00:00Z").
Proof.
  cbv zeta. split; [reflexivity|].
  destruct (set_progress_100_transitions (DT := UTC.datetime)
              (Sample.world (Sample.store_t1 "in_progress" 60)) "t1" "in_progress" 0
              (Sample.task_t1 "in_progress" 60) eq_refl eq_refl (or_introl eq_refl))
    as (w1 & t1 & Hrun & Hlk & Hp & Hdone & _).
  destruct (Hdone eq_refl) as [Hst Hat].
  exists w1, t1. repeat split; assumption.
Defined.

(** C3: phase 2's [mark_progress] has no range check.  Asked for 150 (or -5)
    on an existing task it logs the change, stores the value and reports
    success. *)
Theorem phase2_mark_progress_stores_out_of_range :
  let w := Sample.world (Sample.store_t1 "in_progress" 60) in
  let mark_progress := Phase2.mark_progress (DT := UTC.datetime) in
  (exists t, snd (run (mark_progress "t1" 150 EmptyString) w) = Ok t /\
             tasks (disk (fst (run (mark_progress "t1" 150 EmptyString) w))) = [t] /\
             t !! "progress" = Some (VInt 150)) /\
  (exists t, snd (run (mark_progress "t1" (-5) EmptyString) w) = Ok t /\
             tasks (disk (fst (run (mark_progress "t1" (-5) EmptyString) w))) = [t] /\
             t !! "progress" = Some (VInt (-5))) /\
  tasks (disk w) = [Sample.task_t1 "in_progress" 60].
Proof.
  cbv zeta. repeat apply conj; try reflexivity;
    eexists; repeat apply conj; reflexivity.
Qed.

(** Phase 2 never completes a task: at 100% a task in progress stays in
    progress and gets no [completed_at]. *)
Remark phase2_mark_progress_100_stays_in_progress :
  let w := Sample.world (Sample.store_t1 "in_progress" 60) in
  exists t, snd (run (Phase2.mark_progress (DT := UTC.datetime) "t1" 100 EmptyString) w) = Ok t /\
            t !! "progress" = Some (VInt 100) /\
            t !! "status" = Some (VStr "in_progress") /\
            t !! "completed_at" = None.
Proof. cbv zeta. eexists. repeat apply conj; reflexivity. Qed.

(** ** Blocking *)
Section Blocking.
Context `{DT : Datetime}.



End Blocking.


(** ** Recurring rollover *)

Lemma py_eq_str_true (v : value) (s : string) :
  py_eq_str v s = true <-> v = VStr s.
Proof.
  unfold py_eq_str, py_eq. destruct v as [|b|z|x]; cbn [as_int]; split;
    try discriminate; try (destruct b; discriminate).
  - intros H. apply String.eqb_eq in H. by subst.
  - intros [= ->]. apply String.eqb_refl.
Qed.

Lemma py_gt_error (a b : value) (e : error) :
  py_gt a b = Err e -> e = TypeError.
Proof.
  unfold py_gt. destruct a, b; cbn [as_int]; congruence.
Qed.

Lemma py_eq_str_false (v : value) (s : string) :
  py_eq_str v s = false <-> v <> VStr s.
Proof.
  rewrite <- py_eq_str_true. destruct (py_eq_str v s); split; congruence.
Qed.

Section Recurring.
Context `{DT : Datetime}.

Lemma next_recurring_accepted
      (w : World) (task_id : string) (i : nat) (task : dict) (r : value) :
  find_task_by_id (disk w) task_id = Ok (Some (i, task)) ->
  task !! "recurring" = Some r ->
  r <> VStr "none" ->
  py_lt (dict_get task "progress" (VInt 0)) (VInt 100) = Ok false ->
  exists w',
    run (Phase1.next_recurring task_id) w
      = (w', Ok (completed_original w task, successor_of w r task)) /\
    disk w' = mkStore (goals (disk w))
                      (<[i := completed_original w task]> (tasks (disk w))
                       ++ [successor_of w r task]) /\
    drawn w' = S (drawn w).
Proof.
  intros Hfind Hrec Hnone Hlt.
  unfold Phase1.next_recurring, load_store, require_task.
  run_simpl. rewrite Hfind. run_simpl.
  rewrite (dict_get_Some _ _ _ _ Hrec), Hrec.
  apply py_eq_str_false in Hnone. rewrite Hnone. cbn [orb negb].
  rewrite bool_decide_true by eauto. cbn [negb].
  rewrite Hlt. run_simpl.
  unfold getitem. rewrite !lookup_insert_ne by done. rewrite Hrec. run_simpl.
  eexists. split; [reflexivity|]. split; reflexivity.
Qed.


Lemma successor_fields (w : World) (r : value) (task : dict) :
  successor_of w r task !! "id" = Some (VStr ("task_" +:+ uuid_hex8 w (drawn w))) /\
  successor_of w r task !! "status" = Some (VStr "pending") /\
  successor_of w r task !! "progress" = Some (VInt 0) /\
  successor_of w r task !! "actual_minutes" = Some (VInt 0) /\
  successor_of w r task !! "next_due_at"
    = Some (VStr (isoformat (clock w (S (S (tick w))) + Phase1.recurring_delta r) +:+ "Z")) /\
  successor_of w r task !! "completed_at" = None.
Proof.
  unfold successor_of, Phase1.clear_completed_fields.
  repeat split; by simplify_map_eq.
Qed.

Lemma completed_original_fields (w : World) (task : dict) :
  completed_original w task !! "status" = Some (VStr "completed") /\
  completed_original w task !! "progress" = Some (VInt 100) /\
  completed_original w task !! "completed_at"
    = Some (VStr (isoformat (clock w (tick w)) +:+ "Z")).
Proof. unfold completed_original. repeat split; by simplify_map_eq. Qed.

(** C4: on a recurring task, rollover below 100% is refused with
    IncompleteTask and changes nothing; at 100% it completes the original
    and appends exactly one successor, pending, at progress 0, with no
    minutes logged and the identifier drawn next from the generator. *)
Theorem advance_recurring_needs_full_progress
        (w : World) (task_id : string) (i : nat) (task : dict) (r : value) (p : Z) :
  find_task_by_id (disk w) task_id = Ok (Some (i, task)) ->
  task !! "recurring" = Some r ->
  r <> VStr "none" ->
  dict_get task "progress" (VInt 0) = VInt p ->
  (p < 100 ->
     run (Phase1.next_recurring task_id) w = (w, Err (IncompleteTask (VInt p)))) /\
  (p = 100 ->
     exists w' done succ,
       run (Phase1.next_recurring task_id) w = (w', Ok (done, succ)) /\
       goals (disk w') = goals (disk w) /\
       tasks (disk w') = <[i := done]> (tasks (disk w)) ++ [succ] /\
       done !! "status" = Some (VStr "completed") /\
       done !! "progress" = Some (VInt 100) /\
       done !! "completed_at" = Some (VStr (isoformat (clock w (tick w)) +:+ "Z")) /\
       succ !! "progress" = Some (VInt 0) /\
       succ !! "status" = Some (VStr "pending") /\
       succ !! "actual_minutes" = Some (VInt 0) /\
       succ !! "id" = Some (VStr ("task_" +:+ uuid_hex8 w (drawn w))) /\
       drawn w' = S (drawn w)).
Proof.
  intros Hfind Hrec Hnone Hp. split.
  - intros Hlt.
    unfold Phase1.next_recurring, load_store, require_task.
    run_simpl. rewrite Hfind. run_simpl.
    rewrite (dict_get_Some _ _ _ _ Hrec), Hrec.
    apply py_eq_str_false in Hnone. rewrite Hnone. cbn [orb negb].
    rewrite bool_decide_true by eauto. cbn [negb].
    rewrite Hp. unfold py_lt, py_gt. cbn [as_int].
    replace (p <? 100) with true by (symmetry; apply Z.ltb_lt; lia).
    reflexivity.
  - intros ->.
    destruct (next_recurring_accepted w task_id i task r Hfind Hrec Hnone)
      as (w' & Hrun & Hdisk & Hdrawn).
    { by rewrite Hp. }
    destruct (successor_fields w r task) as (Hid & Hst & Hpr & Ham & _ & _).
    destruct (completed_original_fields w task) as (Hcs & Hcp & Hca).
    exists w', (completed_original w task), (successor_of w r task).
    rewrite Hdisk. cbn [goals tasks].
    repeat split; assumption.
Qed.


(** C9: the guard of rollover refuses a task whose [recurring] is absent or
    ["none"] and no other; a task whose [recurring] is null, as the health
    check's repair of an orphan leaves it, passes, and at progress 100 gets a
    successor due at [now]. *)
Theorem null_recurring_passes_guard
        (w : World) (task_id : string) (i : nat) (task : dict) :
  find_task_by_id (disk w) task_id = Ok (Some (i, task)) ->
  (task !! "recurring" = None \/ task !! "recurring" = Some (VStr "none") ->
     run (Phase1.next_recurring task_id) w = (w, Err NotRecurring)) /\
  (forall r, task !! "recurring" = Some r -> r <> VStr "none" ->
     snd (run (Phase1.next_recurring task_id) w) <> Err NotRecurring) /\
  (task !! "recurring" = Some VNone ->
   task !! "progress" = Some (VInt 100) ->
     exists w' done succ,
       run (Phase1.next_recurring task_id) w = (w', Ok (done, succ)) /\
       tasks (disk w') = <[i := done]> (tasks (disk w)) ++ [succ] /\
       succ !! "next_due_at"
         = Some (VStr (isoformat (clock w (S (S (tick w)))) +:+ "Z"))) /\
  (forall (tid : value) (t : dict),
     truthy (dict_get t "recurring" VNone) = true ->
     truthy (dict_get t "goal_id" VNone) = false ->
     Phase2.scanned (Phase2.check_orphaned tid (Phase2.mkScan t [] [])) !! "recurring"
       = Some VNone).
Proof.
  intros Hfind. repeat split.
  - intros Hrec.
    unfold Phase1.next_recurring, load_store, require_task.
    run_simpl. rewrite Hfind. run_simpl.
    destruct Hrec as [Hrec | Hrec]; rewrite Hrec.
    + rewrite (dict_get_None _ _ _ Hrec).
      rewrite bool_decide_false by (intros [? ?]; discriminate). reflexivity.
    + rewrite (dict_get_Some _ _ _ _ Hrec). reflexivity.
  - intros r Hrec Hnone.
    unfold Phase1.next_recurring, load_store, require_task.
    run_simpl. rewrite Hfind. run_simpl.
    rewrite (dict_get_Some _ _ _ _ Hrec), Hrec.
    apply py_eq_str_false in Hnone. rewrite Hnone. cbn [orb negb].
    rewrite bool_decide_true by eauto. cbn [negb].
    destruct (py_lt _ _) as [[|]|e] eqn:Hlt; run_simpl; try discriminate.
    + unfold getitem. rewrite !lookup_insert_ne by done. rewrite Hrec. run_simpl.
      discriminate.
    + unfold py_lt in Hlt. apply py_gt_error in Hlt as ->. discriminate.
  - intros Hrec Hp.
    destruct (next_recurring_accepted w task_id i task VNone Hfind Hrec)
      as (w' & Hrun & Hdisk & _); [discriminate| |].
    { by rewrite (dict_get_Some _ _ _ _ Hp). }
    destruct (successor_fields w VNone task) as (_ & _ & _ & _ & Hdue & _).
    exists w', (completed_original w task), (successor_of w VNone task).
    split; [exact Hrun|]. rewrite Hdisk. split; [reflexivity|].
    rewrite Hdue. unfold Phase1.recurring_delta. calc. by rewrite Z.add_0_r.
  - intros tid t Hrec Hgoal. unfold Phase2.check_orphaned. cbn [Phase2.scanned].
    rewrite Hrec, Hgoal. cbn [negb andb Phase2.scanned]. by simplify_map_eq.
Qed.

End Recurring.

Lemma advance_recurring_needs_full_progress_witness :
  let w := Sample.world (Sample.store_recurring (VStr "weekly") 100) in
  find_task_by_id (disk w) "t1"
    = Ok (Some (0%nat, Sample.task_recurring (VStr "weekly") 100)) /\
  exists w' done succ,
    run (Phase1.next_recurring (DT := UTC.datetime) "t1") w = (w', Ok (done, succ)) /\
    tasks (disk w') = [done; succ] /\
    done !! "status" = Some (VStr "completed") /\
    succ !! "status" = Some (VStr "pending") /\
    succ !! "progress" = Some (VInt 0) /\
    succ !! "id" = Some (VStr "task_a1b2c3d0").
Proof.
  cbv zeta. split; [reflexivity|].
  destruct (advance_recurring_needs_full_progress (DT := UTC.datetime)
              (Sample.world (Sample.store_recurring (VStr "weekly") 100)) "t1" 0
              (Sample.task_recurring (VStr "weekly") 100) (VStr "weekly") 100
              eq_refl eq_refl) as [_ Haccept];
    [discriminate | reflexivity |].
  destruct (Haccept eq_refl)
    as (w' & done & succ & Hrun & _ & Htasks & Hst & _ & _ & Hp & Hs & _ & Hid & _).
  exists w', done, succ. repeat split; assumption.
Defined.


Lemma null_recurring_passes_guard_witness :
  let w := Sample.world (Sample.store_recurring VNone 100) in
  find_task_by_id (disk w) "t1" = Ok (Some (0%nat, Sample.task_recurring VNone 100)) /\
  exists w' done succ,
    run (Phase1.next_recurring (DT := UTC.datetime) "t1") w = (w', Ok (done, succ)) /\
    tasks (disk w') = [done; succ] /\
    succ !! "next_due_at" = Some (VStr "2023-11-14T22:13:20.002000+00:00Z").
Proof.
  cbv zeta. split; [reflexivity|].
  destruct (null_recurring_passes_guard (DT := UTC.datetime)
              (Sample.world (Sample.store_recurring VNone 100)) "t1" 0
              (Sample.task_recurring VNone 100) eq_refl) as (_ & _ & Hnull & _).
  destruct (Hnull eq_refl eq_refl) as (w' & done & succ & Hrun & Htasks & Hdue).
  exists w', done, succ. repeat split; assumption.
Defined.

(** ** Loading the store blob *)

(** Phase 1 recovers: an absent blob, a blob that is no mapping and a mapping
    without ["tasks"] all load as the empty store, the files untouched. *)
Theorem phase1_load_data_recovers (fs : Files) :
  data_file fs = Missing \/
  (exists j, data_file fs = Holds j /\ (is_mapping j = false \/ has_tasks j = false)) ->
  exists warn, Phase1.load_data fs = (fs, warn, empty_blob) /\
               (data_file fs = Missing -> warn = None).
Proof.
  unfold Phase1.load_data. intros [Hm | (j & Hj & Hbad)].
  - rewrite Hm. by exists None.
  - rewrite Hj.
    replace (negb (is_mapping j) || negb (has_tasks j)) with true.
    + exists (Some SchemaInvalid). split; [reflexivity|]. discriminate.
    + symmetry. apply orb_true_iff. destruct Hbad as [-> | ->]; auto.
Qed.

Lemma phase1_load_data_recovers_witness :
  let fs := mkFiles (Holds (JArr [JNum 1; JNum 2])) Missing in
  (exists j, data_file fs = Holds j /\ (is_mapping j = false \/ has_tasks j = false)) /\
  exists warn, Phase1.load_data fs = (fs, warn, empty_blob).
Proof.
  cbv zeta.
  assert (Hshape : exists j, data_file (mkFiles (Holds (JArr [JNum 1; JNum 2])) Missing) = Holds j
                             /\ (is_mapping j = false \/ has_tasks j = false)).
  { eexists. split; [reflexivity|]. left. reflexivity. }
  split; [exact Hshape|].
  destruct (phase1_load_data_recovers _ (or_intror Hshape)) as (warn & Hload & _).
  by exists warn.
Defined.

(** The empty default is the blob of the empty store. *)
Lemma empty_blob_encodes_empty_store : encode_store empty_store = empty_blob.
Proof. reflexivity. Qed.

(** A store of the expected shape loads as itself in both phases. *)
Lemma load_data_well_formed (s : Store) (backup : file_state) :
  let fs := mkFiles (Holds (encode_store s)) backup in
  Phase1.load_data fs = (fs, None, encode_store s) /\
  Phase2.load_data fs = Ok (encode_store s).
Proof.
  cbv zeta. unfold Phase1.load_data, Phase2.load_data. cbn [data_file].
  split; [|reflexivity].
  unfold encode_store. cbn [is_mapping has_tasks negb orb].
  rewrite bool_decide_true; [reflexivity|].
  rewrite lookup_insert_ne by done. rewrite lookup_insert_eq. eauto.
Qed.

(** C6: phase 2's [load_data] does not recover.  A blob that is a list, or
    a mapping without ["tasks"], is returned as it stands instead of the empty
    store, and a blob that does not parse raises; only the absent blob loads
    as the empty store. *)
Theorem phase2_load_data_keeps_malformed :
  Phase2.load_data (mkFiles (Holds (JArr [])) Missing) = Ok (JArr []) /\
  JArr [] <> empty_blob /\
  Phase2.load_data (mkFiles (Holds (JObj (<["goals" := JArr []]> ∅))) Missing)
    = Ok (JObj (<["goals" := JArr []]> ∅)) /\
  has_tasks (JObj (<["goals" := JArr []]> ∅)) = false /\
  JObj (<["goals" := JArr []]> ∅) <> empty_blob /\
  Phase2.load_data (mkFiles Garbled Missing) = Err JSONDecodeError /\
  Phase2.load_data (mkFiles Missing Missing) = Ok empty_blob.
Proof.
  repeat apply conj; try reflexivity.
  - discriminate.
  - intros H. apply (f_equal has_tasks) in H. discriminate H.
Qed.

(** ** Velocity *)
#[local] Set Warnings "-clear-no-such-hyp".

Section Velocity.
Context `{DT : Datetime}.

Lemma getitem_dict_get (t : dict) (k : string) (dflt : value) :
  is_Some (t !! k) -> getitem t k = Ok (dict_get t k dflt).
Proof. intros [v Hv]. unfold getitem, dict_get. by rewrite Hv. Qed.

Lemma is_completed_of_ready (goal_id : string) (t : dict) :
  velocity_ready goal_id t ->
  Phase1.is_completed_of goal_id t
  = Ok (py_eq_str (dict_get t "goal_id" VNone) goal_id
        && py_eq_str (dict_get t "status" VNone) "completed").
Proof.
  intros (g & Hg & Hs). unfold Phase1.is_completed_of, getitem.
  rewrite Hg, (dict_get_Some _ _ _ _ Hg). cbn [result_bind].
  destruct (py_eq_str g goal_id); [|reflexivity].
  destruct (Hs eq_refl) as (st & Hst & _).
  by rewrite Hst, (dict_get_Some _ _ _ _ Hst).
Qed.

Lemma is_remaining_of_ready (goal_id : string) (t : dict) :
  velocity_ready goal_id t ->
  Phase1.is_remaining_of goal_id t
  = Ok (py_eq_str (dict_get t "goal_id" VNone) goal_id
        && negb (py_eq_str (dict_get t "status" VNone) "completed")).
Proof.
  intros (g & Hg & Hs). unfold Phase1.is_remaining_of, getitem.
  rewrite Hg, (dict_get_Some _ _ _ _ Hg). cbn [result_bind].
  destruct (py_eq_str g goal_id); [|reflexivity].
  destruct (Hs eq_refl) as (st & Hst & _).
  by rewrite Hst, (dict_get_Some _ _ _ _ Hst).
Qed.

Lemma select_completed (goal_id : string) (ts : list dict) :
  Forall (velocity_ready goal_id) ts ->
  Phase1.select (Phase1.is_completed_of goal_id) ts = Ok (completed_of goal_id ts).
Proof.
  induction 1 as [|t ts Ht _ IH]; [reflexivity|].
  cbn [Phase1.select completed_of List.filter].
  rewrite (is_completed_of_ready goal_id t Ht), IH. cbn [result_bind].
  by destruct (_ && _).
Qed.

Lemma select_remaining (goal_id : string) (ts : list dict) :
  Forall (velocity_ready goal_id) ts ->
  Phase1.select (Phase1.is_remaining_of goal_id) ts = Ok (remaining_of goal_id ts).
Proof.
  induction 1 as [|t ts Ht _ IH]; [reflexivity|].
  cbn [Phase1.select remaining_of List.filter].
  rewrite (is_remaining_of_ready goal_id t Ht), IH. cbn [result_bind].
  by destruct (_ && _).
Qed.

(** The completed tasks of the goal carry a date that is a string, or none. *)
Lemma completed_of_dated (goal_id : string) (ts : list dict) :
  Forall (velocity_ready goal_id) ts ->
  Forall (fun t => forall v, t !! "completed_at" = Some v -> exists s, v = VStr s)
         (completed_of goal_id ts).
Proof.
  unfold completed_of. induction 1 as [|t ts (g & Hg & Hs) _ IH]; cbn [List.filter];
    [constructor|].
  destruct (_ && _) eqn:Hboth; [|exact IH].
  constructor; [|exact IH].
  apply andb_true_iff in Hboth as [Hgoal Hdone].
  rewrite (dict_get_Some _ _ _ _ Hg) in Hgoal.
  destruct (Hs Hgoal) as (st & Hst & Hat).
  rewrite (dict_get_Some _ _ _ _ Hst) in Hdone. by apply Hat.
Qed.

(** The keys of [by_day] are the dates seen so far. *)
Lemma count_by_day_dom (cs : list dict) (by_day : gmap string nat) :
  Forall (fun t => forall v, t !! "completed_at" = Some v -> exists s, v = VStr s) cs ->
  exists counted,
    Phase1.count_by_day cs by_day = Ok counted /\
    dom counted = dom by_day ∪ list_to_set (omap completion_date cs).
Proof.
  intros Hready. revert by_day.
  induction Hready as [|t ts Hstr _ IH]; intros by_day.
  - exists by_day. split; [reflexivity|]. cbn. set_solver.
  - cbn [Phase1.count_by_day omap list_omap]. unfold completion_date at 1.
    destruct (t !! "completed_at") as [v|] eqn:Hat.
    + destruct (Hstr v eq_refl) as [s ->].
      destruct (IH (<[before_T s := S (default O (by_day !! before_T s))]> by_day))
        as (counted & Hrun & Hdom).
      exists counted. split; [exact Hrun|].
      rewrite Hdom, dom_insert_L. cbn. set_solver.
    + destruct (IH by_day) as (counted & Hrun & Hdom).
      exists counted. split; [exact Hrun|]. by rewrite Hdom.
Qed.

Lemma velocity_of_by_day (completed : nat) (by_day : gmap string nat) :
  (if bool_decide (by_day = ∅) then NInt 0
   else NFloat (PrimFloat.div (float_of_nat completed) (float_of_nat (size by_day))))
  = spec_velocity completed (size by_day).
Proof.
  unfold spec_velocity. case_bool_decide as Hempty.
  - subst. by rewrite map_size_empty.
  - destruct (size by_day) eqn:Hsize; [|reflexivity].
    by apply map_size_empty_iff in Hsize.
Qed.

(** *** Rounding *)

(** The integer [round] picks is the nearest one, the even one at a tie. *)
Lemma round_half_even_nearest (num den : Z) :
  0 < den -> nearest_integer num den (round_half_even num den).
Proof.
  intros Hden. unfold nearest_integer, round_half_even. cbv zeta.
  pose proof (Z.div_mod num den ltac:(lia)) as Hnum.
  pose proof (Z.mod_pos_bound num den Hden) as Hrem.
  set (q := num / den) in *. set (r := num mod den) in *.
  assert (Hnext : (q + 1) * den = den * q + den) by ring.
  assert (Hsame : q * den = den * q) by ring.
  destruct (Z.ltb_spec (2 * r) den) as [Hlow | Hge].
  - replace (2 * num - 2 * q * den) with (2 * r) by lia. split; lia.
  - destruct (Z.ltb_spec den (2 * r)) as [Hhigh | Hle].
    + replace (2 * num - 2 * (q + 1) * den) with (2 * r - 2 * den) by lia. split; lia.
    + destruct (Z.even q) eqn:Heven.
      * replace (2 * num - 2 * q * den) with (2 * r) by lia. split; [lia | done].
      * replace (2 * num - 2 * (q + 1) * den) with (2 * r - 2 * den) by lia.
        split; [lia|]. intros _. rewrite Z.even_add. by rewrite Heven.
Qed.

Lemma round_float_rounded (nd : nat) (x : float) : rounded_float nd x (round_float x nd).
Proof.
  unfold rounded_float, round_float.
  destruct (Prim2SF x) as [| | |negative m e]; try reflexivity.
  destruct (0 <=? e) eqn:He; [reflexivity|].
  exists (round_half_even (Z.pos m * 10 ^ Z.of_nat nd) (2 ^ (- e))).
  split; [|by destruct negative].
  apply round_half_even_nearest. apply Z.pow_pos_nonneg; [lia|]. apply Z.leb_gt in He. lia.
Qed.

Lemma py_round_rounded (nd : nat) (x : number) : rounded_number nd x (py_round x nd).
Proof.
  destruct x as [z|f]; cbn [rounded_number py_round]; [reflexivity|].
  eexists. split; [reflexivity | apply round_float_rounded].
Qed.

(** C8: for an existing goal the report counts the goal's completed and
    remaining tasks and the distinct dates of the completions; the velocity is
    completed over dates (0 without a date) rounded to 2 decimals, the
    estimate is remaining over velocity (0 when the velocity is not positive)
    rounded to 1 decimal, each the nearest decimal of the quotient.  4
    completed over 2 dates with 2 remaining give 2.0 and 1.0; 5 over 3 with 2
    remaining give 1.67 and 1.2; 9 over 8 with 1 remaining give 1.12 and
    0.9. *)
Theorem velocity_report_formula (w : World) (goal_id : string) (goal : dict) :
  find_goal_by_id (disk w) (VStr goal_id) = Ok (Some goal) ->
  Forall (velocity_ready goal_id) (tasks (disk w)) ->
  exists r,
    run (Phase1.show_velocity goal_id) w = (w, Ok r) /\
    let completed := length (completed_of goal_id (tasks (disk w))) in
    let remaining := length (remaining_of goal_id (tasks (disk w))) in
    let days := distinct_dates (completed_of goal_id (tasks (disk w))) in
    completed_count r = completed /\
    remaining_count r = remaining /\
    days_tracked r = days /\
    velocity_tasks_per_day r = py_round (spec_velocity completed days) 2 /\
    estimated_days_to_completion r
      = py_round (spec_days remaining (spec_velocity completed days)) 1 /\
    rounded_number 2 (spec_velocity completed days) (velocity_tasks_per_day r) /\
    rounded_number 1 (spec_days remaining (spec_velocity completed days))
                   (estimated_days_to_completion r) /\
    (days = O ->
       velocity_tasks_per_day r = NInt 0 /\ estimated_days_to_completion r = NInt 0) /\
    (completed = 4%nat -> days = 2%nat -> remaining = 2%nat ->
       velocity_tasks_per_day r = NFloat 2%float /\
       estimated_days_to_completion r = NFloat 1%float) /\
    (completed = 5%nat -> days = 3%nat -> remaining = 2%nat ->
       velocity_tasks_per_day r = NFloat (167 / 100)%float /\
       estimated_days_to_completion r = NFloat (12 / 10)%float) /\
    (completed = 9%nat -> days = 8%nat -> remaining = 1%nat ->
       velocity_tasks_per_day r = NFloat (112 / 100)%float /\
       estimated_days_to_completion r = NFloat (9 / 10)%float).
Proof.
  intros Hgoal Hready.
  unfold Phase1.show_velocity, load_store. run_simpl. rewrite Hgoal. run_simpl.
  rewrite (select_completed goal_id _ Hready). run_simpl.
  destruct (count_by_day_dom (completed_of goal_id (tasks (disk w))) ∅)
    as (by_day & Hcount & Hdom); [by apply completed_of_dated|].
  rewrite Hcount. run_simpl.
  rewrite (select_remaining goal_id _ Hready). run_simpl.
  rewrite velocity_of_by_day.
  assert (Hdays : size by_day = distinct_dates (completed_of goal_id (tasks (disk w)))).
  { unfold distinct_dates. rewrite <- size_dom, Hdom, dom_empty_L.
    by rewrite (left_id_L ∅ (∪)). }
  rewrite Hdays.
  eexists. split; [reflexivity|].
  cbv zeta. cbn [completed_count remaining_count days_tracked velocity_tasks_per_day
                 estimated_days_to_completion].
  fold (spec_days (length (remaining_of goal_id (tasks (disk w))))
          (spec_velocity (length (completed_of goal_id (tasks (disk w))))
             (distinct_dates (completed_of goal_id (tasks (disk w)))))).
  do 5 (split; [reflexivity|]).
  split; [apply py_round_rounded|]. split; [apply py_round_rounded|].
  split; [|split; [|split]].
  - intros ->. split; reflexivity.
  - intros -> -> ->. split; reflexivity.
  - intros -> -> ->. split; vm_compute; reflexivity.
  - intros -> -> ->. split; vm_compute; reflexivity.
Qed.

End Velocity.

Ltac velocity_ready_tac :=
  repeat constructor;
  (eexists; split; [reflexivity|];
   intros Hgoal; vm_compute in Hgoal;
   first
     [ discriminate Hgoal
     | eexists; split; [reflexivity|];
       intros Hdone; vm_compute in Hdone;
       first
         [ discriminate Hdone
         | intros v Hv; vm_compute in Hv;
           first [discriminate Hv | injection Hv as <-; eexists; reflexivity] ] ]).

Lemma velocity_report_formula_witness :
  let w := Sample.world Sample.store_velocity in
  let w' := Sample.world Sample.store_thirds in
  find_goal_by_id (disk w) (VStr "g1") = Ok (Some Sample.goal_g1) /\
  Forall (velocity_ready "g1") (tasks (disk w)) /\
  Forall (velocity_ready "g1") (tasks (disk w')) /\
  (exists r,
     run (Phase1.show_velocity "g1") w = (w, Ok r) /\
     completed_count r = 4%nat /\
     remaining_count r = 2%nat /\
     days_tracked r = 2%nat /\
     velocity_tasks_per_day r = NFloat 2%float /\
     estimated_days_to_completion r = NFloat 1%float) /\
  (exists r,
     run (Phase1.show_velocity "g1") w' = (w', Ok r) /\
     completed_count r = 5%nat /\
     remaining_count r = 2%nat /\
     days_tracked r = 3%nat /\
     velocity_tasks_per_day r = NFloat (167 / 100)%float /\
     estimated_days_to_completion r = NFloat (12 / 10)%float).
Proof.
  cbv zeta.
  assert (Hready : Forall (velocity_ready "g1")
                     (tasks (disk (Sample.world Sample.store_velocity))))
    by velocity_ready_tac.
  assert (Hready' : Forall (velocity_ready "g1")
                      (tasks (disk (Sample.world Sample.store_thirds))))
    by velocity_ready_tac.
  split; [reflexivity|]. split; [exact Hready|]. split; [exact Hready'|]. split.
  - destruct (velocity_report_formula
                (Sample.world Sample.store_velocity) "g1" Sample.goal_g1 eq_refl Hready)
      as (r & Hrun & Hc & Hr & Hd & _ & _ & _ & _ & _ & Hex & _).
    assert (H4 : length (completed_of "g1" (tasks (disk (Sample.world Sample.store_velocity))))
                 = 4%nat) by reflexivity.
    assert (H2 : length (remaining_of "g1" (tasks (disk (Sample.world Sample.store_velocity))))
                 = 2%nat) by reflexivity.
    assert (Hd2 : distinct_dates
                    (completed_of "g1" (tasks (disk (Sample.world Sample.store_velocity))))
                  = 2%nat) by (vm_compute; reflexivity).
    destruct (Hex H4 Hd2 H2) as [Hv He].
    exists r. rewrite Hc, Hr, Hd. repeat split; assumption.
  - destruct (velocity_report_formula
                (Sample.world Sample.store_thirds) "g1" Sample.goal_g1 eq_refl Hready')
      as (r & Hrun & Hc & Hr & Hd & _ & _ & _ & _ & _ & _ & Hex & _).
    assert (H5 : length (completed_of "g1" (tasks (disk (Sample.world Sample.store_thirds))))
                 = 5%nat) by reflexivity.
    assert (H2 : length (remaining_of "g1" (tasks (disk (Sample.world Sample.store_thirds))))
                 = 2%nat) by reflexivity.
    assert (Hd3 : distinct_dates
                    (completed_of "g1" (tasks (disk (Sample.world Sample.store_thirds))))
                  = 3%nat) by (vm_compute; reflexivity).
    destruct (Hex H5 Hd3 H2) as [Hv He].
    exists r. rewrite Hc, Hr, Hd. repeat split; assumption.
Defined.

(** [round] follows the binary value of the float, as Python's does:
    [round(203/200, 2)] is 1.01 although 1.015 sits halfway in decimal, and
    halves that are exact in binary go to the even digit. *)
Example round_float_values :
  round_float (203 / 200) 2 = (101 / 100)%float /\
  round_float (2675 / 1000) 2 = (267 / 100)%float /\
  round_float (1 / 8) 2 = (12 / 100)%float /\
  round_float (4 / 3) 2 = (133 / 100)%float /\
  round_float (2 / (4 / 3)) 1 = (15 / 10)%float /\
  round_float (25 / 100) 1 = (2 / 10)%float.
Proof. repeat split; vm_compute; reflexivity. Qed.

(** Where the digit after the last one kept is 5 or more the last digit goes
    up, and below 5 it stays; negative values round by their magnitude. *)
Example round_float_up_and_down :
  round_float (5 / 3) 2 = (167 / 100)%float /\
  round_float (1 / (9 / 8)) 1 = (9 / 10)%float /\
  round_float (3 / (7 / 3)) 1 = (13 / 10)%float /\
  round_float (7 / 3) 2 = (233 / 100)%float /\
  round_float (9 / 8) 2 = (112 / 100)%float /\
  round_float (11 / 8) 2 = (138 / 100)%float /\
  round_float (-5 / 3) 2 = (-167 / 100)%float /\
  round_float (5 / 3) 2 <> (5 / 3)%float /\
  round_float (5 / 3) 2 <> (166 / 100)%float.
Proof. repeat split; try (vm_compute; reflexivity); vm_compute; discriminate. Qed.

(** ** Order of strings *)

Lemma str_le_iff (a b : string) :
  str_le a b = true <-> a = b \/ String_as_OT.lt a b.
Proof.
  unfold str_le, String.leb.
  destruct (String.compare a b) eqn:Hc; split; try discriminate; auto.
  - intros _. left. by apply String_as_OT.cmp_eq.
  - intros _. right. by apply String_as_OT.cmp_lt.
  - intros [-> | Hlt].
    + assert (String.compare b b = Eq) by (by apply String_as_OT.cmp_eq). congruence.
    + apply String_as_OT.cmp_lt in Hlt. unfold String_as_OT.cmp in Hlt. congruence.
Qed.

Lemma str_le_refl (a : string) : str_le a a = true.
Proof. apply str_le_iff. by left. Qed.

Lemma str_le_trans (a b c : string) :
  str_le a b = true -> str_le b c = true -> str_le a c = true.
Proof.
  rewrite !str_le_iff. intros [-> | Hab] [-> | Hbc]; auto.
  right. by apply (String_as_OT.lt_trans a b c).
Qed.

Lemma str_gt_false (a b : string) : str_gt a b = false <-> str_le a b = true.
Proof.
  unfold str_gt, str_le, String.ltb, String.leb.
  rewrite (String.compare_antisym a b).
  destruct (String.compare b a); cbn [CompOpp]; split; congruence.
Qed.

(** A string is at most any extension of itself. *)
Lemma str_le_append (a b : string) : str_le a (a +:+ b) = true.
Proof.
  apply str_le_iff. induction a as [|c a IH].
  - change (EmptyString +:+ b) with b. destruct b; [by left | right; constructor].
  - change (String c a +:+ b) with (String c (a +:+ b)).
    destruct IH as [IH | IH].
    + left. by f_equal.
    + right. by constructor.
Qed.

(** ** Programs that only read the clock *)

Lemma clock_only_bind {A B : Type} (m : Prog A) (f : A -> Prog B) :
  clock_only m -> (forall a, clock_only (f a)) -> clock_only (bind m f).
Proof.
  induction 1 as [a|e|k _ IH]; intros Hf; cbn [bind]; try constructor; auto.
Qed.

Lemma clock_only_lift {A : Type} (r : result A) : clock_only (lift r).
Proof. destruct r; constructor. Qed.

Lemma clock_only_run {A : Type} (p : Prog A) :
  clock_only p ->
  forall w, disk (fst (run p w)) = disk w /\ wal (fst (run p w)) = wal w.
Proof.
  induction 1 as [a|e|k _ IH]; intros w; cbn [run fst]; auto.
  apply (IH _ (set_tick (S (tick w)) w)).
Qed.

(** ** Health check *)

Section Health.
Context `{DT : Datetime}.

Lemma settled_mono (w : World) (k0 k k0' k' : nat) (t : dict) :
  (k0' <= k0)%nat -> (k <= k')%nat -> settled w k0 k t -> settled w k0' k' t.
Proof.
  intros H0 H1 (Ho & Ht & Hc). repeat split; auto.
  - by apply Hc.
  - destruct (Hc H) as (_ & c & i & Hat & Hne & Hi & Hle).
    exists c, i. repeat split; auto; lia.
Qed.

(** *** What each check returns *)

Lemma check_orphaned_out (tid : value) (s : Phase2.scan) :
  let s' := Phase2.check_orphaned tid s in
  (s' = s /\
   truthy (dict_get (Phase2.scanned s) "recurring" VNone)
   && negb (truthy (dict_get (Phase2.scanned s) "goal_id" VNone)) = false) \/
  (Phase2.scanned s' = <["recurring" := VNone]> (Phase2.scanned s) /\
   exists x, Phase2.fixed s' = Phase2.fixed s ++ [x]).
Proof.
  cbv zeta. unfold Phase2.check_orphaned.
  destruct (_ && _) eqn:Hc; [right | left]; cbn [Phase2.scanned Phase2.fixed]; eauto.
Qed.

Lemma check_progress_out (tid : value) (s s' : Phase2.scan) :
  Phase2.check_progress tid s = Ok s' ->
  (s' = s /\
   (is_completed (Phase2.scanned s) = true ->
    py_lt (dict_get (Phase2.scanned s) "progress" (VInt 100)) (VInt 100) = Ok false)) \/
  (is_completed (Phase2.scanned s) = true /\
   Phase2.scanned s' = <["progress" := VInt 100]> (Phase2.scanned s) /\
   exists x, Phase2.fixed s' = Phase2.fixed s ++ [x]).
Proof.
  unfold Phase2.check_progress, is_completed.
  destruct (py_eq_str _ "completed"); cbn [result_bind].
  - destruct (py_lt _ _) as [[|]|e]; cbn [result_bind]; intros [= <-].
    + right. cbn [Phase2.scanned Phase2.fixed]. eauto.
    + left. auto.
  - intros [= <-]. left. split; [reflexivity|discriminate].
Qed.

Lemma check_completed_at_out (tid : value) (s s' : Phase2.scan) (w w' : World) :
  run (Phase2.check_completed_at tid s) w = (w', Ok s') ->
  (s' = s /\ w' = w /\
   (is_completed (Phase2.scanned s) = true ->
    truthy (dict_get (Phase2.scanned s) "completed_at" VNone) = true)) \/
  (is_completed (Phase2.scanned s) = true /\
   Phase2.scanned s'
     = <["completed_at" := VStr (isoformat (clock w (tick w)) +:+ "Z")]> (Phase2.scanned s) /\
   w' = set_tick (S (tick w)) w /\
   exists x, Phase2.fixed s' = Phase2.fixed s ++ [x]).
Proof.
  unfold Phase2.check_completed_at, is_completed.
  destruct (py_eq_str _ "completed"); cbn [andb].
  - destruct (truthy _) eqn:Ht; cbn [negb]; run_simpl; intros [= <- <-].
    + left. auto.
    + right. cbn [Phase2.scanned Phase2.fixed]. eauto 6.
  - run_simpl. intros [= <- <-]. left. repeat split; discriminate.
Qed.

Lemma check_time_out (tid : value) (s s' : Phase2.scan) :
  Phase2.check_time tid s = Ok s' ->
  Phase2.scanned s' = Phase2.scanned s /\ Phase2.fixed s' = Phase2.fixed s.
Proof.
  unfold Phase2.check_time.
  destruct (py_mul_int _ _) as [limit|e]; cbn [result_bind]; [|discriminate].
  destruct (py_gt _ limit) as [[|]|e]; cbn [result_bind]; try discriminate.
  - destruct (py_truediv_check _ _) as [[]|e]; cbn [result_bind]; [|discriminate].
    by intros [= <-].
  - by intros [= <-].
Qed.

(** Whether check 4 raises depends on the two fields it reads alone. *)
Lemma check_time_again (tid tid' : value) (s s' r : Phase2.scan) :
  Phase2.check_time tid s = Ok s' ->
  dict_get (Phase2.scanned r) "actual_minutes" (VInt 0)
    = dict_get (Phase2.scanned s) "actual_minutes" (VInt 0) ->
  dict_get (Phase2.scanned r) "estimate_minutes" (VInt 1)
    = dict_get (Phase2.scanned s) "estimate_minutes" (VInt 1) ->
  exists r', Phase2.check_time tid' r = Ok r'.
Proof.
  unfold Phase2.check_time. intros Hs -> ->.
  destruct (py_mul_int _ _) as [limit|e]; cbn [result_bind] in *; [|discriminate].
  destruct (py_gt _ limit) as [[|]|e]; cbn [result_bind] in *; try discriminate; eauto.
  destruct (py_truediv_check _ _) as [[]|e]; cbn [result_bind] in *; [|discriminate]; eauto.
Qed.

Lemma check_future_out (tid : value) (s s' : Phase2.scan) (w w' : World) :
  run (Phase2.check_future tid s) w = (w', Ok s') ->
  (is_completed (Phase2.scanned s) = false /\ s' = s /\ w' = w) \/
  (is_completed (Phase2.scanned s) = true /\ s' = s /\ w' = set_tick (S (tick w)) w /\
   exists v, dict_get (Phase2.scanned s) "completed_at" (VStr EmptyString) = v /\
             py_gt v (VStr (isoformat (clock w (tick w)))) = Ok false) \/
  (is_completed (Phase2.scanned s) = true /\
   Phase2.scanned s'
     = <["completed_at" := VStr (isoformat (clock w (S (tick w))) +:+ "Z")]> (Phase2.scanned s) /\
   w' = set_tick (S (S (tick w))) w /\
   exists x, Phase2.fixed s' = Phase2.fixed s ++ [x]).
Proof.
  unfold Phase2.check_future, is_completed.
  destruct (py_eq_str _ "completed").
  - run_simpl. destruct (py_gt _ _) as [[|]|e] eqn:Hgt; run_simpl; intros [= <- <-].
    + right. right. cbn [Phase2.scanned Phase2.fixed]. eauto 6.
    + right. left. eauto 6.
  - run_simpl. intros [= <- <-]. left. auto.
Qed.


(** A string compared with a string without raising, and found no greater. *)
Lemma py_gt_str_false (v : value) (b : string) :
  py_gt v (VStr b) = Ok false -> exists c, v = VStr c /\ str_le c b = true.
Proof.
  unfold py_gt. destruct v as [|x|z|c]; cbn [as_int]; try discriminate.
  intros [= Hgt]. exists c. split; [reflexivity|]. by apply str_gt_false.
Qed.

Lemma truthy_str (c : string) : truthy (VStr c) = true -> c <> EmptyString.
Proof. cbn. intros H ->. discriminate. Qed.

Lemma stamp_not_empty (a : string) : a +:+ "Z" <> EmptyString.
Proof. destruct a; discriminate. Qed.

Lemma scan_task_settles (t : dict) (w w' : World) (s : Phase2.scan) :
  run (Phase2.scan_task t) w = (w', Ok s) ->
  clock w' = clock w /\ disk w' = disk w /\ wal w' = wal w /\
  (tick w <= tick w')%nat /\
  settled w (tick w) (tick w') (Phase2.scanned s) /\
  (Phase2.fixed s = [] -> Phase2.scanned s = t).
Proof.
  unfold Phase2.scan_task. intros Hrun.
  set (tid := dict_get t "id" (VStr "unknown")) in Hrun.
  pose proof (check_orphaned_out tid (Phase2.mkScan t [] [])) as H0. cbv zeta in H0.
  destruct (Phase2.check_orphaned tid (Phase2.mkScan t [] [])) as [t0 i0 f0].
  rewrite run_bind, run_lift in Hrun.
  destruct (Phase2.check_progress tid _) as [[t1 i1 f1]|e] eqn:H1; [|discriminate].
  apply check_progress_out in H1.
  rewrite run_bind in Hrun.
  destruct (run (Phase2.check_completed_at tid _) w) as [w2 [[t2 i2 f2]|e]] eqn:H2;
    [|discriminate].
  apply check_completed_at_out in H2.
  rewrite run_bind, run_lift in Hrun.
  destruct (Phase2.check_time tid _) as [[t3 i3 f3]|e] eqn:H3; [|discriminate].
  pose proof (check_time_out _ _ _ H3) as [E3 F3].
  destruct s as [t4 i4 f4].
  apply check_future_out in Hrun.
  cbn [Phase2.scanned Phase2.fixed] in *. subst t3 f3.
  assert (Htime : forall r, dict_get r "actual_minutes" (VInt 0) = dict_get t2 "actual_minutes" (VInt 0) ->
                            dict_get r "estimate_minutes" (VInt 1) = dict_get t2 "estimate_minutes" (VInt 1) ->
                            exists s, Phase2.check_time VNone (Phase2.mkScan r [] []) = Ok s).
  { intros r Ha He. by eapply check_time_again. }
  clear H3.
  destruct H0 as [[[= -> -> ->] HO] | (-> & x0 & ->)];
  destruct H1 as [[[= -> -> ->] HP] | (C1 & -> & x1 & ->)];
  destruct H2 as [([= -> -> ->] & -> & HT) | (C2 & -> & -> & x2 & ->)];
  destruct Hrun as [(C4 & [= -> -> ->] & ->)
                   | [(C4 & [= -> -> ->] & -> & v & Hv & Hgt)
                     | (C4 & -> & -> & x4 & ->)]];
  world_simpl; unfold is_completed in *;
  rewrite ?dict_get_insert_ne in * by done;
  (split; [reflexivity|]); (split; [reflexivity|]); (split; [reflexivity|]);
  (split; [lia|]);
  (split; [| first [ by intros _ | by intros ?%app_eq_nil ; naive_solver | idtac ]]).
  all: try (intros Hnil; repeat (apply app_eq_nil in Hnil as [Hnil ?]); discriminate).
  all: unfold settled, is_completed; dict_simpl.
  all: (split; [first [exact HO | reflexivity]|]).
  all: (split; [apply Htime; by dict_simpl|]).
  all: intros Hc; try congruence.
  all: (split; [first [by apply HP | reflexivity]|]).
  all: try (eexists _, _; (split; [reflexivity|]); (split; [apply stamp_not_empty|]);
            (split; [|apply str_le_refl]); lia).
  all: subst v; apply py_gt_str_false in Hgt as (c & Hv & Hle);
    specialize (HT Hc); unfold dict_get in Hv, HT;
    destruct (t !! "completed_at") as [v'|] eqn:Hat; cbn in Hv, HT; [|discriminate];
    subst v'; exists c, (tick w);
    (split; [reflexivity|]); (split; [by apply truthy_str|]); (split; [lia|]);
    (eapply str_le_trans; [exact Hle | apply str_le_append]).
Qed.

Lemma truthy_nonempty (c : string) : c <> EmptyString -> truthy (VStr c) = true.
Proof. destruct c; [congruence | reflexivity]. Qed.

(** A settled task scanned again at a later time comes back as it is, with
    no repair, after at most one reading of the clock. *)
Lemma scan_task_settled_again (t : dict) (w w2 : World) (k0 k : nat) :
  settled w k0 k t ->
  clock w2 = clock w ->
  (forall i, (k0 <= i < k)%nat ->
     str_le (isoformat (clock w i) +:+ "Z") (isoformat (clock w (tick w2))) = true) ->
  exists w2' issues,
    run (Phase2.scan_task t) w2 = (w2', Ok (Phase2.mkScan t issues [])) /\
    clock w2' = clock w2 /\ disk w2' = disk w2 /\ wal w2' = wal w2 /\
    (tick w2 <= tick w2' <= S (tick w2))%nat.
Proof.
  intros (HO & (st & Ht) & HC) Hclock Hadv.
  unfold Phase2.scan_task.
  set (tid := dict_get t "id" (VStr "unknown")).
  unfold Phase2.check_orphaned at 1. cbn [Phase2.scanned]. rewrite HO.
  destruct (check_time_again VNone tid _ _ (Phase2.mkScan t [] []) Ht eq_refl eq_refl)
    as [[t3 i3 f3] Ht3].
  pose proof (check_time_out _ _ _ Ht3) as [E3 F3].
  cbn [Phase2.scanned Phase2.fixed] in E3, F3. subst t3 f3.
  rewrite run_bind, run_lift.
  unfold Phase2.check_progress at 1. cbn [Phase2.scanned].
  unfold is_completed in HC.
  destruct (py_eq_str (dict_get t "status" VNone) "completed") eqn:Hc.
  - destruct (HC eq_refl) as (HP & c & i & Hat & Hne & Hi & Hle).
    rewrite HP. cbn [result_bind].
    rewrite run_bind.
    unfold Phase2.check_completed_at at 1. cbn [Phase2.scanned].
    rewrite Hc, (dict_get_Some _ _ _ _ Hat), (truthy_nonempty c Hne).
    cbn [andb negb]. run_simpl.
    rewrite run_bind, run_lift, Ht3.
    unfold Phase2.check_future. cbn [Phase2.scanned].
    rewrite Hc, (dict_get_Some _ _ _ _ Hat). run_simpl.
    unfold py_gt. rewrite Hclock.
    replace (str_gt c (isoformat (clock w (tick w2)))) with false.
    + run_simpl. eexists _, _. split; [reflexivity|]. world_simpl.
      repeat split; auto; lia.
    + symmetry. apply str_gt_false.
      eapply str_le_trans; [exact Hle | by apply Hadv].
  - cbn [result_bind]. rewrite run_bind.
    unfold Phase2.check_completed_at at 1. cbn [Phase2.scanned].
    rewrite Hc. cbn [andb]. run_simpl.
    rewrite run_bind, run_lift, Ht3.
    unfold Phase2.check_future. cbn [Phase2.scanned]. rewrite Hc. run_simpl.
    eexists _, _. split; [reflexivity|]. repeat split; auto; lia.
Qed.

Lemma settled_same_clock (w w0 : World) (k0 k : nat) (t : dict) :
  clock w0 = clock w -> settled w0 k0 k t -> settled w k0 k t.
Proof. unfold settled. by intros ->. Qed.

(** *** The loop over the tasks *)

Lemma scan_tasks_settles (ts : list dict) :
  forall (w w' : World) (ts' : list dict) (issues : list issue) (fixes : list repair),
    run (Phase2.scan_tasks ts) w = (w', Ok (ts', issues, fixes)) ->
    clock w' = clock w /\ disk w' = disk w /\ wal w' = wal w /\
    (tick w <= tick w')%nat /\
    length ts' = length ts /\
    Forall (settled w (tick w) (tick w')) ts' /\
    (fixes = [] -> ts' = ts).
Proof.
  induction ts as [|t rest IH]; intros w w' ts' issues fixes; cbn [Phase2.scan_tasks].
  - run_simpl. intros [= <- <- <- <-]. repeat split; auto.
  - rewrite run_bind.
    destruct (run (Phase2.scan_task t) w) as [w1 [s|e]] eqn:Hone; [|discriminate].
    rewrite run_bind.
    destruct (run (Phase2.scan_tasks rest) w1) as [w2 [[[rest' i2] f2]|e]] eqn:Hrest;
      [|discriminate].
    run_simpl. intros [= <- <- <- <-].
    apply scan_task_settles in Hone as (Hc1 & Hd1 & Hw1 & Ht1 & Hs1 & Hf1).
    apply IH in Hrest as (Hc2 & Hd2 & Hw2 & Ht2 & Hlen & Hs2 & Hf2).
    repeat split; try congruence; try lia.
    + cbn [length]. by rewrite Hlen.
    + constructor.
      * eapply settled_mono; [| |exact Hs1]; lia.
      * eapply Forall_impl; [exact Hs2|]. intros x Hx.
        apply (settled_same_clock w w1); [exact Hc1|].
        eapply settled_mono; [| |exact Hx]; lia.
    + intros Hnil. apply app_eq_nil in Hnil as [H1 H2].
      by rewrite (Hf1 H1), (Hf2 H2).
Qed.

Lemma scan_tasks_settled_again (ts : list dict) (w : World) (k0 k : nat) :
  Forall (settled w k0 k) ts ->
  forall w2 : World,
    clock w2 = clock w ->
    (forall i j, (k0 <= i < k)%nat -> (tick w2 <= j < tick w2 + length ts)%nat ->
       str_le (isoformat (clock w i) +:+ "Z") (isoformat (clock w j)) = true) ->
    exists w2' issues,
      run (Phase2.scan_tasks ts) w2 = (w2', Ok (ts, issues, [])) /\
      clock w2' = clock w2 /\ disk w2' = disk w2 /\ wal w2' = wal w2 /\
      (tick w2 <= tick w2' <= tick w2 + length ts)%nat.
Proof.
  induction 1 as [|t rest Ht _ IH]; intros w2 Hclock Hadv; cbn [Phase2.scan_tasks].
  - run_simpl. eexists _, _. split; [reflexivity|]. cbn [length]. repeat split; auto; lia.
  - destruct (scan_task_settled_again t w w2 k0 k Ht Hclock)
      as (w3 & i1 & Hone & Hc3 & Hd3 & Hw3 & Ht3).
    { intros i Hi. apply Hadv; [exact Hi|]. cbn [length]. lia. }
    destruct (IH w3) as (w4 & i2 & Hrest & Hc4 & Hd4 & Hw4 & Ht4).
    { congruence. }
    { intros i j Hi Hj. apply Hadv; [exact Hi|]. cbn [length]. lia. }
    rewrite run_bind, Hone, run_bind, Hrest. run_simpl.
    eexists _, _. split; [reflexivity|]. cbn [length].
    repeat split; try congruence; lia.
Qed.

(** When a run has gone through, a second run right after it, at clock
    readings whose stamps sort after the stamps the first run could write,
    goes through as well and applies no repair. *)
Lemma health_check_quiet_after (w w1 : World) (r1 : health_report) :
  run Phase2.health_check w = (w1, Ok r1) ->
  (forall i j : nat,
     (tick w <= i < tick w1)%nat ->
     (tick w1 <= j < tick w1 + length (tasks (disk w)))%nat ->
     str_le (isoformat (clock w i) +:+ "Z") (isoformat (clock w j)) = true) ->
  exists w2 r2,
    run Phase2.health_check w1 = (w2, Ok r2) /\ auto_fixes r2 = [] /\
    disk w2 = disk w1.
Proof.
  intros Hrun Hadv.
  unfold Phase2.health_check, load_store in Hrun. cbn [bind run] in Hrun.
  rewrite run_bind in Hrun.
  destruct (run (Phase2.scan_tasks (tasks (disk w))) w) as [ws [[[ts' i1] f1]|e]] eqn:Hscan;
    [|discriminate].
  apply scan_tasks_settles in Hscan as (Hc & Hd & Hw & Ht & Hlen & Hset & Hsame).
  assert (Hw1 : clock w1 = clock w /\ tasks (disk w1) = ts' /\ tick w1 = S (S (S (tick ws)))).
  { destruct f1 as [|x f1]; run_simpl; injection Hrun as <- <-; world_simpl.
    - rewrite Hd. by rewrite (Hsame eq_refl).
    - auto. }
  destruct Hw1 as (Hc1 & Hd1 & Ht1).
  destruct (scan_tasks_settled_again ts' w (tick w) (tick ws) Hset w1 Hc1)
    as (w2 & i2 & Hagain & _ & Hd2 & _).
  { intros i j Hi Hj. apply Hadv; lia. }
  unfold Phase2.health_check, load_store. cbn [bind run].
  rewrite run_bind, Hd1, Hagain. run_simpl.
  eexists _, _. split; [reflexivity|]. split; [reflexivity|]. exact Hd2.
Qed.

(** *** A scan that raises *)

Lemma scan_task_clock_only (t : dict) : clock_only (Phase2.scan_task t).
Proof.
  unfold Phase2.scan_task.
  apply clock_only_bind; [apply clock_only_lift|]. intros s1.
  apply clock_only_bind.
  { unfold Phase2.check_completed_at. destruct (_ && _); repeat constructor. }
  intros s2. apply clock_only_bind; [apply clock_only_lift|]. intros s3.
  unfold Phase2.check_future. destruct (py_eq_str _ _); [|constructor].
  cbn [bind Phase2.now_iso now]. constructor. intros t0.
  destruct (py_gt _ _) as [[|]|e]; cbn [bind lift]; repeat constructor.
Qed.

Lemma scan_tasks_clock_only (ts : list dict) : clock_only (Phase2.scan_tasks ts).
Proof.
  induction ts as [|t rest IH]; cbn [Phase2.scan_tasks]; [constructor|].
  apply clock_only_bind; [apply scan_task_clock_only|]. intros s.
  apply clock_only_bind; [exact IH|]. intros [[rest' i] f]. constructor.
Qed.

Lemma check_time_raises_again (tid tid' : value) (s r : Phase2.scan) (e : error) :
  Phase2.check_time tid s = Err e ->
  dict_get (Phase2.scanned r) "actual_minutes" (VInt 0)
    = dict_get (Phase2.scanned s) "actual_minutes" (VInt 0) ->
  dict_get (Phase2.scanned r) "estimate_minutes" (VInt 1)
    = dict_get (Phase2.scanned s) "estimate_minutes" (VInt 1) ->
  Phase2.check_time tid' r = Err e.
Proof.
  unfold Phase2.check_time. intros Hs -> ->.
  destruct (py_mul_int _ _) as [limit|e']; cbn [result_bind] in *; [|exact Hs].
  destruct (py_gt _ limit) as [[|]|e']; cbn [result_bind] in *; try discriminate; auto.
  destruct (py_truediv_check _ _) as [[]|e']; cbn [result_bind] in *; [discriminate|auto].
Qed.

Lemma py_gt_raises_again (v : value) (a b : string) (e : error) :
  py_gt v (VStr a) = Err e -> py_gt v (VStr b) = Err e.
Proof. destruct v; cbn; auto; discriminate. Qed.

Lemma check_future_raises (tid : value) (s : Phase2.scan) (w : World) (e : error) :
  snd (run (Phase2.check_future tid s) w) = Err e ->
  is_completed (Phase2.scanned s) = true /\
  forall p, py_gt (dict_get (Phase2.scanned s) "completed_at" (VStr EmptyString)) (VStr p) = Err e.
Proof.
  unfold Phase2.check_future, is_completed.
  destruct (py_eq_str _ "completed"); [|discriminate].
  run_simpl. destruct (py_gt _ _) as [[|]|e'] eqn:Hgt; run_simpl; try discriminate.
  intros [= ->]. split; [reflexivity|]. intros p. by eapply py_gt_raises_again.
Qed.

Lemma check_future_raises_again (tid tid' : value) (s r : Phase2.scan) (w w2 : World) (e : error) :
  snd (run (Phase2.check_future tid s) w) = Err e ->
  dict_get (Phase2.scanned r) "status" VNone = dict_get (Phase2.scanned s) "status" VNone ->
  dict_get (Phase2.scanned r) "completed_at" (VStr EmptyString)
    = dict_get (Phase2.scanned s) "completed_at" (VStr EmptyString) ->
  snd (run (Phase2.check_future tid' r) w2) = Err e.
Proof.
  intros [Hc Hgt]%check_future_raises Hst Hat.
  unfold Phase2.check_future, is_completed in *. rewrite Hst, Hc, Hat.
  run_simpl. rewrite Hgt. reflexivity.
Qed.

(** Whether the scan of a task raises, and what, depends on the task alone. *)
Lemma scan_task_raises_again (t : dict) (w w2 : World) (e : error) :
  snd (run (Phase2.scan_task t) w) = Err e ->
  snd (run (Phase2.scan_task t) w2) = Err e.
Proof.
  unfold Phase2.scan_task.
  set (tid := dict_get t "id" (VStr "unknown")).
  set (s0 := Phase2.check_orphaned tid (Phase2.mkScan t [] [])).
  rewrite !run_bind, !run_lift.
  destruct (Phase2.check_progress tid s0) as [s1|e1]; [|auto].
  rewrite !run_bind.
  unfold Phase2.check_completed_at.
  destruct (_ && _) eqn:Hcond; run_simpl.
  - rewrite !run_bind, !run_lift.
    destruct (Phase2.check_time tid (Phase2.mkScan (<["completed_at" := _]> _) _ _))
      as [s3|e3] eqn:H3 at 1.
    + intros [_ Hgt]%check_future_raises.
      apply check_time_out in H3 as [E3 _]. cbn [Phase2.scanned] in E3.
      specialize (Hgt EmptyString). rewrite E3 in Hgt.
      unfold dict_get in Hgt. rewrite lookup_insert_eq in Hgt. discriminate.
    + cbn [snd]. intros [= ->].
      erewrite check_time_raises_again; [reflexivity|exact H3|..];
        cbn [Phase2.scanned]; unfold dict_get; by rewrite !lookup_insert_ne.
  - rewrite !run_bind, !run_lift.
    destruct (Phase2.check_time tid s1) as [s3|e3]; [|auto].
    intros H. eapply check_future_raises_again; eauto.
Qed.

Lemma scan_tasks_raises_again (ts : list dict) (e : error) :
  forall w w2 : World,
    snd (run (Phase2.scan_tasks ts) w) = Err e ->
    snd (run (Phase2.scan_tasks ts) w2) = Err e.
Proof.
  induction ts as [|t rest IH]; intros w w2; cbn [Phase2.scan_tasks].
  - discriminate.
  - rewrite !run_bind.
    pose proof (scan_task_raises_again t w w2) as H12.
    pose proof (scan_task_raises_again t w2 w) as H21.
    destruct (run (Phase2.scan_task t) w) as [w' [s|e1]];
      destruct (run (Phase2.scan_task t) w2) as [w2' [s2|e2]]; cbn [snd] in *.
    + rewrite !run_bind. specialize (IH w' w2').
      destruct (run (Phase2.scan_tasks rest) w') as [wa [[[ra ia] fa]|ea]];
        destruct (run (Phase2.scan_tasks rest) w2') as [wb [[[rb ib] fb]|eb]];
        cbn [snd] in *; run_simpl; auto; try discriminate.
      intros H. specialize (IH H). discriminate.
    + specialize (H21 _ eq_refl). discriminate.
    + specialize (H12 _ eq_refl). discriminate.
    + specialize (H12 _ eq_refl). injection H12 as ->. auto.
Qed.


Lemma health_check_raises (w w1 : World) (e : error) :
  run Phase2.health_check w = (w1, Err e) ->
  snd (run (Phase2.scan_tasks (tasks (disk w))) w) = Err e /\ disk w1 = disk w.
Proof.
  unfold Phase2.health_check, load_store. cbn [bind run]. rewrite run_bind.
  pose proof (clock_only_run _ (scan_tasks_clock_only (tasks (disk w))) w) as [Hkeep _].
  destruct (run (Phase2.scan_tasks (tasks (disk w))) w) as [ws [[[ts i] f]|e']].
  - destruct f; run_simpl; discriminate.
  - intros [= <- <-]. auto.
Qed.

Lemma health_check_raises_again (w : World) (e : error) :
  snd (run (Phase2.scan_tasks (tasks (disk w))) w) = Err e ->
  exists w', run Phase2.health_check w = (w', Err e) /\ disk w' = disk w.
Proof.
  unfold Phase2.health_check, load_store. cbn [bind run]. rewrite run_bind.
  pose proof (clock_only_run _ (scan_tasks_clock_only (tasks (disk w))) w) as [Hkeep _].
  destruct (run (Phase2.scan_tasks (tasks (disk w))) w) as [ws [[[ts i] f]|e']];
    cbn [snd fst] in *; [discriminate|].
  intros [= ->]. eauto.
Qed.

(** Two runs in succession, whatever the library that formats the clock:
    when the stamps the first run could write sort at or before the readings
    of the second run's scan, the second run leaves the store as the first
    left it.  Where the first returns its report, the second returns one with
    an empty list of repairs; where the first raises, the second raises the
    same. *)
Lemma health_check_twice (w w1 w2 : World) (r1 r2 : result health_report) :
  run Phase2.health_check w = (w1, r1) ->
  run Phase2.health_check w1 = (w2, r2) ->
  (forall i j : nat,
     (tick w <= i < tick w1)%nat ->
     (tick w1 <= j < tick w1 + length (tasks (disk w)))%nat ->
     str_le (isoformat (clock w i) +:+ "Z") (isoformat (clock w j)) = true) ->
  disk w2 = disk w1 /\
  match r1, r2 with
  | Ok _, Ok report => auto_fixes report = []
  | Err e1, Err e2 => e1 = e2
  | _, _ => False
  end.
Proof.
  intros H1 H2 Hadv. destruct r1 as [report1|e1].
  - destruct (health_check_quiet_after w w1 report1 H1 Hadv) as (w2' & r2' & Hrun & Hfix & Hd).
    rewrite Hrun in H2. injection H2 as <- <-. auto.
  - apply health_check_raises in H1 as [Hscan Hd].
    destruct (health_check_raises_again w1 e1) as (w2' & Hrun & Hd2).
    { rewrite Hd. by apply (scan_tasks_raises_again _ _ w). }
    rewrite Hrun in H2. injection H2 as <- <-. auto.
Qed.

End Health.

(** ** The order of UTC stamps *)

Lemma string_append_assoc (a b c : string) : (a +:+ b) +:+ c = a +:+ (b +:+ c).
Proof.
  induction a as [|x a IH]; [reflexivity|].
  change (String x ((a +:+ b) +:+ c) = String x (a +:+ (b +:+ c))). by f_equal.
Qed.

Lemma string_append_cons (c : ascii) (a b : string) : String c a +:+ b = String c (a +:+ b).
Proof. reflexivity. Qed.

Lemma string_compare_cons (c c' : ascii) (a b : string) :
  String.compare (String c a) (String c' b)
  = match Ascii.compare c c' with
    | Eq => String.compare a b
    | Lt => Lt
    | Gt => Gt
    end.
Proof. reflexivity. Qed.

Lemma ascii_compare_refl (c : ascii) : Ascii.compare c c = Eq.
Proof. unfold Ascii.compare. apply N.compare_refl. Qed.

(** A common prefix does not count. *)
Lemma compare_common_prefix (p x y : string) :
  String.compare (p +:+ x) (p +:+ y) = String.compare x y.
Proof.
  induction p as [|c p IH]; [reflexivity|].
  by rewrite !string_append_cons, string_compare_cons, ascii_compare_refl.
Qed.

(** Between strings of one length the order is settled before their ends. *)
Lemma compare_lt_extend (a b x y : string) :
  String.length a = String.length b ->
  String.compare a b = Lt -> String.compare (a +:+ x) (b +:+ y) = Lt.
Proof.
  revert b. induction a as [|c a IH]; intros [|c' b]; try discriminate.
  rewrite !string_append_cons, !string_compare_cons. intros [= Hlen].
  destruct (Ascii.compare c c'); auto.
Qed.

Lemma digit_lt (m n : Z) :
  m mod 10 < n mod 10 -> Ascii.compare (UTC.digit m) (UTC.digit n) = Lt.
Proof.
  unfold UTC.digit.
  pose proof (Z.mod_pos_bound m 10 eq_refl) as Hm.
  pose proof (Z.mod_pos_bound n 10 eq_refl) as Hn.
  intros Hlt.
  assert (Hcm : m mod 10 = 0 \/ m mod 10 = 1 \/ m mod 10 = 2 \/ m mod 10 = 3 \/ m mod 10 = 4 \/
                m mod 10 = 5 \/ m mod 10 = 6 \/ m mod 10 = 7 \/ m mod 10 = 8 \/ m mod 10 = 9)
    by lia.
  assert (Hcn : n mod 10 = 0 \/ n mod 10 = 1 \/ n mod 10 = 2 \/ n mod 10 = 3 \/ n mod 10 = 4 \/
                n mod 10 = 5 \/ n mod 10 = 6 \/ n mod 10 = 7 \/ n mod 10 = 8 \/ n mod 10 = 9)
    by lia.
  repeat (destruct Hcm as [Hcm | Hcm]); rewrite Hcm in *;
    repeat (destruct Hcn as [Hcn | Hcn]); rewrite Hcn in *;
    first [reflexivity | lia].
Qed.

Lemma pad_append (width : nat) :
  forall (n : Z) (acc : string),
    UTC.pad width n acc = UTC.pad width n EmptyString +:+ acc.
Proof.
  induction width as [|width IH]; intros n acc; cbn [UTC.pad]; [reflexivity|].
  rewrite (IH _ (String _ acc)), (IH _ (String _ EmptyString)), string_append_assoc.
  reflexivity.
Qed.

Lemma string_append_length (a b : string) :
  String.length (a +:+ b) = (String.length a + String.length b)%nat.
Proof.
  induction a as [|c a IH]; [reflexivity|].
  rewrite string_append_cons. cbn [String.length]. by rewrite IH.
Qed.

Lemma pad_length (width : nat) (n : Z) :
  String.length (UTC.pad width n EmptyString) = width.
Proof.
  revert n. induction width as [|width IH]; intros n; cbn [UTC.pad]; [reflexivity|].
  rewrite pad_append, string_append_length, IH. cbn [String.length]. lia.
Qed.

(** Zero-padded numbers of one width sort as the numbers do. *)
Lemma pad_lt (width : nat) :
  forall m n : Z,
    0 <= m < n -> n < 10 ^ Z.of_nat width ->
    String.compare (UTC.pad width m EmptyString) (UTC.pad width n EmptyString) = Lt.
Proof.
  induction width as [|width IH]; intros m n Hmn Hn.
  - cbn in Hn. lia.
  - cbn [UTC.pad]. rewrite (pad_append _ _ (String (UTC.digit m) _)),
      (pad_append _ _ (String (UTC.digit n) _)).
    rewrite Nat2Z.inj_succ, Z.pow_succ_r in Hn by lia.
    destruct (Z.eq_dec (m / 10) (n / 10)) as [Heq | Hne].
    + rewrite Heq, compare_common_prefix, string_compare_cons.
      rewrite digit_lt; [reflexivity|].
      pose proof (Z.div_mod m 10). pose proof (Z.div_mod n 10). lia.
    + apply compare_lt_extend; [by rewrite !pad_length|].
      apply IH.
      * pose proof (Z.div_le_mono m n 10). 
        assert (0 <= m / 10) by (apply Z.div_pos; lia). lia.
      * apply Z.div_lt_upper_bound; lia.
Qed.

(** *** Dates *)

Lemma year_start_mono (y1 y2 : Z) : y1 <= y2 -> year_start y1 <= year_start y2.
Proof. unfold year_start. intros H. Z.div_mod_to_equations. lia. Qed.

(** The year computed for day [doe] of an era is the one that holds it. *)
Lemma year_of_era_holds (doe : Z) :
  0 <= doe < 146097 ->
  let yoe := (doe - doe / 1460 + doe / 36524 - doe / 146096) / 365 in
  0 <= yoe <= 399 /\ year_start yoe <= doe <= year_start yoe + 365 /\
  (doe < year_start (yoe + 1) \/ yoe = 399).
Proof.
  intros H. cbv zeta. unfold year_start. Z.div_mod_to_equations. lia.
Qed.

(** Month (counted from March) and day of day [doy] of such a year. *)
Lemma month_of_year_holds (doy : Z) :
  0 <= doy <= 365 ->
  let mp := (5 * doy + 2) / 153 in
  0 <= mp <= 11 /\ 1 <= doy - (153 * mp + 2) / 5 + 1 <= 31.
Proof. intros H. cbv zeta. Z.div_mod_to_equations. lia. Qed.

Lemma month_of_year_mono (doy1 doy2 : Z) :
  0 <= doy1 <= doy2 -> (5 * doy1 + 2) / 153 <= (5 * doy2 + 2) / 153.
Proof. intros H. Z.div_mod_to_equations. lia. Qed.

(** A later day is a later date. *)
Lemma civil_from_days_mono (a b : Z) :
  a < b -> date_key (UTC.civil_from_days a) < date_key (UTC.civil_from_days b).
Proof.
  intros Hab. unfold UTC.civil_from_days. cbv zeta.
  set (za := a + 719468). set (zb := b + 719468).
  set (ea := za / 146097). set (eb := zb / 146097).
  set (da := za - ea * 146097). set (db := zb - eb * 146097).
  assert (Hda : 0 <= da < 146097) by (subst da ea; Z.div_mod_to_equations; lia).
  assert (Hdb : 0 <= db < 146097) by (subst db eb; Z.div_mod_to_equations; lia).
  pose proof (year_of_era_holds da Hda) as Hya. pose proof (year_of_era_holds db Hdb) as Hyb.
  cbv zeta in Hya, Hyb.
  set (ya := (da - da / 1460 + da / 36524 - da / 146096) / 365) in *.
  set (yb := (db - db / 1460 + db / 36524 - db / 146096) / 365) in *.
  fold (year_start ya). fold (year_start yb).
  set (doya := da - year_start ya). set (doyb := db - year_start yb).
  assert (Hdoya : 0 <= doya <= 365) by (subst doya; lia).
  assert (Hdoyb : 0 <= doyb <= 365) by (subst doyb; lia).
  pose proof (month_of_year_holds doya Hdoya) as Hma.
  pose proof (month_of_year_holds doyb Hdoyb) as Hmb.
  cbv zeta in Hma, Hmb.
  pose proof (month_of_year_mono doya doyb) as Hmono.
  pose proof (year_start_mono (yb + 1) ya) as Hstart.
  set (mpa := (5 * doya + 2) / 153) in *. set (mpb := (5 * doyb + 2) / 153) in *.
  set (qa := (153 * mpa + 2) / 5) in *. set (qb := (153 * mpb + 2) / 5) in *.
  assert (Hz : za < zb) by (subst za zb; lia).
  assert (Eda : da = za - ea * 146097) by reflexivity.
  assert (Edb : db = zb - eb * 146097) by reflexivity.
  assert (Edoya : doya = da - year_start ya) by reflexivity.
  assert (Edoyb : doyb = db - year_start yb) by reflexivity.
  assert (Esame : ya = yb -> year_start ya = year_start yb) by (by intros ->).
  assert (Eq : mpa = mpb -> qa = qb) by (subst qa qb; by intros ->).
  clearbody za zb ea eb da db ya yb doya doyb mpa mpb qa qb.
  unfold date_key.
  destruct (Z.ltb_spec mpa 10), (Z.ltb_spec mpb 10);
    repeat match goal with
           | |- context [?x <=? 2] => destruct (Z.leb_spec x 2)
           end; lia.
Qed.

(** Month and day of any day are those of a calendar. *)
Lemma civil_from_days_range (days : Z) :
  let '(_, m, d) := UTC.civil_from_days days in 1 <= m <= 12 /\ 1 <= d <= 31.
Proof.
  unfold UTC.civil_from_days. cbv zeta.
  set (z := days + 719468). set (era := z / 146097). set (doe := z - era * 146097).
  assert (Hdoe : 0 <= doe < 146097) by (subst doe era; Z.div_mod_to_equations; lia).
  pose proof (year_of_era_holds doe Hdoe) as Hy. cbv zeta in Hy.
  set (yoe := (doe - doe / 1460 + doe / 36524 - doe / 146096) / 365) in *.
  fold (year_start yoe). set (doy := doe - year_start yoe).
  assert (Hdoy : 0 <= doy <= 365) by (subst doy; lia).
  pose proof (month_of_year_holds doy Hdoy) as Hm. cbv zeta in Hm.
  set (mp := (5 * doy + 2) / 153) in *.
  destruct (Z.ltb_spec mp 10); lia.
Qed.

(** Days of the years 1 to 9999. *)
Lemma civil_from_days_year (days : Z) :
  -719162 <= days < 2932897 ->
  let '(y, _, _) := UTC.civil_from_days days in 1 <= y <= 9999.
Proof.
  intros Hdays.
  pose proof (civil_from_days_range days) as Hr.
  assert (Hlo : date_key (UTC.civil_from_days (-719162)) <= date_key (UTC.civil_from_days days)).
  { destruct (Z.eq_dec days (-719162)) as [-> | Hne]; [lia|].
    apply Z.lt_le_incl, civil_from_days_mono. lia. }
  assert (Hhi : date_key (UTC.civil_from_days days) <= date_key (UTC.civil_from_days 2932896)).
  { destruct (Z.eq_dec days 2932896) as [-> | Hne]; [lia|].
    apply Z.lt_le_incl, civil_from_days_mono. lia. }
  change (UTC.civil_from_days (-719162)) with (1, 1, 1) in Hlo.
  change (UTC.civil_from_days 2932896) with (9999, 12, 31) in Hhi.
  destruct (UTC.civil_from_days days) as [[y m] d]. unfold date_key in *. lia.
Qed.

(** *** Stamps *)

(** Three zero-padded fields sort as the triple of their numbers. *)
Lemma fields_lt (w1 w2 w3 : nat) (sep1 sep2 : string) (a1 a2 a3 b1 b2 b3 : Z) (x y : string) :
  0 <= a1 -> 0 <= a2 -> 0 <= a3 ->
  b1 < 10 ^ Z.of_nat w1 -> b2 < 10 ^ Z.of_nat w2 -> b3 < 10 ^ Z.of_nat w3 ->
  a1 < b1 \/ (a1 = b1 /\ (a2 < b2 \/ (a2 = b2 /\ a3 < b3))) ->
  String.compare
    (UTC.pad w1 a1 (sep1 +:+ UTC.pad w2 a2 (sep2 +:+ UTC.pad w3 a3 x)))
    (UTC.pad w1 b1 (sep1 +:+ UTC.pad w2 b2 (sep2 +:+ UTC.pad w3 b3 y))) = Lt.
Proof.
  intros Ha1 Ha2 Ha3 Hb1 Hb2 Hb3 Hlt.
  rewrite (pad_append w3 a3), (pad_append w3 b3), (pad_append w2 a2), (pad_append w2 b2),
    (pad_append w1 a1), (pad_append w1 b1).
  destruct Hlt as [H1 | [<- [H2 | [<- H3]]]].
  - apply compare_lt_extend; [by rewrite !pad_length | by apply pad_lt].
  - rewrite !compare_common_prefix.
    apply compare_lt_extend; [by rewrite !pad_length | by apply pad_lt].
  - rewrite !compare_common_prefix.
    apply compare_lt_extend; [by rewrite !pad_length | by apply pad_lt].
Qed.

Lemma fields_append (w1 w2 w3 : nat) (sep1 sep2 : string) (a1 a2 a3 : Z) (x r : string) :
  UTC.pad w1 a1 (sep1 +:+ UTC.pad w2 a2 (sep2 +:+ UTC.pad w3 a3 x)) +:+ r
  = UTC.pad w1 a1 (sep1 +:+ UTC.pad w2 a2 (sep2 +:+ UTC.pad w3 a3 (x +:+ r))).
Proof.
  rewrite (pad_append w3 a3 x), (pad_append w3 a3 (x +:+ r)).
  rewrite (pad_append w2 a2 (sep2 +:+ _ +:+ x)), (pad_append w2 a2 (sep2 +:+ _ +:+ x +:+ r)).
  rewrite (pad_append w1 a1 (sep1 +:+ _ +:+ sep2 +:+ _ +:+ x)),
    (pad_append w1 a1 (sep1 +:+ _ +:+ sep2 +:+ _ +:+ x +:+ r)).
  by rewrite !string_append_assoc.
Qed.

(** The fraction of a second and what follows it: the earlier reading's
    stamp, with its [Z], against the later reading. *)
Lemma fraction_lt (ma mb : Z) :
  0 <= ma < mb -> mb < 1000000 ->
  String.compare
    ((if ma =? 0 then EmptyString else "." +:+ UTC.pad 6 ma EmptyString) +:+ "+00:00" +:+ "Z")
    ((if mb =? 0 then EmptyString else "." +:+ UTC.pad 6 mb EmptyString) +:+ "+00:00") = Lt.
Proof.
  intros Hm Hb.
  destruct (Z.eqb_spec mb 0) as [-> | _]; [lia|].
  destruct (Z.eqb_spec ma 0) as [-> | Hne].
  - reflexivity.
  - rewrite !string_append_cons, string_compare_cons, ascii_compare_refl.
    change (EmptyString +:+ ?s) with s.
    apply compare_lt_extend; [by rewrite !pad_length | apply pad_lt; lia].
Qed.

(** A stamp written at a reading sorts before every later reading. *)
Lemma utc_stamp_sorts_before (a b : Z) :
  -62135596800000000 <= a -> a < b -> b < 253402300800000000 ->
  str_le (UTC.iso a +:+ "Z") (UTC.iso b) = true.
Proof.
  intros Hlo Hab Hhi.
  unfold str_le, String.leb.
  enough (H : String.compare (UTC.iso a +:+ "Z") (UTC.iso b) = Lt) by (by rewrite H).
  unfold UTC.iso, UTC.ymd. cbv zeta.
  set (da := a / 86400000000). set (db := b / 86400000000).
  set (ua := a mod 86400000000). set (ub := b mod 86400000000).
  set (sa := ua / 1000000). set (sb := ub / 1000000).
  set (ma := ua mod 1000000). set (mb := ub mod 1000000).
  assert (Hua : 0 <= ua < 86400000000) by (apply Z.mod_pos_bound; lia).
  assert (Hub : 0 <= ub < 86400000000) by (apply Z.mod_pos_bound; lia).
  assert (Hsa : 0 <= sa < 86400) by (subst sa; Z.div_mod_to_equations; lia).
  assert (Hsb : 0 <= sb < 86400) by (subst sb; Z.div_mod_to_equations; lia).
  assert (Hma : 0 <= ma < 1000000) by (apply Z.mod_pos_bound; lia).
  assert (Hmb : 0 <= mb < 1000000) by (apply Z.mod_pos_bound; lia).
  assert (Hda : -719162 <= da < 2932897) by (subst da; Z.div_mod_to_equations; lia).
  assert (Hdb : -719162 <= db < 2932897) by (subst db; Z.div_mod_to_equations; lia).
  assert (Horder : da < db \/ (da = db /\ (sa < sb \/ (sa = sb /\ ma < mb)))).
  { subst da db sa sb ma mb ua ub. Z.div_mod_to_equations. lia. }
  pose proof (civil_from_days_range da) as Hra. pose proof (civil_from_days_range db) as Hrb.
  pose proof (civil_from_days_year da Hda) as Hya. pose proof (civil_from_days_year db Hdb) as Hyb.
  pose proof (civil_from_days_mono da db) as Hdays.
  clearbody da db.
  destruct (UTC.civil_from_days da) as [[y1 m1] d1] eqn:Ea.
  destruct (UTC.civil_from_days db) as [[y2 m2] d2] eqn:Eb.
  unfold date_key in Hdays.
  rewrite !string_append_assoc.
  destruct Horder as [Hd | [Hd Hrest]].
  - rewrite !fields_append. apply fields_lt; lia.
  - subst db. rewrite Ea in Eb. injection Eb as <- <- <-.
    rewrite !compare_common_prefix.
    destruct Hrest as [Hs | [Hs Hm]].
    + rewrite !fields_append. apply fields_lt; simpl; Z.div_mod_to_equations; lia.
    + rewrite <- Hs, compare_common_prefix. apply fraction_lt; lia.
Qed.

(** C5: the health check is idempotent.  Of two runs in succession, every
    clock reading of the second run's scan later than the readings of the
    first run (years 1 to 9999), the second leaves the store as the first
    left it: where the first returns its report, the second returns one with
    an empty list of repairs; where the first raises, the second raises the
    same and, like the first, writes nothing. *)
Theorem health_check_idempotent (w w1 w2 : World) (r1 r2 : result health_report) :
  run (Phase2.health_check (DT := UTC.datetime)) w = (w1, r1) ->
  run (Phase2.health_check (DT := UTC.datetime)) w1 = (w2, r2) ->
  (forall i j : nat,
     (tick w <= i < tick w1)%nat ->
     (tick w1 <= j < tick w1 + length (tasks (disk w)))%nat ->
     -62135596800000000 <= clock w i /\ clock w i < clock w j /\
     clock w j < 253402300800000000) ->
  disk w2 = disk w1 /\
  match r1, r2 with
  | Ok _, Ok report => auto_fixes report = []
  | Err e1, Err e2 => e1 = e2
  | _, _ => False
  end.
Proof.
  intros H1 H2 Hclock.
  apply (health_check_twice (DT := UTC.datetime) w w1 w2 r1 r2 H1 H2).
  intros i j Hi Hj. destruct (Hclock i j Hi Hj) as (Hlo & Hlt & Hhi).
  by apply utc_stamp_sorts_before.
Qed.

Lemma health_check_idempotent_witness :
  let health_check := Phase2.health_check (DT := UTC.datetime) in
  let w := Sample.world Sample.store_broken in
  let w1 := fst (run health_check w) in
  let w2 := fst (run health_check w1) in
  match snd (run health_check w) with
  | Ok r1 => length (auto_fixes r1) = 4%nat
  | Err _ => False
  end /\
  disk w2 = disk w1 /\
  match snd (run health_check w), snd (run health_check w1) with
  | Ok _, Ok report => auto_fixes report = []
  | Err e1, Err e2 => e1 = e2
  | _, _ => False
  end.
Proof.
  cbv zeta.
  set (w := Sample.world Sample.store_broken).
  set (res := run (Phase2.health_check (DT := UTC.datetime)) w).
  set (res2 := run (Phase2.health_check (DT := UTC.datetime)) (fst res)).
  split; [vm_compute; reflexivity|].
  apply (health_check_idempotent w (fst res) (fst res2) (snd res) (snd res2)
           (surjective_pairing res) (surjective_pairing res2)).
  intros i j Hi Hj.
  assert (Hi' : (i < 8)%nat) by exact (proj2 Hi).
  assert (Hj' : (8 <= j < 12)%nat) by exact Hj.
  change (clock w i) with (1700000000000000 + 1000 * Z.of_nat i).
  change (clock w j) with (1700000000000000 + 1000 * Z.of_nat j).
  clear Hi Hj. lia.
Defined.

(** ** A health check that raises *)

Section HealthRaises.
Context `{DT : Datetime}.

(** When the health check raises (a field of the wrong type, a zero
    estimate under logged minutes), it has written nothing: neither the
    store nor the WAL. *)
Theorem health_check_raise_writes_nothing (w w1 : World) (e : error) :
  run Phase2.health_check w = (w1, Err e) ->
  disk w1 = disk w /\ wal w1 = wal w.
Proof.
  unfold Phase2.health_check, load_store. cbn [bind run]. rewrite run_bind.
  pose proof (clock_only_run _ (scan_tasks_clock_only (tasks (disk w))) w) as Hkeep.
  destruct (run (Phase2.scan_tasks (tasks (disk w))) w) as [ws [[[ts i] f]|e']].
  - destruct f; run_simpl; discriminate.
  - intros [= <- <-]. exact Hkeep.
Qed.

End HealthRaises.

Lemma health_check_raise_writes_nothing_witness :
  let w := Sample.world
             (mkStore [] [<["estimate_minutes" := VInt 0]>
                            (<["actual_minutes" := VInt 5]> (Sample.task_t1 "pending" 0))]) in
  run (Phase2.health_check (DT := UTC.datetime)) w = (w, Err ZeroDivisionError) /\
  disk w = disk w /\ wal w = wal w.
Proof.
  cbv zeta. split; [reflexivity|].
  eapply (health_check_raise_writes_nothing (DT := UTC.datetime)). reflexivity.
Defined.

(** The condition on the clock in [health_check_idempotent] is needed: the
    stamp written is the reading followed by ["Z"], which sorts after the
    bare reading it is later compared with.  At a clock that returns the same
    reading throughout, a completed task without a date is stamped by check 3,
    flagged as dated in the future by check 5 of the same pass, and repaired
    again by the next pass. *)
Remark health_check_same_reading_repairs_again :
  let health_check := Phase2.health_check (DT := UTC.datetime) in
  let w := mkWorld (mkStore [] [Sample.task_numbered 2 "completed" None]) ∅ None []
                   (fun _ => 1700000000000000) 0 Sample.uuid 0 in
  (snd (run health_check w)
   = Ok (mkHealth [InconsistentCompletion (VStr "t2");
                   BadDate (VStr "t2") (VStr "2023-11-14T22:13:20+00:00Z")]
                  [AddedCompletedAt (VStr "t2"); ResetCompletedAt (VStr "t2")])) /\
  (snd (run health_check (fst (run health_check w)))
   = Ok (mkHealth [BadDate (VStr "t2") (VStr "2023-11-14T22:13:20+00:00Z")]
                  [ResetCompletedAt (VStr "t2")])).
Proof. cbv zeta. split; vm_compute; reflexivity. Qed.

(** * Further properties of the commands *)

(** ** Looking up after an update *)

Lemma find_task_from_first (ts : list dict) (task_id : string) :
  forall (k i : nat) (task : dict),
    find_task_from k ts task_id = Ok (Some (i, task)) ->
    forall j t, (j < i - k)%nat -> ts !! j = Some t ->
      exists v, t !! "id" = Some v /\ py_eq_str v task_id = false.
Proof.
  induction ts as [|t0 rest IH]; intros k i task; cbn [find_task_from]; [discriminate|].
  unfold getitem. destruct (t0 !! "id") as [v|] eqn:Hid; cbn [result_bind]; [|discriminate].
  destruct (py_eq_str v task_id) eqn:Heq.
  - intros [= <- <-] j t Hj. lia.
  - intros Hrest j t Hj Hlk.
    pose proof (find_task_from_lookup _ _ _ _ _ Hrest) as (Hle & _).
    destruct j as [|j]; cbn in Hlk.
    + injection Hlk as <-. eauto.
    + eapply (IH (S k) i task Hrest j t); [lia | exact Hlk].
Qed.

Lemma find_task_from_none (ts : list dict) (task_id : string) :
  forall k : nat,
    find_task_from k ts task_id = Ok None ->
    forall j t, ts !! j = Some t ->
      exists v, t !! "id" = Some v /\ py_eq_str v task_id = false.
Proof.
  induction ts as [|t0 rest IH]; intros k; cbn [find_task_from].
  - intros _ j t Hlk. destruct j; discriminate.
  - unfold getitem. destruct (t0 !! "id") as [v|] eqn:Hid; cbn [result_bind]; [|discriminate].
    destruct (py_eq_str v task_id) eqn:Heq; [discriminate|].
    intros Hrest [|j] t Hlk; cbn in Hlk.
    + injection Hlk as <-. eauto.
    + by eapply IH.
Qed.

Lemma find_task_from_error (ts : list dict) (task_id : string) (e : error) :
  forall k : nat,
    find_task_from k ts task_id = Err e ->
    e = KeyError "id" /\
    exists j t, ts !! j = Some t /\ t !! "id" = None /\
      forall j' t', (j' < j)%nat -> ts !! j' = Some t' ->
        exists v, t' !! "id" = Some v /\ py_eq_str v task_id = false.
Proof.
  induction ts as [|t0 rest IH]; intros k; cbn [find_task_from]; [discriminate|].
  unfold getitem. destruct (t0 !! "id") as [v|] eqn:Hid; cbn [result_bind].
  - destruct (py_eq_str v task_id) eqn:Heq; [discriminate|].
    intros Hrest. destruct (IH _ Hrest) as (He & j & t & Hlk & Hnone & Hbefore).
    split; [exact He|]. exists (S j), t. split; [exact Hlk|]. split; [exact Hnone|].
    intros [|j'] t' Hj' Hlk'; cbn in Hlk'.
    + injection Hlk' as <-. eauto.
    + apply (Hbefore j' t'); [lia | exact Hlk'].
  - intros [= <-]. split; [reflexivity|]. exists 0%nat, t0. split; [reflexivity|].
    split; [exact Hid|]. intros j' t' Hj'. lia.
Qed.

(** What a lookup by id returns is the first task that carries the id.  A
    task found has only tasks of other ids before it; a lookup that finds
    nothing has seen a different id on every task; and the lookup raises
    [KeyError] exactly at a task without an ["id"] that comes before any
    match. *)
Theorem find_task_by_id_first_match (data : Store) (task_id : string) :
  (forall i task,
     find_task_by_id data task_id = Ok (Some (i, task)) ->
     tasks data !! i = Some task /\
     (exists v, task !! "id" = Some v /\ py_eq_str v task_id = true) /\
     forall j t, (j < i)%nat -> tasks data !! j = Some t ->
       exists v, t !! "id" = Some v /\ py_eq_str v task_id = false) /\
  (find_task_by_id data task_id = Ok None ->
     forall j t, tasks data !! j = Some t ->
       exists v, t !! "id" = Some v /\ py_eq_str v task_id = false) /\
  (forall e,
     find_task_by_id data task_id = Err e ->
     e = KeyError "id" /\
     exists j t, tasks data !! j = Some t /\ t !! "id" = None /\
       forall j' t', (j' < j)%nat -> tasks data !! j' = Some t' ->
         exists v, t' !! "id" = Some v /\ py_eq_str v task_id = false).
Proof.
  unfold find_task_by_id. split; [|split].
  - intros i task Hfind.
    pose proof (find_task_from_lookup _ _ _ _ _ Hfind) as (_ & Hlk & Hid).
    rewrite Nat.sub_0_r in Hlk. split; [exact Hlk|]. split; [exact Hid|].
    intros j t Hj. apply (find_task_from_first _ _ _ _ _ Hfind). lia.
  - apply find_task_from_none.
  - intros e. apply find_task_from_error.
Qed.

(** Writing a task back through the reference and looking its id up again
    returns what was written, at the same place, when the id was not changed. *)
Lemma find_task_from_set (ts : list dict) (task_id : string) (new : dict) :
  forall (k i : nat) (old : dict),
    find_task_from k ts task_id = Ok (Some (i, old)) ->
    new !! "id" = old !! "id" ->
    find_task_from k (<[(i - k)%nat := new]> ts) task_id = Ok (Some (i, new)).
Proof.
  induction ts as [|t0 rest IH]; intros k i old; cbn [find_task_from]; [discriminate|].
  unfold getitem. destruct (t0 !! "id") as [v|] eqn:Hid; cbn [result_bind]; [|discriminate].
  destruct (py_eq_str v task_id) eqn:Heq.
  - intros [= <- <-] Hnew. rewrite Nat.sub_diag. cbn [insert list_insert find_task_from].
    unfold getitem. rewrite Hnew, Hid. cbn [result_bind]. by rewrite Heq.
  - intros Hrest Hnew.
    pose proof (find_task_from_lookup _ _ _ _ _ Hrest) as (Hle & _).
    replace (i - k)%nat with (S (i - S k)) by lia.
    cbn [insert list_insert find_task_from]. unfold getitem. rewrite Hid. cbn [result_bind].
    rewrite Heq. by apply (IH (S k) i old).
Qed.

Lemma find_task_by_id_set (data : Store) (task_id : string) (i : nat) (old new : dict) :
  find_task_by_id data task_id = Ok (Some (i, old)) ->
  new !! "id" = old !! "id" ->
  find_task_by_id (set_task data i new) task_id = Ok (Some (i, new)).
Proof.
  unfold find_task_by_id, set_task. cbn [tasks]. intros Hfind Hnew.
  pose proof (find_task_from_set _ _ new _ _ _ Hfind Hnew) as H.
  by rewrite Nat.sub_0_r in H.
Qed.

Lemma find_task_from_app (ts more : list dict) (task_id : string) :
  forall k : nat,
    find_task_from k (ts ++ more) task_id
    = match find_task_from k ts task_id with
      | Ok None => find_task_from (k + length ts) more task_id
      | r => r
      end.
Proof.
  induction ts as [|t0 rest IH]; intros k; cbn [app find_task_from length].
  - by rewrite Nat.add_0_r.
  - destruct (getitem t0 "id") as [v|e]; cbn [result_bind]; [|reflexivity].
    destruct (py_eq_str v task_id); [reflexivity|].
    rewrite IH. by replace (S k + length rest)%nat with (k + S (length rest))%nat by lia.
Qed.

(** ** Ids that are not there *)

Section Lookups.
Context `{DT : Datetime}.

(** A task id that no task carries: every command on a task, of both
    scripts, ends with TaskNotFound and has touched nothing, not even the
    clock or the WAL. *)
Theorem unknown_task_changes_nothing (w : World) (task_id : string) :
  find_task_by_id (disk w) task_id = Ok None ->
  (forall progress, run (Phase1.mark_progress task_id progress) w = (w, Err TaskNotFound)) /\
  (forall reason, run (Phase1.mark_blocked task_id reason) w = (w, Err TaskNotFound)) /\
  run (Phase1.unblock_task task_id) w = (w, Err TaskNotFound) /\
  run (Phase1.next_recurring task_id) w = (w, Err TaskNotFound) /\
  (forall progress notes,
     run (Phase2.mark_progress task_id progress notes) w = (w, Err TaskNotFound)) /\
  (forall minutes notes,
     run (Phase2.log_time task_id minutes notes) w = (w, Err TaskNotFound)) /\
  (forall reason, run (Phase2.mark_blocked task_id reason) w = (w, Err TaskNotFound)).
Proof.
  intros Hfind.
  unfold Phase1.mark_progress, Phase1.mark_blocked, Phase1.unblock_task,
    Phase1.next_recurring, Phase2.mark_progress, Phase2.log_time, Phase2.mark_blocked,
    load_store, require_task.
  run_simpl. rewrite Hfind. run_simpl. repeat split.
Qed.

(** A goal id that no goal carries: creating a recurring task and the
    velocity report end with GoalNotFound and have touched nothing. *)
Theorem unknown_goal_changes_nothing (w : World) (goal_id : string) :
  find_goal_by_id (disk w) (VStr goal_id) = Ok None ->
  (forall title recurring priority estimate,
     run (Phase1.create_recurring goal_id title recurring priority estimate) w
     = (w, Err GoalNotFound)) /\
  run (Phase1.show_velocity goal_id) w = (w, Err GoalNotFound).
Proof.
  intros Hfind.
  unfold Phase1.create_recurring, Phase1.show_velocity, load_store.
  run_simpl. rewrite Hfind. run_simpl. split; reflexivity.
Qed.

End Lookups.

Lemma unknown_task_changes_nothing_witness :
  let w := Sample.world (Sample.store_t1 "pending" 0) in
  run (Phase1.unblock_task (DT := UTC.datetime) "t9") w = (w, Err TaskNotFound) /\
  run (Phase2.log_time (DT := UTC.datetime) "t9" 5 "") w = (w, Err TaskNotFound).
Proof.
  cbv zeta.
  destruct (unknown_task_changes_nothing (DT := UTC.datetime)
              (Sample.world (Sample.store_t1 "pending" 0)) "t9" eq_refl)
    as (_ & _ & Hu & _ & _ & Hl & _).
  split; [exact Hu | exact (Hl 5 "")].
Defined.

Lemma unknown_goal_changes_nothing_witness :
  let w := Sample.world empty_store in
  run (Phase1.create_recurring (DT := UTC.datetime) "g1" "Review" "weekly" None None) w
  = (w, Err GoalNotFound).
Proof.
  cbv zeta.
  destruct (unknown_goal_changes_nothing (DT := UTC.datetime)
              (Sample.world empty_store) "g1" eq_refl) as [Hc _].
  exact (Hc "Review" "weekly" None None).
Defined.

(** ** Unblocking *)

Section Unblocking.
Context `{DT : Datetime}.

(** Unblocking puts a task of any status back to pending and sets its
    reason to null, whatever the status was before it was blocked: a task
    blocked and then unblocked ends pending, every field other than status,
    reason and [updated_at] as before the two commands. *)
Theorem unblock_task_returns_to_pending
        (w : World) (task_id reason : string) (i : nat) (task : dict) :
  find_task_by_id (disk w) task_id = Ok (Some (i, task)) ->
  let unblocked (old new : dict) :=
    new !! "status" = Some (VStr "pending") /\
    new !! "blocked_reason" = Some VNone /\
    forall k : string,
      k <> "status" -> k <> "blocked_reason" -> k <> "updated_at" -> new !! k = old !! k in
  (exists w1 t1,
     run (Phase1.unblock_task task_id) w = (w1, Ok t1) /\
     disk w1 = set_task (disk w) i t1 /\ unblocked task t1) /\
  (exists w2 t2,
     run (Phase1.unblock_task task_id) (fst (run (Phase1.mark_blocked task_id reason) w))
     = (w2, Ok t2) /\
     goals (disk w2) = goals (disk w) /\
     tasks (disk w2) = <[i := t2]> (tasks (disk w)) /\ unblocked task t2).
Proof.
  intros Hfind unblocked. subst unblocked. cbv beta. split.
  - unfold Phase1.unblock_task, load_store, require_task.
    run_simpl. rewrite Hfind. run_simpl.
    eexists _, _. split; [reflexivity|]. split; [reflexivity|].
    split; [by simplify_map_eq|]. split; [by simplify_map_eq|].
    intros k H1 H2 H3. by rewrite !lookup_insert_ne.
  - unfold Phase1.mark_blocked at 1, load_store, require_task.
    run_simpl. rewrite Hfind. run_simpl.
    unfold Phase1.unblock_task, load_store, require_task. run_simpl.
    erewrite find_task_by_id_set; [|exact Hfind|by rewrite !lookup_insert_ne].
    run_simpl.
    eexists _, _. split; [reflexivity|]. split; [reflexivity|].
    split; [unfold set_task; cbn [tasks]; by rewrite list_insert_insert_eq|].
    split; [by simplify_map_eq|]. split; [by simplify_map_eq|].
    intros k H1 H2 H3. by rewrite !lookup_insert_ne.
Qed.

End Unblocking.

Lemma unblock_task_returns_to_pending_witness :
  let w := Sample.world (Sample.store_done 100) in
  let w1 := fst (run (Phase1.mark_blocked (DT := UTC.datetime) "t1" "waiting") w) in
  exists w2 t2,
    run (Phase1.unblock_task (DT := UTC.datetime) "t1") w1 = (w2, Ok t2) /\
    t2 !! "status" = Some (VStr "pending") /\
    t2 !! "progress" = Some (VInt 100) /\
    t2 !! "completed_at" = Some (VStr "2020-01-01T00:00:00+00:00Z").
Proof.
  cbv zeta.
  destruct (unblock_task_returns_to_pending (DT := UTC.datetime)
              (Sample.world (Sample.store_done 100)) "t1" "waiting" 0
              (Sample.task_done 100) eq_refl)
    as (_ & w2 & t2 & Hrun & _ & _ & Hst & _ & Hframe).
  exists w2, t2. split; [exact Hrun|]. split; [exact Hst|].
  split; rewrite Hframe by done; reflexivity.
Defined.

(** ** Creating a recurring task *)

Section Creating.
Context `{DT : Datetime}.

(** The task [create_recurring] builds, from the token drawn and the two
    readings of the clock. *)
Lemma create_recurring_runs (w : World) (goal_id title recurring : string)
      (priority : option string) (estimate : option Z) (g : dict) :
  find_goal_by_id (disk w) (VStr goal_id) = Ok (Some g) ->
  exists t,
    run (Phase1.create_recurring goal_id title recurring priority estimate) w
    = (set_disk (mkStore (goals (disk w)) (tasks (disk w) ++ [t]))
         (set_tick (S (S (tick w))) (set_drawn (S (drawn w)) w)), Ok t) /\
    t !! "id" = Some (VStr ("task_" +:+ uuid_hex8 w (drawn w))) /\
    t !! "goal_id" = Some (VStr goal_id) /\
    t !! "title" = Some (VStr title) /\
    t !! "priority" = Some (VStr (Phase1.priority_or_medium priority)) /\
    t !! "status" = Some (VStr "pending") /\
    t !! "progress" = Some (VInt 0) /\
    t !! "recurring" = Some (VStr recurring) /\
    t !! "next_due_at" = Some (VStr (isoformat (clock w (tick w)) +:+ "Z")) /\
    t !! "created_at" = Some (VStr (isoformat (clock w (S (tick w))) +:+ "Z")) /\
    t !! "notes" = Some (VStr EmptyString) /\
    t !! "estimate_minutes" = VInt <$> estimate /\
    t !! "actual_minutes" = None /\
    t !! "completed_at" = None.
Proof.
  intros Hgoal.
  unfold Phase1.create_recurring, load_store. run_simpl. rewrite Hgoal. run_simpl.
  destruct estimate as [minutes|]; eexists; (split; [reflexivity|]);
    repeat split; by simplify_map_eq.
Qed.

(** Creating a recurring task under an existing goal appends one task to
    the store and changes nothing else in it: the task is pending at progress
    0, due at once, carries the estimate exactly when one was given (zero
    included) and the identifier drawn next from the generator. *)
Theorem create_recurring_appends_pending_task
        (w : World) (goal_id title recurring : string)
        (priority : option string) (estimate : option Z) (g : dict) :
  find_goal_by_id (disk w) (VStr goal_id) = Ok (Some g) ->
  exists w1 t,
    run (Phase1.create_recurring goal_id title recurring priority estimate) w = (w1, Ok t) /\
    goals (disk w1) = goals (disk w) /\
    tasks (disk w1) = tasks (disk w) ++ [t] /\
    drawn w1 = S (drawn w) /\
    t !! "id" = Some (VStr ("task_" +:+ uuid_hex8 w (drawn w))) /\
    t !! "goal_id" = Some (VStr goal_id) /\
    t !! "status" = Some (VStr "pending") /\
    t !! "progress" = Some (VInt 0) /\
    t !! "recurring" = Some (VStr recurring) /\
    t !! "next_due_at" = Some (VStr (isoformat (clock w (tick w)) +:+ "Z")) /\
    t !! "estimate_minutes" = VInt <$> estimate /\
    (priority = None \/ priority = Some EmptyString ->
       t !! "priority" = Some (VStr "medium")).
Proof.
  intros Hgoal.
  destruct (create_recurring_runs w goal_id title recurring priority estimate g Hgoal)
    as (t & Hrun & Hid & Hg & _ & Hp & Hst & Hpr & Hrec & Hdue & _ & _ & Hest & _).
  eexists _, t. split; [exact Hrun|]. world_simpl. cbn [goals tasks].
  repeat split; try assumption.
  intros [-> | ->]; exact Hp.
Qed.

(** A recurring task just created cannot be rolled over: its progress is 0,
    so the rollover is refused with IncompleteTask and the store stays as the
    creation left it. *)
Theorem created_task_is_not_yet_due_for_rollover
        (w : World) (goal_id title recurring : string)
        (priority : option string) (estimate : option Z) (g : dict) :
  find_goal_by_id (disk w) (VStr goal_id) = Ok (Some g) ->
  find_task_by_id (disk w) ("task_" +:+ uuid_hex8 w (drawn w)) = Ok None ->
  recurring <> "none" ->
  let w1 := fst (run (Phase1.create_recurring goal_id title recurring priority estimate) w) in
  run (Phase1.next_recurring ("task_" +:+ uuid_hex8 w (drawn w))) w1
  = (w1, Err (IncompleteTask (VInt 0))).
Proof.
  intros Hgoal Hfresh Hrec.
  destruct (create_recurring_runs w goal_id title recurring priority estimate g Hgoal)
    as (t & Hrun & Hid & _ & _ & _ & _ & Hpr & Hr & _).
  rewrite Hrun. cbv zeta. cbn [fst].
  unfold Phase1.next_recurring, load_store, require_task. run_simpl.
  unfold find_task_by_id in *. cbn [tasks].
  rewrite find_task_from_app, Hfresh. cbn [find_task_from].
  unfold getitem. rewrite Hid. cbn [result_bind].
  replace (py_eq_str _ _) with true
    by (symmetry; unfold py_eq_str; cbn [py_eq]; apply String.eqb_refl).
  run_simpl.
  rewrite (dict_get_Some _ _ _ _ Hr), Hr, (dict_get_Some _ _ _ _ Hpr).
  replace (py_eq_str (VStr recurring) "none") with false
    by (symmetry; unfold py_eq_str; cbn [py_eq]; by apply String.eqb_neq).
  rewrite bool_decide_true by eauto. reflexivity.
Qed.

End Creating.

Lemma create_recurring_appends_pending_task_witness :
  let w := Sample.world (Sample.store_t1 "pending" 0) in
  exists w1 t,
    run (Phase1.create_recurring (DT := UTC.datetime) "g1" "Review" "weekly" None (Some 0)) w
    = (w1, Ok t) /\
    tasks (disk w1) = [Sample.task_t1 "pending" 0; t] /\
    t !! "id" = Some (VStr "task_a1b2c3d0") /\
    t !! "estimate_minutes" = Some (VInt 0) /\
    t !! "priority" = Some (VStr "medium").
Proof.
  cbv zeta.
  destruct (create_recurring_appends_pending_task (DT := UTC.datetime)
              (Sample.world (Sample.store_t1 "pending" 0)) "g1" "Review" "weekly" None (Some 0)
              Sample.goal_g1 eq_refl)
    as (w1 & t & Hrun & _ & Htasks & _ & Hid & _ & _ & _ & _ & _ & Hest & Hprio).
  exists w1, t. split; [exact Hrun|]. split; [exact Htasks|]. split; [exact Hid|].
  split; [exact Hest|]. apply Hprio. by left.
Defined.

Lemma created_task_is_not_yet_due_for_rollover_witness :
  let w := Sample.world (Sample.store_t1 "pending" 0) in
  let w1 := fst (run (Phase1.create_recurring (DT := UTC.datetime)
                        "g1" "Review" "weekly" None None) w) in
  run (Phase1.next_recurring (DT := UTC.datetime) "task_a1b2c3d0") w1
  = (w1, Err (IncompleteTask (VInt 0))).
Proof.
  cbv zeta.
  apply (created_task_is_not_yet_due_for_rollover (DT := UTC.datetime)
           (Sample.world (Sample.store_t1 "pending" 0)) "g1" "Review" "weekly" None None
           Sample.goal_g1 eq_refl eq_refl).
  discriminate.
Defined.

(** ** Rolling over, again *)

Section RollingOver.
Context `{DT : Datetime}.

(** The successor is a copy of the task rolled over: apart from the six
    fields the rollover sets and the four it clears, every field (title,
    goal, recurrence, estimate, priority, notes, [updated_at], ...) is
    carried over; and the original keeps every field but status, progress
    and [completed_at]. *)
Theorem next_recurring_copies_the_task
        (w : World) (task_id : string) (i : nat) (task : dict) (r : value) :
  find_task_by_id (disk w) task_id = Ok (Some (i, task)) ->
  task !! "recurring" = Some r ->
  r <> VStr "none" ->
  py_lt (dict_get task "progress" (VInt 0)) (VInt 100) = Ok false ->
  exists w' done succ,
    run (Phase1.next_recurring task_id) w = (w', Ok (done, succ)) /\
    (forall k : string,
       k ∉ ["id"; "status"; "progress"; "created_at"; "actual_minutes"; "next_due_at";
            "completed_at"; "last_error"; "retry_count"; "blocked_reason"] ->
       succ !! k = task !! k) /\
    (forall k : string,
       k ∈ ["completed_at"; "last_error"; "retry_count"; "blocked_reason"] ->
       succ !! k = None) /\
    (forall k : string,
       k ∉ ["status"; "progress"; "completed_at"] -> done !! k = task !! k).
Proof.
  intros Hfind Hrec Hnone Hlt.
  destruct (next_recurring_accepted w task_id i task r Hfind Hrec Hnone Hlt)
    as (w' & Hrun & _ & _).
  exists w', (completed_original w task), (successor_of w r task).
  split; [exact Hrun|]. unfold successor_of, completed_original, Phase1.clear_completed_fields.
  split; [|split].
  - intros k Hk. rewrite !not_elem_of_cons in Hk.
    destruct Hk as (? & ? & ? & ? & ? & ? & ? & ? & ? & ? & _).
    rewrite !lookup_delete_ne by done. by rewrite !lookup_insert_ne.
  - intros k Hk. rewrite !elem_of_cons in Hk.
    destruct Hk as [-> | [-> | [-> | [-> | Hk]]]]; [..|by apply elem_of_nil in Hk].
    + rewrite !lookup_delete_ne by done. by rewrite lookup_delete_eq.
    + rewrite !lookup_delete_ne by done. by rewrite lookup_delete_eq.
    + rewrite !lookup_delete_ne by done. by rewrite lookup_delete_eq.
    + by rewrite lookup_delete_eq.
  - intros k Hk. rewrite !not_elem_of_cons in Hk. destruct Hk as (? & ? & ? & _).
    by rewrite !lookup_insert_ne.
Qed.

(** Rollover does not look at the status: a task already rolled over is
    rolled over again by a second call, which appends a second successor. *)
Theorem next_recurring_can_be_repeated
        (w : World) (task_id : string) (i : nat) (task : dict) (r : value) :
  find_task_by_id (disk w) task_id = Ok (Some (i, task)) ->
  task !! "recurring" = Some r ->
  r <> VStr "none" ->
  py_lt (dict_get task "progress" (VInt 0)) (VInt 100) = Ok false ->
  exists w1 done1 succ1 w2 done2 succ2,
    run (Phase1.next_recurring task_id) w = (w1, Ok (done1, succ1)) /\
    run (Phase1.next_recurring task_id) w1 = (w2, Ok (done2, succ2)) /\
    tasks (disk w2) = <[i := done2]> (tasks (disk w)) ++ [succ1; succ2] /\
    succ1 !! "status" = Some (VStr "pending") /\
    succ2 !! "status" = Some (VStr "pending") /\
    succ1 !! "id" = Some (VStr ("task_" +:+ uuid_hex8 w (drawn w))) /\
    succ2 !! "id" = Some (VStr ("task_" +:+ uuid_hex8 w (S (drawn w)))).
Proof.
  intros Hfind Hrec Hnone Hlt.
  destruct (next_recurring_accepted w task_id i task r Hfind Hrec Hnone Hlt)
    as (w1 & Hrun1 & Hdisk1 & Hdrawn1).
  pose proof (find_task_by_id_lookup _ _ _ _ Hfind) as [Hlk _].
  assert (Hi : (i < length (tasks (disk w)))%nat) by (by eapply lookup_lt_Some).
  assert (Hfind1 : find_task_by_id (disk w1) task_id
                   = Ok (Some (i, completed_original w task))).
  { rewrite Hdisk1. unfold find_task_by_id. cbn [tasks]. rewrite find_task_from_app.
    pose proof (find_task_by_id_set (disk w) task_id i task (completed_original w task) Hfind)
      as Hset.
    unfold find_task_by_id, set_task in Hset. cbn [tasks] in Hset.
    rewrite Hset; [reflexivity|].
    unfold completed_original. by rewrite !lookup_insert_ne. }
  destruct (next_recurring_accepted w1 task_id i (completed_original w task) r Hfind1)
    as (w2 & Hrun2 & Hdisk2 & _).
  { unfold completed_original. by rewrite !lookup_insert_ne. }
  { exact Hnone. }
  { unfold completed_original. by rewrite dict_get_insert_eq. }
  destruct (successor_fields w r task) as (Hid1 & Hst1 & _).
  destruct (successor_fields w1 r (completed_original w task)) as (Hid2 & Hst2 & _).
  assert (Hu : uuid_hex8 w1 = uuid_hex8 w).
  { apply (f_equal fst) in Hrun1. cbn [fst] in Hrun1. subst w1.
    unfold Phase1.next_recurring, load_store, require_task.
    run_simpl. rewrite Hfind. run_simpl.
    rewrite (dict_get_Some _ _ _ _ Hrec), Hrec.
    apply py_eq_str_false in Hnone. rewrite Hnone. cbn [orb negb].
    rewrite bool_decide_true by eauto. cbn [negb].
    rewrite Hlt. run_simpl.
    unfold getitem. rewrite !lookup_insert_ne by done. rewrite Hrec. run_simpl.
    reflexivity. }
  eexists w1, _, _, w2, _, _. split; [exact Hrun1|]. split; [exact Hrun2|].
  split.
  { rewrite Hdisk2, Hdisk1. cbn [tasks].
    rewrite insert_app_l by (by rewrite length_insert).
    rewrite list_insert_insert_eq. by rewrite <- app_assoc. }
  rewrite Hid2, Hdrawn1, Hu. repeat split; assumption.
Qed.

End RollingOver.

Lemma next_recurring_copies_the_task_witness :
  let w := Sample.world (Sample.store_recurring (VStr "weekly") 100) in
  exists w' done succ,
    run (Phase1.next_recurring (DT := UTC.datetime) "t1") w = (w', Ok (done, succ)) /\
    succ !! "title" = Some (VStr "Write tests") /\
    succ !! "goal_id" = Some (VStr "g1") /\
    succ !! "recurring" = Some (VStr "weekly").
Proof.
  cbv zeta.
  destruct (next_recurring_copies_the_task (DT := UTC.datetime)
              (Sample.world (Sample.store_recurring (VStr "weekly") 100)) "t1" 0
              (Sample.task_recurring (VStr "weekly") 100) (VStr "weekly")
              eq_refl eq_refl) as (w' & done & succ & Hrun & Hcopy & _);
    [discriminate | reflexivity |].
  exists w', done, succ. split; [exact Hrun|].
  repeat split; (rewrite Hcopy; [reflexivity|]);
    rewrite !not_elem_of_cons; repeat split; try discriminate; apply not_elem_of_nil.
Defined.

Lemma next_recurring_can_be_repeated_witness :
  let w := Sample.world (Sample.store_recurring (VStr "daily") 100) in
  exists w1 done1 succ1 w2 done2 succ2,
    run (Phase1.next_recurring (DT := UTC.datetime) "t1") w = (w1, Ok (done1, succ1)) /\
    run (Phase1.next_recurring (DT := UTC.datetime) "t1") w1 = (w2, Ok (done2, succ2)) /\
    tasks (disk w2) = [done2; succ1; succ2] /\
    succ1 !! "id" = Some (VStr "task_a1b2c3d0") /\
    succ2 !! "id" = Some (VStr "task_a1b2c3d1").
Proof.
  cbv zeta.
  destruct (next_recurring_can_be_repeated (DT := UTC.datetime)
              (Sample.world (Sample.store_recurring (VStr "daily") 100)) "t1" 0
              (Sample.task_recurring (VStr "daily") 100) (VStr "daily")
              eq_refl eq_refl)
    as (w1 & done1 & succ1 & w2 & done2 & succ2 & H1 & H2 & Ht & _ & _ & Hi1 & Hi2);
    [discriminate | reflexivity |].
  exists w1, done1, succ1, w2, done2, succ2. repeat split; assumption.
Defined.

(** ** Progress within the range *)

Section ProgressInRange.
Context `{DT : Datetime}.


End ProgressInRange.


(** ** Logging time in phase 2 *)

Ltac after_publish :=
  rewrite run_bind;
  match goal with
  | |- context [run (Phase2.publish ?d ?t ?ev ?tid) ?W] =>
      let Hd := fresh "Hd" in
      let Hw := fresh "Hw" in
      pose proof (publish_keeps d t ev tid W) as [Hd Hw];
      destruct (run (Phase2.publish d t ev tid) W) as [? [[]|?]];
      cbn [fst snd] in Hd, Hw
  end.


Section LoggingTime.
Context `{DT : Datetime}.

Lemma phase2_log_time_runs (w : World) (task_id : string) (minutes old : Z)
      (i : nat) (task : dict) :
  find_task_by_id (disk w) task_id = Ok (Some (i, task)) ->
  as_int (dict_get task "actual_minutes" (VInt 0)) = Some old ->
  let res := run (Phase2.log_time task_id minutes EmptyString) w in
  disk (fst res) = set_task (disk w) i (time_logged w (old + minutes) task) /\
  (forall e,
     py_gt (dict_get task "estimate_minutes" (VInt 0)) (VInt 0) = Err e ->
     exists e', snd res = Err e') /\
  exists file,
    wal_lines (fst res) file
    = wal_lines w file
      ++ [mkWal (isoformat (clock w (S (tick w)))) "TIME_LOG"
            (<["task_id" := VStr task_id]>
             (<["minutes_logged" := VInt minutes]>
              (<["old_total" := dict_get task "actual_minutes" (VInt 0)]>
               (<["new_total" := VInt (old + minutes)]>
                (<["timestamp" := VStr (isoformat (clock w (tick w)))]> ∅)))))].
Proof.
  intros Hfind Hold.
  unfold Phase2.log_time, load_store, require_task.
  run_simpl. rewrite Hfind. run_simpl.
  unfold py_add_int. rewrite Hold. run_simpl.
  unfold Phase2.add_notes. cbn [String.eqb]. run_simpl.
  rewrite !dict_get_insert_ne by done.
  assert (Hgt : py_gt (VInt (old + minutes)) (VInt 0) = Ok (0 <? old + minutes))
    by reflexivity.
  unfold time_logged. cbv zeta. rewrite !dict_get_insert_ne by done.
  destruct (py_eq_str (dict_get task "status" VNone) "pending") eqn:Hp; cbn [andb];
    [rewrite Hgt; run_simpl; destruct (0 <? old + minutes) eqn:Hpos|]; run_simpl.
  all: after_publish; world_simpl.
  all: rewrite ?dict_get_insert_ne by done.
  all: destruct (py_gt (dict_get task "estimate_minutes" (VInt 0)) (VInt 0))
         as [[|]|e0] eqn:Hest; run_simpl;
       try (destruct (py_truediv_check _ _) as [[]|?]; run_simpl).
  all: (split; [exact Hd|]).
  all: (split; [intros e' He'; first [discriminate | by eauto]|]).
  all: eexists; unfold wal_lines at 1; rewrite Hw; rewrite lookup_insert_eq; reflexivity.
Qed.

Lemma time_logged_fields (w : World) (total : Z) (task : dict) :
  time_logged w total task !! "actual_minutes" = Some (VInt total) /\
  (forall k : string,
     k <> "actual_minutes" -> k <> "status" -> k <> "updated_at" ->
     time_logged w total task !! k = task !! k) /\
  dict_get (time_logged w total task) "status" VNone
  = (if py_eq_str (dict_get task "status" VNone) "pending" && (0 <? total)
     then VStr "in_progress" else dict_get task "status" VNone).
Proof.
  unfold time_logged. cbv zeta. rewrite !dict_get_insert_ne by done.
  destruct (_ && _); repeat split;
    rewrite ?dict_get_insert_eq, ?dict_get_insert_ne by done; try reflexivity;
    try (by simplify_map_eq);
    intros k H1 H2 H3; by rewrite !lookup_insert_ne.
Qed.

(** Minutes logged add up, whatever their sign: after two [log_time]
    commands the task holds the earlier total plus both amounts, every field
    other than the total, the status and [updated_at] as before; the status
    has moved from pending to in_progress if one of the two totals was
    positive, and not otherwise.  This holds of the store whether or not the
    commands went on to raise after saving. *)
Theorem phase2_log_time_accumulates
        (w : World) (task_id : string) (a b old : Z) (i : nat) (task : dict) :
  find_task_by_id (disk w) task_id = Ok (Some (i, task)) ->
  as_int (dict_get task "actual_minutes" (VInt 0)) = Some old ->
  let w1 := fst (run (Phase2.log_time task_id a EmptyString) w) in
  let w2 := fst (run (Phase2.log_time task_id b EmptyString) w1) in
  exists t2,
    goals (disk w2) = goals (disk w) /\
    tasks (disk w2) = <[i := t2]> (tasks (disk w)) /\
    t2 !! "actual_minutes" = Some (VInt (old + a + b)) /\
    (forall k : string,
       k <> "actual_minutes" -> k <> "status" -> k <> "updated_at" -> t2 !! k = task !! k) /\
    dict_get t2 "status" VNone
    = (if py_eq_str (dict_get task "status" VNone) "pending"
          && ((0 <? old + a) || (0 <? old + a + b))
       then VStr "in_progress" else dict_get task "status" VNone).
Proof.
  intros Hfind Hold w1 w2.
  destruct (phase2_log_time_runs w task_id a old i task Hfind Hold) as (Hd1 & _).
  fold w1 in Hd1.
  set (t1 := time_logged w (old + a) task) in *.
  destruct (time_logged_fields w (old + a) task) as (Ha1 & Hk1 & Hs1). fold t1 in Ha1, Hk1, Hs1.
  assert (Hfind1 : find_task_by_id (disk w1) task_id = Ok (Some (i, t1))).
  { rewrite Hd1. apply (find_task_by_id_set (disk w) task_id i task t1 Hfind). by apply Hk1. }
  assert (Hold1 : as_int (dict_get t1 "actual_minutes" (VInt 0)) = Some (old + a)).
  { by rewrite (dict_get_Some _ _ _ _ Ha1). }
  destruct (phase2_log_time_runs w1 task_id b (old + a) i t1 Hfind1 Hold1) as (Hd2 & _).
  fold w2 in Hd2.
  destruct (time_logged_fields w1 (old + a + b) t1) as (Ha2 & Hk2 & Hs2).
  exists (time_logged w1 (old + a + b) t1).
  rewrite Hd2, Hd1. unfold set_task. cbn [goals tasks].
  split; [reflexivity|]. split; [by rewrite list_insert_insert_eq|].
  split; [exact Ha2|]. split.
  - intros k H1 H2 H3. rewrite Hk2 by done. by apply Hk1.
  - rewrite Hs2, Hs1.
    destruct (py_eq_str (dict_get task "status" VNone) "pending") eqn:Hp; cbn [andb orb].
    + destruct (0 <? old + a); cbn [orb]; [reflexivity|].
      rewrite Hp. reflexivity.
    + rewrite Hp. reflexivity.
Qed.

(** [log_time] reads the estimate only after it has saved: on a task whose
    estimate cannot be compared with a number (null, or a string) the command
    raises, and by then the WAL line is written and the store holds the new
    total. *)
Theorem phase2_log_time_raises_after_saving
        (w : World) (task_id : string) (minutes old : Z) (i : nat) (task : dict) (e : error) :
  find_task_by_id (disk w) task_id = Ok (Some (i, task)) ->
  as_int (dict_get task "actual_minutes" (VInt 0)) = Some old ->
  py_gt (dict_get task "estimate_minutes" (VInt 0)) (VInt 0) = Err e ->
  exists w1 e1 t1 file line,
    run (Phase2.log_time task_id minutes EmptyString) w = (w1, Err e1) /\
    tasks (disk w1) = <[i := t1]> (tasks (disk w)) /\
    t1 !! "actual_minutes" = Some (VInt (old + minutes)) /\
    wal_lines w1 file = wal_lines w file ++ [line] /\
    wal_event_type line = "TIME_LOG".
Proof.
  intros Hfind Hold Hest.
  destruct (phase2_log_time_runs w task_id minutes old i task Hfind Hold)
    as (Hd & Herr & file & Hwal).
  destruct (Herr e Hest) as [e1 He1].
  destruct (run (Phase2.log_time task_id minutes EmptyString) w) as [w1 r] eqn:Hrun.
  cbn [fst snd] in *. subst r.
  eexists w1, e1, _, file, _. split; [reflexivity|].
  rewrite Hd. split; [reflexivity|]. split; [|split; [exact Hwal|reflexivity]].
  apply time_logged_fields.
Qed.

End LoggingTime.

Lemma phase2_log_time_accumulates_witness :
  let w := Sample.world (Sample.store_t1 "pending" 0) in
  let w1 := fst (run (Phase2.log_time (DT := UTC.datetime) "t1" 30 EmptyString) w) in
  let w2 := fst (run (Phase2.log_time (DT := UTC.datetime) "t1" (-10) EmptyString) w1) in
  exists t2,
    tasks (disk w2) = [t2] /\
    t2 !! "actual_minutes" = Some (VInt 20) /\
    dict_get t2 "status" VNone = VStr "in_progress".
Proof.
  cbv zeta.
  destruct (phase2_log_time_accumulates (DT := UTC.datetime)
              (Sample.world (Sample.store_t1 "pending" 0)) "t1" 30 (-10) 0 0
              (Sample.task_t1 "pending" 0) eq_refl eq_refl)
    as (t2 & _ & Htasks & Hact & _ & Hst).
  exists t2. split; [exact Htasks|]. split; [exact Hact|]. exact Hst.
Defined.

Lemma phase2_log_time_raises_after_saving_witness :
  let task := <["estimate_minutes" := VNone]> (Sample.task_t1 "in_progress" 10) in
  let w := Sample.world (mkStore [Sample.goal_g1] [task]) in
  exists w1 e1 t1,
    run (Phase2.log_time (DT := UTC.datetime) "t1" 5 EmptyString) w = (w1, Err e1) /\
    tasks (disk w1) = [t1] /\
    t1 !! "actual_minutes" = Some (VInt 5).
Proof.
  cbv zeta.
  set (task := <["estimate_minutes" := VNone]> (Sample.task_t1 "in_progress" 10)).
  assert (Hfind : find_task_by_id (disk (Sample.world (mkStore [Sample.goal_g1] [task]))) "t1"
                  = Ok (Some (0%nat, task))) by reflexivity.
  destruct (phase2_log_time_raises_after_saving (DT := UTC.datetime)
              (Sample.world (mkStore [Sample.goal_g1] [task])) "t1" 5 0 0 task
              TypeError Hfind eq_refl eq_refl)
    as (w1 & e1 & t1 & file & line & Hrun & Htasks & Hact & _).
  exists w1, e1, t1. split; [exact Hrun|]. split; [exact Htasks | exact Hact].
Defined.

(** ** What the health check changes *)


Section HealthFrame.
Context `{DT : Datetime}.


Lemma scan_ok_insert (t : dict) (s : Phase2.scan) (k : string) (v : value)
      (i : issue) (r : repair) :
  scan_ok t s -> k ∈ repaired_fields -> repair_of i = Some r ->
  scan_ok t (Phase2.mkScan (<[k := v]> (Phase2.scanned s))
                           (Phase2.found s ++ [i]) (Phase2.fixed s ++ [r])).
Proof.
  intros [Hfix Hkeep] Hk Hr. split; cbn [Phase2.fixed Phase2.found Phase2.scanned].
  - rewrite omap_app, <- Hfix. cbn [omap list_omap]. by rewrite Hr.
  - intros k' Hk'. rewrite lookup_insert_ne by (intros ->; contradiction). by apply Hkeep.
Qed.

Lemma check_orphaned_ok (t : dict) (tid : value) (s : Phase2.scan) :
  scan_ok t s -> scan_ok t (Phase2.check_orphaned tid s).
Proof.
  intros Hs. unfold Phase2.check_orphaned. destruct (_ && _); [|exact Hs].
  apply scan_ok_insert; [exact Hs | set_solver | reflexivity].
Qed.

Lemma check_progress_ok (t : dict) (tid : value) (s s' : Phase2.scan) :
  scan_ok t s -> Phase2.check_progress tid s = Ok s' -> scan_ok t s'.
Proof.
  intros Hs. unfold Phase2.check_progress.
  destruct (if py_eq_str _ _ then _ else _) as [[|]|e]; cbn [result_bind];
    intros [= <-]; [|exact Hs].
  apply scan_ok_insert; [exact Hs | set_solver | reflexivity].
Qed.

Lemma check_completed_at_ok (t : dict) (tid : value) (s s' : Phase2.scan) (w w' : World) :
  scan_ok t s -> run (Phase2.check_completed_at tid s) w = (w', Ok s') -> scan_ok t s'.
Proof.
  intros Hs. unfold Phase2.check_completed_at.
  destruct (_ && _); run_simpl; intros [= _ <-]; [|exact Hs].
  apply scan_ok_insert; [exact Hs | set_solver | reflexivity].
Qed.

Lemma check_time_ok (t : dict) (tid : value) (s s' : Phase2.scan) :
  scan_ok t s -> Phase2.check_time tid s = Ok s' -> scan_ok t s'.
Proof.
  intros [Hfix Hkeep]. unfold Phase2.check_time.
  destruct (py_mul_int _ _) as [limit|e]; cbn [result_bind]; [|discriminate].
  destruct (py_gt _ limit) as [[|]|e]; cbn [result_bind]; try discriminate.
  - destruct (py_truediv_check _ _) as [[]|e]; cbn [result_bind]; [|discriminate].
    intros [= <-]. split; cbn [Phase2.fixed Phase2.found Phase2.scanned]; [|exact Hkeep].
    rewrite omap_app. cbn [omap list_omap repair_of]. by rewrite app_nil_r.
  - by intros [= <-].
Qed.

Lemma check_future_ok (t : dict) (tid : value) (s s' : Phase2.scan) (w w' : World) :
  scan_ok t s -> run (Phase2.check_future tid s) w = (w', Ok s') -> scan_ok t s'.
Proof.
  intros Hs. unfold Phase2.check_future.
  destruct (py_eq_str _ _); run_simpl; [|by intros [= _ <-]].
  destruct (py_gt _ _) as [[|]|e]; run_simpl; try discriminate; intros [= _ <-]; [|exact Hs].
  apply scan_ok_insert; [exact Hs | set_solver | reflexivity].
Qed.

Lemma scan_task_ok (t : dict) (w w' : World) (s : Phase2.scan) :
  run (Phase2.scan_task t) w = (w', Ok s) -> scan_ok t s.
Proof.
  unfold Phase2.scan_task. intros Hrun.
  set (tid := dict_get t "id" (VStr "unknown")) in Hrun.
  assert (H0 : scan_ok t (Phase2.check_orphaned tid (Phase2.mkScan t [] []))).
  { apply check_orphaned_ok. by split. }
  rewrite run_bind, run_lift in Hrun.
  destruct (Phase2.check_progress tid _) as [s1|e] eqn:H1; [|discriminate].
  apply (check_progress_ok t) in H1; [|exact H0].
  rewrite run_bind in Hrun.
  destruct (run (Phase2.check_completed_at tid s1) w) as [w2 [s2|e]] eqn:H2; [|discriminate].
  apply (check_completed_at_ok t) in H2; [|exact H1].
  rewrite run_bind, run_lift in Hrun.
  destruct (Phase2.check_time tid s2) as [s3|e] eqn:H3; [|discriminate].
  apply (check_time_ok t) in H3; [|exact H2].
  by apply (check_future_ok t) in Hrun.
Qed.

Lemma scan_tasks_ok (ts : list dict) :
  forall (w w' : World) (ts' : list dict) (issues : list issue) (fixes : list repair),
    run (Phase2.scan_tasks ts) w = (w', Ok (ts', issues, fixes)) ->
    fixes = omap repair_of issues /\
    Forall2 (fun t t' => forall k : string, k ∉ repaired_fields -> t' !! k = t !! k) ts ts'.
Proof.
  induction ts as [|t rest IH]; intros w w' ts' issues fixes; cbn [Phase2.scan_tasks].
  - run_simpl. intros [= _ <- <- <-]. split; [reflexivity | constructor].
  - rewrite run_bind.
    destruct (run (Phase2.scan_task t) w) as [w1 [s|e]] eqn:Hone; [|discriminate].
    rewrite run_bind.
    destruct (run (Phase2.scan_tasks rest) w1) as [w2 [[[rest' i2] f2]|e]] eqn:Hrest;
      [|discriminate].
    run_simpl. intros [= _ <- <- <-].
    apply scan_task_ok in Hone as [Hfix Hkeep].
    apply IH in Hrest as [Hfix2 Hkeep2].
    split; [by rewrite omap_app, Hfix, Hfix2 | by constructor].
Qed.

(** The health check rewrites three fields at most: whether it returns or
    raises, the store afterwards has the same goals and as many tasks, and
    each task has every field other than [recurring], [progress] and
    [completed_at] as before, its id, status, goal and times among them. *)
Theorem health_check_rewrites_three_fields_only (w : World) :
  let w1 := fst (run Phase2.health_check w) in
  goals (disk w1) = goals (disk w) /\
  Forall2 (fun t t' => forall k : string, k ∉ repaired_fields -> t' !! k = t !! k)
          (tasks (disk w)) (tasks (disk w1)).
Proof.
  assert (Hrefl : Forall2 (fun t t' : dict => forall k : string,
                             k ∉ repaired_fields -> t' !! k = t !! k)
                          (tasks (disk w)) (tasks (disk w))).
  { apply Forall2_same_length_lookup. split; [reflexivity|]. intros i x y Hx Hy. congruence. }
  cbv zeta. unfold Phase2.health_check, load_store. cbn [bind run]. rewrite run_bind.
  pose proof (clock_only_run _ (scan_tasks_clock_only (tasks (disk w))) w) as [Hkeep _].
  destruct (run (Phase2.scan_tasks (tasks (disk w))) w) as [ws [[[ts' i1] f1]|e]] eqn:Hscan;
    cbn [fst] in *.
  - apply scan_tasks_ok in Hscan as [_ Hframe].
    destruct f1 as [|x f1]; run_simpl; cbn [goals tasks].
    + rewrite Hkeep. by split.
    + by split.
  - rewrite Hkeep. by split.
Qed.

(** What the health check reports when it returns: the repairs are, in
    order, those of the issues, a time anomaly being the one issue without
    a repair; one HEALTH_CHECK line with both counts is appended to the WAL;
    and without repairs the store is not written. *)
Theorem health_check_reports_what_it_repairs (w w1 : World) (report : health_report) :
  run Phase2.health_check w = (w1, Ok report) ->
  auto_fixes report = omap repair_of (health_issues report) /\
  (exists file line,
     wal_lines w1 file = wal_lines w file ++ [line] /\
     (forall other, other <> file -> wal_lines w1 other = wal_lines w other) /\
     wal_event_type line = "HEALTH_CHECK" /\
     wal_content line !! "issues_found"
       = Some (VInt (Z.of_nat (length (health_issues report)))) /\
     wal_content line !! "auto_fixes_applied"
       = Some (VInt (Z.of_nat (length (auto_fixes report))))) /\
  (auto_fixes report = [] -> disk w1 = disk w).
Proof.
  unfold Phase2.health_check, load_store. cbn [bind run]. rewrite run_bind.
  pose proof (clock_only_run _ (scan_tasks_clock_only (tasks (disk w))) w) as [Hkeep Hwal].
  destruct (run (Phase2.scan_tasks (tasks (disk w))) w) as [ws [[[ts' i1] f1]|e]] eqn:Hscan;
    [|discriminate].
  cbn [fst] in *. apply scan_tasks_ok in Hscan as [Hfix _].
  destruct f1 as [|x f1]; run_simpl; intros [= <- <-]; cbn [auto_fixes health_issues].
  all: (split; [exact Hfix|]).
  all: split; [|first [intros _; exact Hkeep | discriminate]].
  all: eexists _, _; (split; [unfold wal_lines at 1; world_simpl; rewrite lookup_insert_eq;
                               unfold wal_lines; world_simpl; by rewrite Hwal|]).
  all: (split; [intros other Hne; unfold wal_lines; world_simpl;
                rewrite lookup_insert_ne by done; by rewrite Hwal|]).
  all: cbn [wal_event_type wal_content]; repeat split; by simplify_map_eq.
Qed.

End HealthFrame.

Lemma health_check_reports_what_it_repairs_witness :
  match snd (run (Phase2.health_check (DT := UTC.datetime)) (Sample.world Sample.store_broken)) with
  | Ok report =>
      auto_fixes report = omap repair_of (health_issues report) /\
      length (health_issues report) = 4%nat /\ length (auto_fixes report) = 4%nat
  | Err _ => False
  end.
Proof.
  set (w := Sample.world Sample.store_broken).
  set (res := run (Phase2.health_check (DT := UTC.datetime)) w).
  assert (Hok : match snd res with
                | Ok r => length (health_issues r) = 4%nat /\ length (auto_fixes r) = 4%nat
                | Err _ => False
                end) by (vm_compute; split; reflexivity).
  destruct (snd res) as [report|e] eqn:Hsnd; [|exact Hok].
  assert (Hrun : res = (fst res, Ok report)) by (rewrite <- Hsnd; apply surjective_pairing).
  split; [|exact Hok].
  exact (proj1 (health_check_reports_what_it_repairs (DT := UTC.datetime) w (fst res) report Hrun)).
Defined.

(** ** The health check after other commands *)

Section HealthAfter.
Context `{DT : Datetime}.

(** The scan of the task at a place of the list, inside the scan of the list. *)
Lemma scan_tasks_at (ts : list dict) :
  forall (w w' : World) (ts' : list dict) (issues : list issue) (fixes : list repair)
         (i : nat) (t : dict),
    run (Phase2.scan_tasks ts) w = (w', Ok (ts', issues, fixes)) ->
    ts !! i = Some t ->
    exists wi wi' s,
      run (Phase2.scan_task t) wi = (wi', Ok s) /\
      ts' !! i = Some (Phase2.scanned s) /\
      forall x, x ∈ Phase2.fixed s -> x ∈ fixes.
Proof.
  induction ts as [|t0 rest IH]; intros w w' ts' issues fixes i t; cbn [Phase2.scan_tasks].
  - intros _ Hlk. destruct i; discriminate.
  - rewrite run_bind.
    destruct (run (Phase2.scan_task t0) w) as [w1 [s|e]] eqn:Hone; [|discriminate].
    rewrite run_bind.
    destruct (run (Phase2.scan_tasks rest) w1) as [w2 [[[rest' i2] f2]|e]] eqn:Hrest;
      [|discriminate].
    run_simpl. intros [= _ <- <- <-] Hlk. destruct i as [|i]; cbn in Hlk.
    + injection Hlk as <-. exists w, w1, s. split; [exact Hone|]. split; [reflexivity|].
      intros x Hx. apply elem_of_app. by left.
    + destruct (IH _ _ _ _ _ i t Hrest Hlk) as (wi & wi' & s' & Hs & Hlk' & Hin).
      exists wi, wi', s'. split; [exact Hs|]. split; [exact Hlk'|].
      intros x Hx. apply elem_of_app. right. by apply Hin.
Qed.

(** A completed task below 100% comes out of its scan at 100%, the repair
    listed. *)
Lemma scan_task_sets_progress (t : dict) (w w' : World) (s : Phase2.scan) :
  run (Phase2.scan_task t) w = (w', Ok s) ->
  is_completed t = true ->
  py_lt (dict_get t "progress" (VInt 100)) (VInt 100) = Ok true ->
  SetProgress100 (dict_get t "id" (VStr "unknown")) ∈ Phase2.fixed s /\
  Phase2.scanned s !! "progress" = Some (VInt 100).
Proof.
  unfold Phase2.scan_task, is_completed. intros Hrun Hc Hlt.
  set (tid := dict_get t "id" (VStr "unknown")) in *.
  pose proof (check_orphaned_out tid (Phase2.mkScan t [] [])) as H0. cbv zeta in H0.
  destruct (Phase2.check_orphaned tid (Phase2.mkScan t [] [])) as [t0 i0 f0] eqn:E0.
  assert (Hsame : dict_get t0 "status" VNone = dict_get t "status" VNone /\
                  dict_get t0 "progress" (VInt 100) = dict_get t "progress" (VInt 100)).
  { destruct H0 as [[[= -> _ _] _] | (Hs & _)]; [by split|].
    cbn [Phase2.scanned] in Hs. subst t0. by rewrite !dict_get_insert_ne by done. }
  destruct Hsame as [Hst Hpr].
  rewrite run_bind, run_lift in Hrun.
  unfold Phase2.check_progress at 1 in Hrun. cbn [Phase2.scanned Phase2.found Phase2.fixed] in Hrun.
  rewrite Hst, Hc, Hpr, Hlt in Hrun. cbn [result_bind] in Hrun.
  rewrite run_bind in Hrun.
  destruct (run (Phase2.check_completed_at tid _) w) as [w2 [[t2 i2 f2]|e]] eqn:H2;
    [|discriminate].
  apply check_completed_at_out in H2.
  rewrite run_bind, run_lift in Hrun.
  destruct (Phase2.check_time tid _) as [[t3 i3 f3]|e] eqn:H3; [|discriminate].
  apply check_time_out in H3 as [E3 F3].
  destruct s as [t4 i4 f4]. apply check_future_out in Hrun.
  cbn [Phase2.scanned Phase2.fixed] in *. subst t3 f3.
  assert (H2' : SetProgress100 tid ∈ f2 /\ t2 !! "progress" = Some (VInt 100)).
  { destruct H2 as [([= -> _ ->] & _) | (_ & -> & _ & x & ->)].
    - split; [set_solver | by simplify_map_eq].
    - split; [set_solver | by simplify_map_eq]. }
  destruct H2' as [Hin Hp].
  destruct Hrun as [(_ & [= -> _ ->] & _) | [(_ & [= -> _ ->] & _) | (_ & -> & _ & x & ->)]].
  - by split.
  - by split.
  - split; [set_solver | by simplify_map_eq].
Qed.

(** Phase 2 accepts a progress below 100 on a completed task and leaves it
    completed; the next health check that returns reports the task, repairs
    it and saves it at 100% again. *)
Theorem health_check_restores_lowered_progress
        (w : World) (task_id : string) (progress : Z) (i : nat) (task : dict)
        (w2 : World) (report : health_report) :
  find_task_by_id (disk w) task_id = Ok (Some (i, task)) ->
  task !! "status" = Some (VStr "completed") ->
  progress < 100 ->
  let w1 := fst (run (Phase2.mark_progress task_id progress EmptyString) w) in
  run Phase2.health_check w1 = (w2, Ok report) ->
  (exists t1, tasks (disk w1) !! i = Some t1 /\
              t1 !! "progress" = Some (VInt progress) /\
              t1 !! "status" = Some (VStr "completed")) /\
  SetProgress100 (dict_get task "id" (VStr "unknown")) ∈ auto_fixes report /\
  exists t2, tasks (disk w2) !! i = Some t2 /\
             t2 !! "progress" = Some (VInt 100) /\
             t2 !! "status" = Some (VStr "completed").
Proof.
  intros Hfind Hst Hp w1 Hrun.
  pose proof (find_task_by_id_lookup _ _ _ _ Hfind) as [Hlk _].
  set (t1 := <["updated_at" := VStr (isoformat (clock w (S (S (S (tick w))))) +:+ "Z")]>
               (<["progress" := VInt progress]> task)).
  assert (Hd1 : disk w1 = set_task (disk w) i t1).
  { unfold w1. erewrite phase2_mark_progress_disk; [|exact Hfind|reflexivity].
    f_equal. unfold Phase2.auto_status.
    rewrite !dict_get_insert_ne by done. rewrite (dict_get_Some _ _ _ _ Hst).
    replace (100 <=? progress) with false by (symmetry; apply Z.leb_gt; lia).
    cbn [andb negb py_eq_str py_eq as_int]. by rewrite andb_false_r. }
  assert (Hlk1 : tasks (disk w1) !! i = Some t1).
  { rewrite Hd1. by eapply set_task_lookup. }
  assert (Hst1 : t1 !! "status" = Some (VStr "completed")).
  { unfold t1. by rewrite !lookup_insert_ne. }
  split.
  { exists t1. split; [exact Hlk1|]. split; [|exact Hst1]. unfold t1. by simplify_map_eq. }
  unfold Phase2.health_check, load_store in Hrun. cbn [bind run] in Hrun.
  rewrite run_bind in Hrun.
  destruct (run (Phase2.scan_tasks (tasks (disk w1))) w1) as [ws [[[ts' i1] f1]|e]] eqn:Hscan;
    [|discriminate].
  destruct (scan_tasks_at _ _ _ _ _ _ i t1 Hscan Hlk1) as (wi & wi' & s & Hs & Hlk' & Hin).
  pose proof (scan_task_ok _ _ _ _ Hs) as [_ Hkeep].
  apply scan_task_sets_progress in Hs as [Hfix Hprog].
  2:{ unfold is_completed. by rewrite (dict_get_Some _ _ _ _ Hst1). }
  2:{ unfold t1. rewrite dict_get_insert_ne, dict_get_insert_eq by done.
      unfold py_lt, py_gt. cbn [as_int]. f_equal. apply Z.ltb_lt. lia. }
  assert (Hid : dict_get t1 "id" (VStr "unknown") = dict_get task "id" (VStr "unknown")).
  { unfold t1. by rewrite !dict_get_insert_ne. }
  rewrite Hid in Hfix. apply Hin in Hfix.
  destruct f1 as [|x f1]; [by apply elem_of_nil in Hfix|].
  run_simpl. injection Hrun as <- <-. cbn [auto_fixes tasks].
  split; [exact Hfix|].
  exists (Phase2.scanned s). split; [exact Hlk'|]. split; [exact Hprog|].
  rewrite Hkeep; [exact Hst1|]. unfold repaired_fields. set_solver.
Qed.

(** *** A zero estimate *)

Lemma scan_task_zero_estimate (t : dict) (w : World) (m : Z) :
  py_eq_str (dict_get t "status" VNone) "completed" = false ->
  dict_get t "estimate_minutes" (VInt 1) = VInt 0 ->
  dict_get t "actual_minutes" (VInt 0) = VInt m ->
  0 < m ->
  snd (run (Phase2.scan_task t) w) = Err ZeroDivisionError.
Proof.
  intros Hst Hest Hact Hm. unfold Phase2.scan_task.
  set (tid := dict_get t "id" (VStr "unknown")).
  pose proof (check_orphaned_out tid (Phase2.mkScan t [] [])) as H0. cbv zeta in H0.
  destruct (Phase2.check_orphaned tid (Phase2.mkScan t [] [])) as [t0 i0 f0] eqn:E0.
  assert (Hsame : dict_get t0 "status" VNone = dict_get t "status" VNone /\
                  dict_get t0 "estimate_minutes" (VInt 1) = VInt 0 /\
                  dict_get t0 "actual_minutes" (VInt 0) = VInt m).
  { destruct H0 as [[[= -> _ _] _] | (Hs & _)]; [by repeat split|].
    cbn [Phase2.scanned] in Hs. subst t0. by rewrite !dict_get_insert_ne by done. }
  destruct Hsame as (Hst0 & Hest0 & Hact0).
  rewrite run_bind, run_lift.
  unfold Phase2.check_progress at 1. cbn [Phase2.scanned]. rewrite Hst0, Hst.
  cbn [result_bind]. rewrite run_bind.
  unfold Phase2.check_completed_at at 1. cbn [Phase2.scanned]. rewrite Hst0, Hst.
  cbn [andb]. run_simpl. rewrite run_bind, run_lift.
  unfold Phase2.check_time. cbn [Phase2.scanned]. rewrite Hest0, Hact0.
  cbn [py_mul_int as_int result_bind py_gt].
  change (0 * 10) with 0.
  replace (0 <? m) with true by (symmetry; by apply Z.ltb_lt).
  reflexivity.
Qed.

Lemma scan_tasks_last_raises (ts : list dict) (t : dict) (e : error) :
  (forall w, snd (run (Phase2.scan_task t) w) = Err e) ->
  forall w r,
    snd (run (Phase2.scan_tasks ts) w) = Ok r ->
    snd (run (Phase2.scan_tasks (ts ++ [t])) w) = Err e.
Proof.
  intros Hlast. induction ts as [|t0 rest IH]; intros w r; cbn [app Phase2.scan_tasks].
  - intros _. rewrite run_bind. specialize (Hlast w).
    destruct (run (Phase2.scan_task t) w) as [w1 [s|e1]]; cbn [snd] in *; congruence.
  - rewrite !run_bind.
    destruct (run (Phase2.scan_task t0) w) as [w1 [s|e1]]; [|discriminate].
    rewrite !run_bind. specialize (IH w1).
    destruct (run (Phase2.scan_tasks rest) w1) as [w2 [r2|e2]]; [|discriminate].
    intros _. specialize (IH _ eq_refl).
    destruct (run (Phase2.scan_tasks (rest ++ [t])) w1) as [w3 [r3|e3]]; cbn [snd] in *;
      congruence.
Qed.

(** An estimate of zero is stored as given, and breaks the health check
    later: once minutes are logged on the task created with it, the health
    check of a store it went through before raises ZeroDivisionError. *)
Theorem zero_estimate_breaks_health_check
        (w : World) (goal_id title recurring : string) (priority : option string)
        (minutes : Z) (g : dict) (report : health_report) :
  find_goal_by_id (disk w) (VStr goal_id) = Ok (Some g) ->
  find_task_by_id (disk w) ("task_" +:+ uuid_hex8 w (drawn w)) = Ok None ->
  snd (run Phase2.health_check w) = Ok report ->
  0 < minutes ->
  let new_id := "task_" +:+ uuid_hex8 w (drawn w) in
  let w1 := fst (run (Phase1.create_recurring goal_id title recurring priority (Some 0)) w) in
  let w2 := fst (run (Phase2.log_time new_id minutes EmptyString) w1) in
  exists t,
    tasks (disk w2) = tasks (disk w) ++ [t] /\
    t !! "estimate_minutes" = Some (VInt 0) /\
    t !! "actual_minutes" = Some (VInt minutes) /\
    snd (run Phase2.health_check w2) = Err ZeroDivisionError.
Proof.
  intros Hgoal Hfresh Hhealth Hm new_id w1 w2.
  destruct (create_recurring_runs w goal_id title recurring (priority) (Some 0) g Hgoal)
    as (t & Hrun & Hid & _ & _ & _ & Hst & _ & _ & _ & _ & _ & Hest & Hact & _).
  assert (Hd1 : disk w1 = mkStore (goals (disk w)) (tasks (disk w) ++ [t])).
  { unfold w1. by rewrite Hrun. }
  assert (Hfind1 : find_task_by_id (disk w1) new_id
                   = Ok (Some (length (tasks (disk w)), t))).
  { rewrite Hd1. unfold find_task_by_id in *. cbn [tasks].
    rewrite find_task_from_app. fold new_id in Hfresh. rewrite Hfresh.
    cbn [find_task_from]. unfold getitem. rewrite Hid. cbn [result_bind].
    replace (py_eq_str _ _) with true
      by (symmetry; unfold py_eq_str; cbn [py_eq]; apply String.eqb_refl).
    reflexivity. }
  destruct (phase2_log_time_runs w1 new_id minutes 0 _ t Hfind1) as (Hd2 & _).
  { by rewrite (dict_get_None _ _ _ Hact). }
  fold w2 in Hd2. rewrite Z.add_0_l in Hd2.
  destruct (time_logged_fields w1 minutes t) as (Ha & Hk & Hs).
  set (t2 := time_logged w1 minutes t) in *.
  assert (Htasks : tasks (disk w2) = tasks (disk w) ++ [t2]).
  { rewrite Hd2, Hd1. unfold set_task. cbn [tasks].
    rewrite insert_app_r_alt by lia. by rewrite Nat.sub_diag. }
  exists t2. split; [exact Htasks|].
  split; [rewrite Hk by done; exact Hest|]. split; [exact Ha|].
  assert (Hscan : exists r, snd (run (Phase2.scan_tasks (tasks (disk w))) w2) = Ok r).
  { destruct (run (Phase2.scan_tasks (tasks (disk w))) w2) as [wa [r|e]] eqn:Hr; [by eauto|].
    exfalso.
    pose proof (scan_tasks_raises_again (tasks (disk w)) e w2 w) as Hagain.
    rewrite Hr in Hagain. specialize (Hagain eq_refl).
    destruct (health_check_raises_again w e Hagain) as (w' & Hrun' & _).
    rewrite Hrun' in Hhealth. discriminate. }
  destruct Hscan as [r Hr].
  destruct (health_check_raises_again w2 ZeroDivisionError) as (w3 & Hrun3 & _);
    [|by rewrite Hrun3].
  rewrite Htasks. apply (scan_tasks_last_raises _ _ _) with (r := r); [|exact Hr].
  intros w'. apply (scan_task_zero_estimate t2 w' minutes); [| |by rewrite (dict_get_Some _ _ _ _ Ha)|exact Hm].
  - rewrite Hs. rewrite (dict_get_Some _ _ _ _ Hst).
    replace (0 <? minutes) with true by (symmetry; by apply Z.ltb_lt). reflexivity.
  - unfold dict_get. rewrite Hk by done. by rewrite Hest.
Qed.

End HealthAfter.

Lemma health_check_restores_lowered_progress_witness :
  let w := Sample.world (Sample.store_done 100) in
  let w1 := fst (run (Phase2.mark_progress (DT := UTC.datetime) "t1" 30 EmptyString) w) in
  let res := run (Phase2.health_check (DT := UTC.datetime)) w1 in
  match snd res with
  | Ok report =>
      SetProgress100 (VStr "t1") ∈ auto_fixes report /\
      exists t2, tasks (disk (fst res)) !! 0%nat = Some t2 /\
                 t2 !! "progress" = Some (VInt 100) /\
                 t2 !! "status" = Some (VStr "completed")
  | Err _ => False
  end.
Proof.
  cbv zeta.
  set (w := Sample.world (Sample.store_done 100)).
  set (w1 := fst (run (Phase2.mark_progress (DT := UTC.datetime) "t1" 30 EmptyString) w)).
  set (res := run (Phase2.health_check (DT := UTC.datetime)) w1).
  assert (Hok : match snd res with Ok _ => True | Err _ => False end) by (vm_compute; exact I).
  assert (Hfind : find_task_by_id (disk w) "t1" = Ok (Some (0%nat, Sample.task_done 100)))
    by reflexivity.
  assert (Hst : Sample.task_done 100 !! "status" = Some (VStr "completed")) by reflexivity.
  assert (Hlow : 30 < 100) by lia.
  destruct (snd res) as [report|e] eqn:Hsnd; [|exact Hok].
  assert (Hrun : res = (fst res, Ok report)) by (rewrite <- Hsnd; apply surjective_pairing).
  destruct (health_check_restores_lowered_progress (DT := UTC.datetime)
              w "t1" 30 0 (Sample.task_done 100) (fst res) report Hfind Hst Hlow Hrun)
    as (_ & Hfix & t2 & Hlk & Hp & Hs).
  assert (Hid : dict_get (Sample.task_done 100) "id" (VStr "unknown") = VStr "t1")
    by reflexivity.
  rewrite Hid in Hfix.
  split; [exact Hfix|].
  exists t2. split; [exact Hlk|]. split; [exact Hp | exact Hs].
Defined.

Lemma zero_estimate_breaks_health_check_witness :
  let w := Sample.world (Sample.store_t1 "pending" 0) in
  let w1 := fst (run (Phase1.create_recurring (DT := UTC.datetime)
                        "g1" "Review" "weekly" None (Some 0)) w) in
  let w2 := fst (run (Phase2.log_time (DT := UTC.datetime) "task_a1b2c3d0" 5 EmptyString) w1) in
  snd (run (Phase2.health_check (DT := UTC.datetime)) w) = Ok (mkHealth [] []) /\
  snd (run (Phase2.health_check (DT := UTC.datetime)) w2) = Err ZeroDivisionError.
Proof.
  cbv zeta.
  assert (Hhealthy : snd (run (Phase2.health_check (DT := UTC.datetime))
                            (Sample.world (Sample.store_t1 "pending" 0)))
                     = Ok (mkHealth [] [])) by reflexivity.
  split; [exact Hhealthy|].
  destruct (zero_estimate_breaks_health_check (DT := UTC.datetime)
              (Sample.world (Sample.store_t1 "pending" 0)) "g1" "Review" "weekly" None 5
              Sample.goal_g1 (mkHealth [] []) eq_refl eq_refl Hhealthy)
    as (t & _ & _ & _ & Hraise); [lia|].
  exact Hraise.
Defined.

(** ** The velocity report at the edges *)

Section VelocityEdges.

Lemma count_by_day_bounds (cs : list dict) :
  forall by_day counted : gmap string nat,
    Phase1.count_by_day cs by_day = Ok counted ->
    (size counted <= size by_day + length cs)%nat /\
    forall day n, counted !! day = Some n ->
      (default O (by_day !! day) <= n <= default O (by_day !! day) + length cs)%nat /\
      (by_day !! day = None -> 1 <= n)%nat.
Proof.
  induction cs as [|t rest IH]; intros by_day counted; cbn [Phase1.count_by_day length].
  - intros [= <-]. split; [lia|]. intros day n Hn. rewrite Hn. cbn. split; [lia|discriminate].
  - destruct (t !! "completed_at") as [[| | |s]|] eqn:Hat; try discriminate.
    + intros Hrest. apply IH in Hrest as [Hsize Hcount]. split.
      * destruct (by_day !! before_T s) eqn:Hday.
        -- rewrite map_size_insert_Some in Hsize by (by rewrite Hday). lia.
        -- rewrite map_size_insert_None in Hsize by done. lia.
      * intros day n Hn. specialize (Hcount day n Hn).
        destruct (decide (before_T s = day)) as [<- | Hne].
        -- rewrite lookup_insert_eq in Hcount. destruct Hcount as [Hle _]. cbn in Hle.
           split; lia.
        -- rewrite lookup_insert_ne in Hcount by done. split; [lia|]. tauto.
    + intros Hrest. apply IH in Hrest as [Hsize Hcount]. split; [lia|].
      intros day n Hn. specialize (Hcount day n Hn). split; [lia|]. tauto.
Qed.

Lemma select_length (p : dict -> result bool) (ts kept : list dict) :
  Phase1.select p ts = Ok kept -> (length kept <= length ts)%nat.
Proof.
  revert kept. induction ts as [|t rest IH]; intros kept; cbn [Phase1.select].
  - intros [= <-]. reflexivity.
  - destruct (p t) as [keep|e]; cbn [result_bind]; [|discriminate].
    destruct (Phase1.select p rest) as [kept'|e]; cbn [result_bind]; [|discriminate].
    intros [= <-]. specialize (IH kept' eq_refl). destruct keep; cbn [length]; lia.
Qed.

(** The velocity report only reads: whatever it returns or raises, the
    world is as before.  When it returns, the days counted are those on which
    a task was completed, so there are no more days than completed tasks (the
    rate is never a fraction of a task per day), every day of the histogram
    counts at least one task, and completed and remaining tasks together are
    no more than the tasks of the store. *)
Theorem show_velocity_only_reads (w : World) (goal_id : string) :
  fst (run (Phase1.show_velocity goal_id) w) = w /\
  forall r,
    snd (run (Phase1.show_velocity goal_id) w) = Ok r ->
    days_tracked r = size (completions_by_day r) /\
    (days_tracked r <= completed_count r)%nat /\
    (forall day n, completions_by_day r !! day = Some n ->
       (1 <= n <= completed_count r)%nat) /\
    (completed_count r <= length (tasks (disk w)))%nat /\
    (remaining_count r <= length (tasks (disk w)))%nat.
Proof.
  unfold Phase1.show_velocity, load_store. run_simpl.
  destruct (find_goal_by_id (disk w) (VStr goal_id)) as [[g|]|e]; run_simpl;
    [|split; [reflexivity|discriminate]..].
  destruct (Phase1.select (Phase1.is_completed_of goal_id) (tasks (disk w)))
    as [completed|e] eqn:Hc; run_simpl; [|split; [reflexivity|discriminate]].
  destruct (Phase1.count_by_day completed ∅) as [by_day|e] eqn:Hd; run_simpl;
    [|split; [reflexivity|discriminate]].
  destruct (Phase1.select (Phase1.is_remaining_of goal_id) (tasks (disk w)))
    as [remaining|e] eqn:Hr; run_simpl; [|split; [reflexivity|discriminate]].
  split; [reflexivity|]. intros r [= <-].
  cbn [days_tracked completions_by_day completed_count remaining_count].
  apply count_by_day_bounds in Hd as [Hsize Hcount]. rewrite map_size_empty in Hsize.
  apply select_length in Hc, Hr.
  split; [reflexivity|]. split; [lia|]. split; [|split; assumption].
  intros day n Hn. destruct (Hcount day n Hn) as [Hle Hpos].
  rewrite lookup_empty in Hle, Hpos. cbn in Hle. split; [by apply Hpos | lia].
Qed.

Lemma select_missing_key (goal_id : string) (ts : list dict) (t : dict)
      (p : string -> dict -> result bool) :
  (forall x, x !! "goal_id" = None -> p goal_id x = Err (KeyError "goal_id")) ->
  (forall x e, p goal_id x = Err e -> exists k, e = KeyError k) ->
  t ∈ ts -> t !! "goal_id" = None ->
  exists k, Phase1.select (p goal_id) ts = Err (KeyError k).
Proof.
  intros Hmiss Hkey Hin Hnone. induction ts as [|t0 rest IH]; [by apply elem_of_nil in Hin|].
  cbn [Phase1.select].
  destruct (p goal_id t0) as [keep|e] eqn:Hp; cbn [result_bind].
  - apply elem_of_cons in Hin as [-> | Hin]; [rewrite (Hmiss _ Hnone) in Hp; discriminate|].
    destruct (IH Hin) as [k ->]. cbn [result_bind]. eauto.
  - destruct (Hkey _ _ Hp) as [k ->]. eauto.
Qed.

(** One task without a ["goal_id"] makes the velocity report raise KeyError
    for every goal of the store, also for a goal the task is not part of:
    the field is read of every task. *)
Theorem show_velocity_needs_goal_id_everywhere
        (w : World) (goal_id : string) (goal t : dict) :
  find_goal_by_id (disk w) (VStr goal_id) = Ok (Some goal) ->
  t ∈ tasks (disk w) ->
  t !! "goal_id" = None ->
  exists k, run (Phase1.show_velocity goal_id) w = (w, Err (KeyError k)).
Proof.
  intros Hgoal Hin Hnone.
  unfold Phase1.show_velocity, load_store. run_simpl. rewrite Hgoal. run_simpl.
  destruct (select_missing_key goal_id (tasks (disk w)) t Phase1.is_completed_of)
    as [k ->]; try assumption.
  - intros x Hx. unfold Phase1.is_completed_of, getitem. by rewrite Hx.
  - intros x e. unfold Phase1.is_completed_of, getitem.
    destruct (x !! "goal_id"); cbn [result_bind]; [|intros [= <-]; eauto].
    destruct (py_eq_str _ _); [|discriminate].
    destruct (x !! "status"); cbn [result_bind]; [discriminate|intros [= <-]; eauto].
  - run_simpl. eauto.
Qed.

End VelocityEdges.

Lemma show_velocity_needs_goal_id_everywhere_witness :
  let w := Sample.world
             (mkStore [Sample.goal_g1]
                [Sample.task_t1 "completed" 100; delete "goal_id" (Sample.task_t1 "pending" 0)]) in
  exists k, run (Phase1.show_velocity "g1") w = (w, Err (KeyError k)).
Proof.
  cbv zeta.
  apply (show_velocity_needs_goal_id_everywhere _ "g1" Sample.goal_g1
           (delete "goal_id" (Sample.task_t1 "pending" 0))).
  - reflexivity.
  - cbn [disk tasks Sample.world]. set_solver.
  - apply lookup_delete_eq.
Defined.

(** ** Progress in phase 2 *)


Section Phase2Progress.
Context `{DT : Datetime}.

(** Phase 2 never completes a task: whatever progress is marked (100 and
    more included) the saved status is the old one or in_progress, so it is
    completed only where it was before.  The progress is stored as given, and
    notes are joined to the notes held with a newline. *)
Theorem phase2_mark_progress_never_completes
        (w : World) (task_id notes : string) (progress : Z) (i : nat) (task : dict) :
  find_task_by_id (disk w) task_id = Ok (Some (i, task)) ->
  (forall v, task !! "notes" = Some v -> v = VNone \/ exists s, v = VStr s) ->
  exists t1,
    disk (fst (run (Phase2.mark_progress task_id progress notes) w))
    = set_task (disk w) i t1 /\
    t1 !! "progress" = Some (VInt progress) /\
    (dict_get t1 "status" VNone = dict_get task "status" VNone \/
     t1 !! "status" = Some (VStr "in_progress")) /\
    (dict_get t1 "status" VNone = VStr "completed" ->
     dict_get task "status" VNone = VStr "completed") /\
    (notes = EmptyString -> t1 !! "notes" = task !! "notes") /\
    (notes <> EmptyString ->
     t1 !! "notes"
     = Some (VStr (match task !! "notes" with
                   | Some (VStr (String c s)) => String c s +:+ newline +:+ notes
                   | _ => notes
                   end))) /\
    (forall k : string,
       k <> "progress" -> k <> "status" -> k <> "notes" -> k <> "updated_at" ->
       t1 !! k = task !! k).
Proof.
  intros Hfind Hnotes.
  set (stamped := <["updated_at" := VStr (isoformat (clock w (S (S (S (tick w))))) +:+ "Z")]>
                    (<["progress" := VInt progress]> task)).
  assert (Hjoin : exists noted,
             Phase2.add_notes stamped notes = Ok noted /\
             noted !! "progress" = Some (VInt progress) /\
             dict_get noted "status" VNone = dict_get task "status" VNone /\
             (notes = EmptyString -> noted !! "notes" = task !! "notes") /\
             (notes <> EmptyString ->
              noted !! "notes"
              = Some (VStr (match task !! "notes" with
                            | Some (VStr (String c s)) => String c s +:+ newline +:+ notes
                            | _ => notes
                            end))) /\
             (forall k : string,
                k <> "progress" -> k <> "status" -> k <> "notes" -> k <> "updated_at" ->
                noted !! k = task !! k)).
  { unfold Phase2.add_notes.
    destruct (String.eqb notes EmptyString) eqn:Hn.
    - apply String.eqb_eq in Hn. exists stamped. unfold stamped.
      split; [reflexivity|]. split; [by simplify_map_eq|].
      split; [by rewrite !dict_get_insert_ne|].
      split; [intros _; by rewrite !lookup_insert_ne|]. split; [congruence|].
      intros k H1 H2 H3 H4. by rewrite !lookup_insert_ne.
    - apply String.eqb_neq in Hn.
      unfold stamped at 1 2. rewrite !dict_get_insert_ne by done. unfold dict_get.
      destruct (task !! "notes") as [v|] eqn:Hv; cbn [default].
      + destruct (Hnotes v eq_refl) as [-> | [s ->]]; cbn [truthy].
        * eexists. split; [reflexivity|]. unfold stamped.
          split; [by simplify_map_eq|]. split; [by rewrite !lookup_insert_ne|].
          split; [congruence|]. split; [intros _; by simplify_map_eq|].
          intros k H1 H2 H3 H4. by rewrite !lookup_insert_ne.
        * destruct s as [|c s]; cbn [String.eqb negb py_append_note result_bind].
          -- eexists. split; [reflexivity|]. unfold stamped.
             split; [by simplify_map_eq|]. split; [by rewrite !lookup_insert_ne|].
             split; [congruence|]. split; [intros _; by simplify_map_eq|].
             intros k H1 H2 H3 H4. by rewrite !lookup_insert_ne.
          -- eexists. split; [reflexivity|]. unfold stamped.
             split; [by simplify_map_eq|]. split; [by rewrite !lookup_insert_ne|].
             split; [congruence|]. split; [intros _; by simplify_map_eq|].
             intros k H1 H2 H3 H4. by rewrite !lookup_insert_ne.
      + cbn [truthy]. eexists. split; [reflexivity|]. unfold stamped.
        split; [by simplify_map_eq|]. split; [by rewrite !lookup_insert_ne|].
        split; [congruence|]. split; [intros _; by simplify_map_eq|].
        intros k H1 H2 H3 H4. by rewrite !lookup_insert_ne. }
  destruct Hjoin as (noted & Hadd & Hp & Hst & Hn0 & Hn1 & Hk).
  exists (Phase2.auto_status progress noted).
  split; [exact (phase2_mark_progress_disk _ _ _ _ _ _ _ Hfind Hadd)|].
  unfold Phase2.auto_status. rewrite Hst.
  destruct ((100 <=? progress) && _) eqn:H100;
    [|destruct ((0 <? progress) && _) eqn:Hpos].
  - split; [by rewrite lookup_insert_ne|]. split; [right; by simplify_map_eq|].
    split; [rewrite dict_get_insert_eq; discriminate|].
    split; [intros Hn; rewrite lookup_insert_ne by done; auto|].
    split; [intros Hn; rewrite lookup_insert_ne by done; auto|].
    intros k H1 H2 H3 H4. rewrite lookup_insert_ne by done. auto.
  - split; [by rewrite lookup_insert_ne|]. split; [right; by simplify_map_eq|].
    split; [rewrite dict_get_insert_eq; discriminate|].
    split; [intros Hn; rewrite lookup_insert_ne by done; auto|].
    split; [intros Hn; rewrite lookup_insert_ne by done; auto|].
    intros k H1 H2 H3 H4. rewrite lookup_insert_ne by done. auto.
  - split; [exact Hp|]. split; [by left|]. split; [by rewrite Hst|]. auto.
Qed.

End Phase2Progress.

Lemma phase2_mark_progress_never_completes_witness :
  let w := Sample.world (Sample.store_t1 "in_progress" 60) in
  exists t1,
    tasks (disk (fst (run (Phase2.mark_progress (DT := UTC.datetime) "t1" 100 "done") w)))
    = [t1] /\
    t1 !! "progress" = Some (VInt 100) /\
    dict_get t1 "status" VNone <> VStr "completed" /\
    t1 !! "notes" = Some (VStr "done").
Proof.
  cbv zeta.
  destruct (phase2_mark_progress_never_completes (DT := UTC.datetime)
              (Sample.world (Sample.store_t1 "in_progress" 60)) "t1" "done" 100 0
              (Sample.task_t1 "in_progress" 60) eq_refl)
    as (t1 & Hd & Hp & _ & Hnot & _ & Hnotes & _); [discriminate|].
  exists t1. rewrite Hd. split; [reflexivity|]. split; [exact Hp|].
  split; [intros Hc; specialize (Hnot Hc); discriminate|].
  rewrite Hnotes by discriminate. reflexivity.
Defined.

(** ** Flushing the working buffer *)

Lemma split_on_length (s : string) :
  length (split_on (ascii_of_nat 10) s) = S (newlines s).
Proof.
  induction s as [|c s IH]; cbn [split_on newlines]; [reflexivity|].
  destruct (Ascii.eqb c (ascii_of_nat 10)); cbn [length].
  - by rewrite IH.
  - destruct (split_on (ascii_of_nat 10) s) as [|first others]; cbn [length] in *; lia.
Qed.


Section Flushing.
Context `{DT : Datetime}.

Lemma flush_working_buffer_some (m : Memory) (now_t : Z) (content : string) :
  working_buffer m = Some content ->
  Phase2.flush_working_buffer now_t m
  = (mkMemory (Some EmptyString)
       (<[strftime_ymd now_t +:+ ".md" :=
            default EmptyString (daily m !! (strftime_ymd now_t +:+ ".md"))
            +:+ newline +:+ "## Task Updates" +:+ newline +:+ content +:+ newline]>
          (daily m)),
     Some (length (split_on (ascii_of_nat 10) content))).
Proof. intros Hsome. unfold Phase2.flush_working_buffer. by rewrite Hsome. Qed.

(** Flushing moves the text of the buffer into the day's memory file, under
    a heading, and leaves the buffer in place, empty.  Without a buffer file
    nothing happens; but once there is one a flush is never a no-op: a second
    flush on the same day appends the heading again over an empty section and
    reports one line. *)
Theorem flush_working_buffer_appends_a_section (m : Memory) (now_t later : Z) :
  let heading := newline +:+ "## Task Updates" +:+ newline in
  let file := strftime_ymd now_t +:+ ".md" in
  (working_buffer m = None -> Phase2.flush_working_buffer now_t m = (m, None)) /\
  (forall content,
     working_buffer m = Some content ->
     strftime_ymd later = strftime_ymd now_t ->
     let m1 := fst (Phase2.flush_working_buffer now_t m) in
     let m2 := fst (Phase2.flush_working_buffer later m1) in
     working_buffer m1 = Some EmptyString /\
     daily m1 !! file
     = Some (default EmptyString (daily m !! file) +:+ heading +:+ content +:+ newline) /\
     (forall other, other <> file -> daily m1 !! other = daily m !! other) /\
     snd (Phase2.flush_working_buffer now_t m) = Some (S (newlines content)) /\
     working_buffer m2 = Some EmptyString /\
     daily m2 !! file
     = Some (default EmptyString (daily m !! file) +:+ heading +:+ content +:+ newline
             +:+ heading +:+ newline) /\
     snd (Phase2.flush_working_buffer later m1) = Some 1%nat).
Proof.
  cbv zeta. split.
  - intros Hnone. unfold Phase2.flush_working_buffer. by rewrite Hnone.
  - intros content Hsome Hday.
    rewrite (flush_working_buffer_some m now_t content Hsome). cbn [fst snd].
    rewrite (flush_working_buffer_some (mkMemory (Some EmptyString) _) later EmptyString eq_refl).
    cbn [fst snd].
    cbn [working_buffer daily]. rewrite Hday.
    split; [reflexivity|]. split; [by rewrite lookup_insert_eq|].
    split; [intros other Hne; by rewrite lookup_insert_ne|].
    split; [by rewrite split_on_length|].
    split; [reflexivity|]. rewrite !lookup_insert_eq.
    split; [|reflexivity].
    f_equal. change (default EmptyString (Some ?x)) with x.
    by rewrite !string_append_assoc.
Qed.




End Flushing.


(** ** The command line *)

Section CommandLine.
Context `{DT : Datetime}.
Variable py_int : string -> option Z.

(** On phase 2's command line the number is optional.  [mark-progress]
    with a task id and nothing else is a call with progress 0: on a task that
    is found it stores progress 0 and leaves the status as it is, whatever
    progress the task had. *)
Theorem mark_progress_without_number_stores_zero
        (w : World) (script task_id : string) (i : nat) (task : dict) :
  task_id <> EmptyString ->
  find_task_by_id (disk w) task_id = Ok (Some (i, task)) ->
  main py_int [script; "mark-progress"; task_id]
  = CallMarkProgress task_id 0 EmptyString /\
  exists t1,
    disk (fst (run (Phase2.mark_progress task_id 0 EmptyString) w)) = set_task (disk w) i t1 /\
    t1 !! "progress" = Some (VInt 0) /\
    t1 !! "status" = task !! "status".
Proof.
  intros Hid Hfind. split.
  - unfold main, int_argument, with_task_id. cbn [lookup list_lookup String.eqb Ascii.eqb Bool.eqb].
    cbn. apply String.eqb_neq in Hid. by rewrite Hid.
  - eexists. split; [exact (phase2_mark_progress_disk w task_id EmptyString 0 i task _ Hfind eq_refl)|].
    unfold Phase2.auto_status. cbn [Z.leb Z.ltb Z.compare andb].
    split; [by simplify_map_eq | by rewrite !lookup_insert_ne].
Qed.


End CommandLine.

Lemma mark_progress_without_number_stores_zero_witness :
  let w := Sample.world (Sample.store_t1 "in_progress" 60) in
  main (fun _ => None) ["task_manager_phase2.py"; "mark-progress"; "t1"]
  = CallMarkProgress "t1" 0 EmptyString /\
  exists t1,
    tasks (disk (fst (run (Phase2.mark_progress (DT := UTC.datetime) "t1" 0 EmptyString) w)))
    = [t1] /\
    t1 !! "progress" = Some (VInt 0) /\
    t1 !! "status" = Some (VStr "in_progress").
Proof.
  cbv zeta.
  destruct (mark_progress_without_number_stores_zero (DT := UTC.datetime) (fun _ => None)
              (Sample.world (Sample.store_t1 "in_progress" 60))
              "task_manager_phase2.py" "t1" 0 (Sample.task_t1 "in_progress" 60))
    as (Hmain & t1 & Hd & Hp & Hst); [discriminate | reflexivity |].
  split; [exact Hmain|]. exists t1. rewrite Hd. split; [reflexivity|]. split; [exact Hp|].
  rewrite Hst. reflexivity.
Defined.
